(** * Mean-reversion scalper (mt5_scalper.py): model and properties

    The trading loop of [mt5_scalper.py] is embedded as executable Rocq
    definitions.  Conventions of the embedding:

    - Python and numpy floats are modelled by exact rationals ([Q]) together
      with the two infinities and not-a-number ([pyfloat]); rounding error
      of binary64 is not modelled.  A standard deviation is kept as the
      variance it is the square root of ([sqrtval]), and a z-score as a
      quotient [d / sqrt v] ([zvalue]), so that every comparison the code
      makes is decided exactly; the section on the reals proves that these
      decisions are the comparisons of the real numbers meant.
    - [datetime] values are integers counting microseconds; a [timedelta] is a
      difference of two of them, normalised as Python does.
    - The module-level globals form the record [RiskState]; functions that
      touch them, call the broker, log or sleep live in the monad [M], which
      threads the state, accumulates a trace of [Event]s and propagates
      exceptions.
    - What the broker answers during one pass of the loop is a record
      [World]: one snapshot per pass.  The clock is read at several places
      of one pass and each reading is a separate field.
    - [init] and [shutdown] only talk to the terminal; of [init] the model
      keeps whether it succeeded.

    The file has the model first (numbers, time, series, data, effects, the
    bot, sample inputs, the vocabulary of the statements) and the
    properties after it. *)

From Stdlib Require Import ZArith QArith Qround Qabs Reals Qreals.
From Stdlib Require Import String Bool List Lia Psatz.
From Stdlib Require Floats.
Import ListNotations.
Local Open Scope Z_scope.
Local Open Scope Q_scope.

Set Implicit Arguments.

(** ** Numbers *)

Module Num.

(** A float: a finite value, an infinity or NaN.  Signed zeros are not
    told apart. *)
Inductive pyfloat : Type :=
| F (q : Q)
| PInf
| NInf
| NaN.

Definition Qltb (a b : Q) : bool := negb (Qle_bool b a).

(** Comparisons are false as soon as one side is NaN. *)
Definition fgt (a b : pyfloat) : bool :=
  match a, b with
  | F x, F y => Qltb y x
  | PInf, F _ | PInf, NInf | F _, NInf => true
  | _, _ => false
  end.

Definition flt (a b : pyfloat) : bool := fgt b a.

(** Python's built-in [max(a, b)]: [b] when [b > a], else [a]. *)
Definition py_max (a b : pyfloat) : pyfloat := if fgt b a then b else a.

(** Python's built-in [min(a, b)]: [b] when [b < a], else [a]. *)
Definition py_min (a b : pyfloat) : pyfloat := if flt b a then b else a.

Definition fneg (a : pyfloat) : pyfloat :=
  match a with F x => F (- x) | PInf => NInf | NInf => PInf | NaN => NaN end.

Definition fadd (a b : pyfloat) : pyfloat :=
  match a, b with
  | NaN, _ | _, NaN => NaN
  | F x, F y => F (x + y)
  | PInf, NInf | NInf, PInf => NaN
  | PInf, _ | _, PInf => PInf
  | NInf, _ | _, NInf => NInf
  end.

Definition fsub (a b : pyfloat) : pyfloat := fadd a (fneg b).

(** The infinity of the sign of [x], NaN for zero. *)
Definition signed_inf (x : Q) : pyfloat :=
  if Qltb 0 x then PInf else if Qltb x 0 then NInf else NaN.

Definition fmul (a b : pyfloat) : pyfloat :=
  match a, b with
  | NaN, _ | _, NaN => NaN
  | F x, F y => F (x * y)
  | F x, PInf | PInf, F x => signed_inf x
  | F x, NInf | NInf, F x => signed_inf (- x)
  | PInf, PInf | NInf, NInf => PInf
  | PInf, NInf | NInf, PInf => NInf
  end.

(** Division of numpy floats: a zero divisor gives an infinity or NaN, it
    does not raise. *)
Definition np_div (a b : pyfloat) : pyfloat :=
  match a, b with
  | NaN, _ | _, NaN => NaN
  | F x, F y => if Qeq_bool y 0 then signed_inf x else F (x / y)
  | F _, _ => F 0
  | PInf, F y => if Qltb y 0 then NInf else PInf
  | NInf, F y => if Qltb y 0 then PInf else NInf
  | _, _ => NaN
  end.

Definition is_nan (a : pyfloat) : bool :=
  match a with NaN => true | _ => false end.

(** [x] rounded to [n] decimals, ties to even: Python's [round(x, n)]. *)
Definition round_half_even (q : Q) : Z :=
  let f := Qfloor q in
  let r := q - inject_Z f in
  if Qltb r (1 # 2) then f
  else if Qltb (1 # 2) r then (f + 1)%Z
  else if Z.even f then f else (f + 1)%Z.

Definition pow10 (n : nat) : Q := inject_Z (10 ^ Z.of_nat n).

Definition py_round (q : Q) (n : nat) : Q :=
  inject_Z (round_half_even (q * pow10 n)) / pow10 n.

(** The square root of a rational, or NaN. *)
Inductive sqrtval : Type :=
| Sqrt (v : Q)
| SqrtNaN.

(** [sqrt v == 0]. *)
Definition sqrt_is_zero (s : sqrtval) : bool :=
  match s with Sqrt v => Qeq_bool v 0 | SqrtNaN => false end.

Definition sqrt_is_nan (s : sqrtval) : bool :=
  match s with Sqrt _ => false | SqrtNaN => true end.

(** [sqrt v > c], decided on the squares. *)
Definition sqrt_gt (s : sqrtval) (c : Q) : bool :=
  match s with
  | Sqrt v => if Qltb c 0 then true else Qltb (c * c) v
  | SqrtNaN => false
  end.

(** A z-score: the float [0.0] of the degenerate case, or [d / sqrt v]. *)
Record zvalue : Type := mkZ { z_num : Q; z_var : Q }.

Definition z_zero : zvalue := mkZ 0 1.

Definition z_neg (z : zvalue) : zvalue := mkZ (- z_num z) (z_var z).

(** [d / sqrt v >= c] with [v > 0], decided on the squares. *)
Definition z_ge (z : zvalue) (c : Q) : bool :=
  let d := z_num z in
  let v := z_var z in
  if Qle_bool 0 c
  then Qle_bool 0 d && Qle_bool (c * c * v) (d * d)
  else Qle_bool 0 d || Qle_bool (d * d) (c * c * v).

(** [d / sqrt v <= c]. *)
Definition z_le (z : zvalue) (c : Q) : bool := z_ge (z_neg z) (- c).

(** [abs (d / sqrt v) <= c]. *)
Definition z_abs_le (z : zvalue) (c : Q) : bool :=
  Qle_bool 0 c && Qle_bool (z_num z * z_num z) (c * c * z_var z).

End Num.
Import Num.

(** ** Calendar time *)

Module Time.

(** A naive local [datetime], in microseconds since the epoch. *)
Definition datetime : Type := Z.

Definition us_per_second : Z := 1000000.
Definition us_per_hour : Z := 3600 * us_per_second.
Definition us_per_day : Z := 86400 * us_per_second.

(** [dt.date()], as a day number. *)
Definition date_of (t : datetime) : Z := (t / us_per_day)%Z.

(** [dt.hour]. *)
Definition hour_of (t : datetime) : Z := ((t / us_per_hour) mod 24)%Z.

(** A [timedelta], in microseconds; the fields Python exposes are the
    normalised [days], [seconds] (0 to 86399) and [microseconds]. *)
Definition timedelta : Type := Z.

Definition dt_sub (a b : datetime) : timedelta := (a - b)%Z.

Definition td_days (d : timedelta) : Z := (d / us_per_day)%Z.

Definition td_seconds (d : timedelta) : Z :=
  ((d / us_per_second) mod 86400)%Z.

Definition td_microseconds (d : timedelta) : Z := (d mod us_per_second)%Z.

(** [timedelta.total_seconds()], rounded down to whole seconds. *)
Definition td_total_seconds (d : timedelta) : Z := (d / us_per_second)%Z.

Definition mk_datetime (day hour minute second : Z) : datetime :=
  ((((day * 24 + hour) * 60 + minute) * 60 + second) * us_per_second)%Z.

End Time.
Import Time.

(** ** Series: the pandas operations the bot uses *)

Module Series.

(** Sums are kept in lowest terms, which leaves their value unchanged. *)
Definition Qsum (l : list Q) : Q :=
  fold_right (fun x acc => Qred (x + acc)) 0 l.

Definition len (A : Type) (l : list A) : Q := inject_Z (Z.of_nat (length l)).

(** [Series.mean()] of a series of finite values without gaps. *)
Definition mean (l : list Q) : Q := Qred (Qsum l / len l).

(** Sum of squared deviations from the mean. *)
Definition sq_dev (l : list Q) : Q :=
  Qsum (map (fun x => (x - mean l) * (x - mean l)) l).

(** Sample variance (one degree of freedom removed). *)
Definition variance (l : list Q) : Q := Qred (sq_dev l / (len l - 1)).

(** [Series.std()]: NaN below two observations. *)
Definition std (l : list Q) : sqrtval :=
  if (length l <? 2)%nat then SqrtNaN else Sqrt (variance l).

(** The last [n] entries. *)
Definition lastn (A : Type) (n : nat) (l : list A) : list A :=
  skipn (length l - n) l.

(** The entries of a window when all of them are finite. *)
Fixpoint finite_values (l : list pyfloat) : option (list Q) :=
  match l with
  | [] => Some []
  | F q :: t => option_map (cons q) (finite_values t)
  | _ :: _ => None
  end.

(** The value [rolling(n)] gives at the last row of [prefix]: the statistic
    [f] of the last [n] entries, or [nan] when fewer than [n] finite
    observations are in the window. *)
Definition roll_at (R : Type) (n : nat) (f : list Q -> R) (nan : R)
    (prefix : list pyfloat) : R :=
  if (n =? 0)%nat || (length prefix <? n)%nat then nan
  else match finite_values (lastn n prefix) with
       | Some qs => f qs
       | None => nan
       end.

(** [series.rolling(n).f()], one value per row. *)
Definition rolling (R : Type) (n : nat) (f : list Q -> R) (nan : R)
    (l : list pyfloat) : list R :=
  map (fun i => roll_at n f nan (firstn (S i) l)) (seq 0 (length l)).

Definition rolling_mean (n : nat) (l : list pyfloat) : list pyfloat :=
  rolling n (fun w => F (mean w)) NaN l.

Definition rolling_std (n : nat) (l : list pyfloat) : list sqrtval :=
  rolling n std SqrtNaN l.

(** [series.iloc[-1]]; [None] stands for the IndexError of an empty series. *)
Definition iloc_last (A : Type) (l : list A) : option A :=
  match rev l with [] => None | x :: _ => Some x end.

(** Element-wise [a - b] of two aligned series. *)
Fixpoint series_sub (a b : list pyfloat) : list pyfloat :=
  match a, b with
  | x :: a', y :: b' => fsub x y :: series_sub a' b'
  | _, _ => []
  end.

(** [series.pct_change()]: each entry over the previous one, minus one; the
    first entry has no predecessor. *)
Fixpoint pct_from (prev : Q) (l : list Q) : list pyfloat :=
  match l with
  | [] => []
  | x :: t => fsub (np_div (F x) (F prev)) (F 1) :: pct_from x t
  end.

Definition pct_change (l : list Q) : list pyfloat :=
  match l with
  | [] => []
  | x :: t => NaN :: pct_from x t
  end.

(** [series.dropna()] of a series whose entries are finite or NaN. *)
Fixpoint dropna (l : list pyfloat) : list Q :=
  match l with
  | [] => []
  | F q :: t => q :: dropna t
  | _ :: t => dropna t
  end.

End Series.
Import Series.

(** ** Configuration and data *)

(** The CONFIG block of the script. *)
Record Config : Type := mkConfig {
  SYMBOL : string;
  LOOKBACK : nat;
  Z_ENTER : Q;
  Z_EXIT : Q;
  RISK_PER_TRADE : Q;
  MAX_DAILY_LOSS : Q;
  MAX_LOSS_STREAK : Z;
  VOL_MAX : Q;
  SPREAD_MAX : Q;
  MIN_TRADE_INTERVAL : Z;
  DEVIATION : Z;
  MAGIC : Z;
  DRY_RUN : bool;
  TRADE_HOURS : Z * Z
}.

(** The values the script ships with. *)
Definition default_config : Config := {|
  SYMBOL := "BTCUSDm";
  LOOKBACK := 120;
  Z_ENTER := 12 # 10;
  Z_EXIT := 3 # 10;
  RISK_PER_TRADE := 3 # 1000;
  MAX_DAILY_LOSS := 2 # 100;
  MAX_LOSS_STREAK := 3;
  VOL_MAX := 4 # 1000;
  SPREAD_MAX := 50;
  MIN_TRADE_INTERVAL := 180;
  DEVIATION := 20;
  MAGIC := 777001;
  DRY_RUN := true;
  TRADE_HOURS := (8, 22)%Z
|}.

(** One row of the rates frame. *)
Record Bar : Type := mkBar {
  bar_time : Z;
  bar_open : Q;
  bar_high : Q;
  bar_low : Q;
  bar_close : Q
}.

Definition DataFrame : Type := list Bar.

Record Tick : Type := mkTick { bid : Q; ask : Q }.

Record SymbolInfo : Type := mkSymbolInfo {
  point : Q;
  trade_tick_value : Q;
  trade_tick_size : Q;
  volume_min : Q;
  volume_max : Q;
  volume_step : Q
}.

(** An open position; [pos_type] is 0 for a long (POSITION_TYPE_BUY). *)
Record Position : Type := mkPosition { pos_type : Z; pos_volume : Q }.

Record Account : Type := mkAccount { acc_balance : Q; acc_equity : Q }.

Inductive Side : Type := Buy | Sell.

(** The request dictionary built by [send_order]; [sl] and [tp] are [None]
    when the caller passes Python's [None]. *)
Record OrderRequest : Type := mkRequest {
  req_action : Z;
  req_symbol : string;
  req_volume : Q;
  req_type : Side;
  req_price : Q;
  req_sl : option pyfloat;
  req_tp : option pyfloat;
  req_deviation : Z;
  req_magic : Z;
  req_comment : string;
  req_type_filling : Z
}.

(** Constants of the MetaTrader5 package: a deal at market, fill-or-kill,
    and the return code of a request that was carried out. *)
Definition TRADE_ACTION_DEAL : Z := 1.
Definition ORDER_FILLING_FOK : Z := 0.
Definition TRADE_RETCODE_DONE : Z := 10009.

(** The module-level globals. *)
Record RiskState : Type := mkState {
  last_trade_time : option datetime;
  loss_streak : Z;
  peak_equity : option Q;
  day_start : Z;
  start_equity : option Q
}.

(** The globals as the STATE block initialises them, on day [today]. *)
Definition initial_state (today : Z) : RiskState := {|
  last_trade_time := None;
  loss_streak := 0;
  peak_equity := None;
  day_start := today;
  start_equity := None
|}.

(** What the outside answers during one pass of the loop. *)
Record World : Type := mkWorld {
  account_info : option Account;
  copy_rates_from : option DataFrame;
  symbol_info_tick : option Tick;
  symbol_info : option SymbolInfo;
  positions_get : option (list Position);
  order_send : OrderRequest -> option Z;
  now_day_check : datetime;
  now_day_set : datetime;
  now_gate : datetime;
  now_trade : datetime
}.

(** ** Effects *)

(** Exceptions, by the base class that [except Exception] sees raised:
    [LookupError] covers IndexError and KeyError, [ArithmeticError] covers
    ZeroDivisionError and the refusal of [math.floor] to convert a value
    that is not finite. *)
Inductive exn : Type :=
| AttributeError
| LookupError
| ArithmeticError
| TypeError
| RuntimeError.

Inductive Mt5Call : Type :=
| CallAccountInfo
| CallCopyRatesFrom (n : nat)
| CallSymbolInfoTick
| CallSymbolInfo
| CallPositionsGet
| CallOrderSend (req : OrderRequest).

Inductive Event : Type :=
| Call (c : Mt5Call)
| Log (msg : string)
| LogDryRunOrder (req : OrderRequest)
| LogError (e : exn)
| Sleep (secs : Z).

Inductive result (A : Type) : Type :=
| Ok (a : A)
| Raise (e : exn).

Arguments Raise {A} e.

(** Computations over the globals, with a trace and exceptions.  An
    exception keeps the assignments and the events made before it. *)
Definition M (A : Type) : Type :=
  RiskState -> result A * RiskState * list Event.

Definition ret (A : Type) (a : A) : M A := fun s => (Ok a, s, []).

Definition bind (A B : Type) (m : M A) (k : A -> M B) : M B :=
  fun s =>
    match m s with
    | (Ok a, s1, t1) =>
        match k a s1 with
        | (r, s2, t2) => (r, s2, t1 ++ t2)
        end
    | (Raise e, s1, t1) => (Raise e, s1, t1)
    end.

Definition raise (A : Type) (e : exn) : M A := fun s => (Raise e, s, []).

Arguments raise {A} e.

Definition get : M RiskState := fun s => (Ok s, s, []).

Definition put (s : RiskState) : M unit := fun _ => (Ok tt, s, []).

Definition emit (e : Event) : M unit := fun s => (Ok tt, s, [e]).

Definition log (msg : string) : M unit := emit (Log msg).

Definition sleep (secs : Z) : M unit := emit (Sleep secs).

Declare Scope m_scope.
Delimit Scope m_scope with M.
Notation "x <- m ;; k" := (bind m (fun x => k))
  (at level 61, m at next level, right associativity) : m_scope.
Notation "m ;;; k" := (bind m (fun _ => k))
  (at level 61, right associativity) : m_scope.

(** A broker call: logged in the trace, answered from the world. *)
Definition call (A : Type) (c : Mt5Call) (answer : A) : M A :=
  (emit (Call c) ;;; ret answer)%M.

(** Attribute access on a value that may be Python's [None]. *)
Definition attr (A : Type) (o : option A) : M A :=
  match o with
  | Some a => ret a
  | None => raise AttributeError
  end.

(** Iteration of a statement over a tuple. *)
Fixpoint for_each (A : Type) (l : list A) (body : A -> M unit) : M unit :=
  match l with
  | [] => ret tt
  | x :: t => (body x ;;; for_each t body)%M
  end.

Definition outcome (A : Type) (r : result A * RiskState * list Event) :
    result A := fst (fst r).

Definition state_of (A : Type) (r : result A * RiskState * list Event) :
    RiskState := snd (fst r).

Definition trace_of (A : Type) (r : result A * RiskState * list Event) :
    list Event := snd r.

(** ** The bot *)

Module Bot.

Local Open Scope m_scope.

Section Program.

Variable cfg : Config.

Section Pass.

(** The answers of the outside during the pass at hand. *)
Variable w : World.

(** [account()] *)
Definition account : M (Q * Q) :=
  o <- call CallAccountInfo (account_info w) ;;
  info <- attr o ;;
  ret (acc_balance info, acc_equity info).

(** [rates(n)]: building the frame from no data leaves it without a
    ['time'] column. *)
Definition rates (n : nat) : M DataFrame :=
  r <- call (CallCopyRatesFrom n) (copy_rates_from w) ;;
  match r with
  | Some df => ret df
  | None => raise LookupError
  end.

(** [zscore(series)] *)
Definition zscore (series : list Q) : zvalue :=
  let sd := std series in
  if sqrt_is_zero sd || sqrt_is_nan sd then z_zero
  else match sd, iloc_last series with
       | Sqrt v, Some x => mkZ (x - mean series) v
       | _, _ => z_zero
       end.

(** [has_position()] *)
Definition has_position : M (option (list Position)) :=
  pos <- call CallPositionsGet (positions_get w) ;;
  ret match pos with
      | Some (p :: ps) => Some (p :: ps)
      | _ => None
      end.

(** [df['close']] *)
Definition closes (df : DataFrame) : list Q := map bar_close df.

(** [df['high'].sub(df['low'])] *)
Definition ranges (df : DataFrame) : list pyfloat :=
  series_sub (map (fun b => F (bar_high b)) df)
             (map (fun b => F (bar_low b)) df).

(** [df['close'].pct_change().rolling(20).std().iloc[-1]] *)
Definition last_volatility (df : DataFrame) : option sqrtval :=
  iloc_last (rolling_std 20 (pct_change (closes df))).

(** [TRADE_HOURS[0] <= now.hour <= TRADE_HOURS[1]] *)
Definition in_trade_hours (now : datetime) : bool :=
  (fst (TRADE_HOURS cfg) <=? hour_of now)%Z
  && (hour_of now <=? snd (TRADE_HOURS cfg))%Z.

(** [last_trade_time and
    (now - last_trade_time).seconds < MIN_TRADE_INTERVAL] *)
Definition in_cooldown (now : datetime) (last : option datetime) : bool :=
  match last with
  | Some t => (td_seconds (dt_sub now t) <? MIN_TRADE_INTERVAL cfg)%Z
  | None => false
  end.

(** [safety_check(df)] *)
Definition safety_check (df : DataFrame) : M (bool * string) :=
  let now := now_gate w in
  if negb (in_trade_hours now) then ret (false, "outside trade hours"%string)
  else
    s <- get ;;
    if in_cooldown now (last_trade_time s) then ret (false, "cooldown"%string)
    else
      match last_volatility df with
      | None => raise LookupError
      | Some vol =>
          if sqrt_gt vol (VOL_MAX cfg)
          then ret (false, "volatility too high"%string)
          else
            t <- call CallSymbolInfoTick (symbol_info_tick w) ;;
            tick <- attr t ;;
            let spread := ask tick - bid tick in
            i <- call CallSymbolInfo (symbol_info w) ;;
            info <- attr i ;;
            if Qltb (SPREAD_MAX cfg * point info) spread
            then ret (false, "spread too wide"%string)
            else ret (true, "ok"%string)
      end.

(** [compute_lot(equity, stop_dist)]; [stop_dist] is the numpy float the
    loop passes, so the division by it does not raise. *)
Definition compute_lot (equity : Q) (stop_dist : pyfloat) : M Q :=
  i <- call CallSymbolInfo (symbol_info w) ;;
  info <- attr i ;;
  let tick_value := trade_tick_value info in
  let tick_size := trade_tick_size info in
  if Qeq_bool tick_size 0 then raise ArithmeticError
  else
    let value_per_price := tick_value / tick_size in
    let risk_amount := equity * RISK_PER_TRADE cfg in
    let lots := np_div (F risk_amount) (fmul stop_dist (F value_per_price)) in
    let lots :=
      py_max (F (volume_min info)) (py_min (F (volume_max info)) lots) in
    let step := volume_step info in
    match lots with
    | F l =>
        if Qeq_bool step 0 then raise ArithmeticError
        else ret (py_round (inject_Z (Qfloor (l / step)) * step) 8)
    | _ => raise ArithmeticError
    end.

(** [send_order(side, volume, sl, tp)] *)
Definition send_order (side : Side) (volume : Q) (sl tp : option pyfloat) :
    M bool :=
  t <- call CallSymbolInfoTick (symbol_info_tick w) ;;
  tick <- attr t ;;
  let price := match side with Buy => ask tick | Sell => bid tick end in
  let request := {|
    req_action := TRADE_ACTION_DEAL;
    req_symbol := SYMBOL cfg;
    req_volume := volume;
    req_type := side;
    req_price := price;
    req_sl := sl;
    req_tp := tp;
    req_deviation := DEVIATION cfg;
    req_magic := MAGIC cfg;
    req_comment := "meanrev_safe";
    req_type_filling := ORDER_FILLING_FOK
  |} in
  if DRY_RUN cfg then
    emit (LogDryRunOrder request) ;;;
    ret true
  else
    r <- call (CallOrderSend request) (order_send w request) ;;
    res <- attr r ;;
    ret (res =? TRADE_RETCODE_DONE)%Z.

(** [last_trade_time = datetime.now()], the clock reading being [t]. *)
Definition set_last_trade_time (t : datetime) : M unit :=
  s <- get ;;
  put {| last_trade_time := Some t;
         loss_streak := loss_streak s;
         peak_equity := peak_equity s;
         day_start := day_start s;
         start_equity := start_equity s |}.

(** The two bookkeeping statements that open the loop body: the first
    equity seen, *)
Definition first_equity (equity : Q) : M unit :=
  s <- get ;;
  match start_equity s with
  | None =>
      put {| last_trade_time := last_trade_time s;
             loss_streak := loss_streak s;
             peak_equity := Some equity;
             day_start := day_start s;
             start_equity := Some equity |}
  | Some _ => ret tt
  end.

(** and the daily reset. *)
Definition daily_reset (equity : Q) : M unit :=
  s <- get ;;
  if negb (date_of (now_day_check w) =? day_start s)%Z then
    put {| last_trade_time := last_trade_time s;
           loss_streak := 0;
           peak_equity := peak_equity s;
           day_start := date_of (now_day_set w);
           start_equity := Some equity |}
  else ret tt.

(** [(start_equity - equity) / start_equity > MAX_DAILY_LOSS], on Python
    floats: a zero divisor raises. *)
Definition daily_loss_hit (equity : Q) : M bool :=
  s <- get ;;
  match start_equity s with
  | None => raise TypeError
  | Some se =>
      if Qeq_bool se 0 then raise ArithmeticError
      else ret (Qltb (MAX_DAILY_LOSS cfg) ((se - equity) / se))
  end.

(** The EXIT branch. *)
Definition exit_positions (pos : list Position) : M unit :=
  log "EXIT SIGNAL" ;;;
  for_each pos (fun p =>
    _ <- send_order (if (pos_type p =? 0)%Z then Sell else Buy)
                    (pos_volume p) None None ;;
    ret tt) ;;;
  set_last_trade_time (now_trade w).

(** The ENTRY branch. *)
Definition enter (df : DataFrame) (equity : Q) (z : zvalue) : M unit :=
  match iloc_last (closes df), iloc_last (rolling_mean 20 (ranges df)) with
  | Some price, Some atr =>
      let stop_dist := py_max atr (F (price * (1 # 1000))) in
      if z_ge z (Z_ENTER cfg) then
        lots <- compute_lot equity stop_dist ;;
        _ <- send_order Sell lots
               (Some (fadd (F price) stop_dist))
               (Some (fsub (F price) (fmul stop_dist (F (15 # 10))))) ;;
        set_last_trade_time (now_trade w)
      else if z_le z (- Z_ENTER cfg) then
        lots <- compute_lot equity stop_dist ;;
        _ <- send_order Buy lots
               (Some (fsub (F price) stop_dist))
               (Some (fadd (F price) (fmul stop_dist (F (15 # 10))))) ;;
        set_last_trade_time (now_trade w)
      else ret tt
  | _, _ => raise LookupError
  end.

(** The detrended closes the signal is computed from. *)
Definition detrended (df : DataFrame) : list Q :=
  let close := map F (closes df) in
  let trend := rolling_mean (LOOKBACK cfg) close in
  dropna (series_sub close trend).

(** What follows the two breakers in the loop body. *)
Definition decide (equity : Q) : M unit :=
  df <- rates (LOOKBACK cfg + 5) ;;
  chk <- safety_check df ;;
  if negb (fst chk) then sleep 5
  else
    let z := zscore (detrended df) in
    pos <- has_position ;;
    match pos with
    | Some ps => if z_abs_le z (Z_EXIT cfg) then exit_positions ps else ret tt
    | None => enter df equity z
    end ;;;
    sleep 5.

(** The body of the [try] block of the loop. *)
Definition loop_body : M unit :=
  acc <- account ;;
  let equity := snd acc in
  first_equity equity ;;;
  daily_reset equity ;;;
  hit <- daily_loss_hit equity ;;
  if hit then
    log "MAX DAILY LOSS HIT → STOP" ;;;
    sleep 300
  else
    s <- get ;;
    if (MAX_LOSS_STREAK cfg <=? loss_streak s)%Z then
      log "LOSS STREAK LOCK" ;;;
      sleep 900
    else decide equity.

(** One pass of [while True]: the body, and the handler of [except]. *)
Definition loop_pass : M unit :=
  fun s =>
    match loop_body s with
    | (Raise e, s1, t1) => (Ok tt, s1, t1 ++ [LogError e; Sleep 10])
    | r => r
    end.

End Pass.

(** A finite prefix of the runs of the loop, one world per pass. *)
Definition run_loop (ws : list World) : M unit := for_each ws loop_pass.

(** [run()], for as many passes as there are worlds; [initialized] is the
    answer of [mt5.initialize()]. *)
Definition run (initialized : bool) (ws : list World) : M unit :=
  if initialized then
    log "Bot started" ;;;
    run_loop ws
  else raise RuntimeError.

End Program.

End Bot.
Import Bot.

(** ** Sample inputs *)

Module Sample.

(** A rates frame of [n] identical bars closing at [c], one point of range. *)
Definition flat_frame (n : nat) (c : Q) : DataFrame :=
  repeat (mkBar 0 c (c + 1) c c) n.

Definition sample_info : SymbolInfo := {|
  point := 1 # 100;
  trade_tick_value := 1;
  trade_tick_size := 1;
  volume_min := 1 # 100;
  volume_max := 100;
  volume_step := 1 # 100
|}.

(** Day 5, a quarter past ten, a quiet market, no position. *)
Definition quiet_world : World := {|
  account_info := Some (mkAccount 10000 10000);
  copy_rates_from := Some (flat_frame 30 100);
  symbol_info_tick := Some (mkTick 100 (1001 # 10));
  symbol_info := Some sample_info;
  positions_get := Some [];
  order_send := fun _ => Some TRADE_RETCODE_DONE;
  now_day_check := mk_datetime 5 10 15 0;
  now_day_set := mk_datetime 5 10 15 0;
  now_gate := mk_datetime 5 10 15 0;
  now_trade := mk_datetime 5 10 15 1
|}.

(** The globals after a trade [elapsed] seconds before the gate of
    [quiet_world] reads the clock. *)
Definition traded_before (elapsed : Z) : RiskState := {|
  last_trade_time := Some (now_gate quiet_world - elapsed * us_per_second)%Z;
  loss_streak := 0;
  peak_equity := Some 10000;
  day_start := 5;
  start_equity := Some 10000
|}.

(** The globals on day 5, the day having started with an equity of 10000. *)
Definition day5_state : RiskState := {|
  last_trade_time := None;
  loss_streak := 0;
  peak_equity := Some 10000;
  day_start := 5;
  start_equity := Some 10000
|}.

(** [quiet_world] with another equity on the account. *)
Definition world_with_equity (equity : Q) : World := {|
  account_info := Some (mkAccount 10000 equity);
  copy_rates_from := copy_rates_from quiet_world;
  symbol_info_tick := symbol_info_tick quiet_world;
  symbol_info := symbol_info quiet_world;
  positions_get := positions_get quiet_world;
  order_send := order_send quiet_world;
  now_day_check := now_day_check quiet_world;
  now_day_set := now_day_set quiet_world;
  now_gate := now_gate quiet_world;
  now_trade := now_trade quiet_world
|}.

(** [quiet_world] one day later, the equity having grown to 10100. *)
Definition next_day_world : World := {|
  account_info := Some (mkAccount 10100 10100);
  copy_rates_from := copy_rates_from quiet_world;
  symbol_info_tick := symbol_info_tick quiet_world;
  symbol_info := symbol_info quiet_world;
  positions_get := positions_get quiet_world;
  order_send := order_send quiet_world;
  now_day_check := mk_datetime 6 9 0 0;
  now_day_set := mk_datetime 6 9 0 0;
  now_gate := mk_datetime 6 9 0 0;
  now_trade := mk_datetime 6 9 0 1
|}.

(** The shipped configuration with dry-run switched off. *)
Definition live_config : Config := {|
  SYMBOL := SYMBOL default_config;
  LOOKBACK := LOOKBACK default_config;
  Z_ENTER := Z_ENTER default_config;
  Z_EXIT := Z_EXIT default_config;
  RISK_PER_TRADE := RISK_PER_TRADE default_config;
  MAX_DAILY_LOSS := MAX_DAILY_LOSS default_config;
  MAX_LOSS_STREAK := MAX_LOSS_STREAK default_config;
  VOL_MAX := VOL_MAX default_config;
  SPREAD_MAX := SPREAD_MAX default_config;
  MIN_TRADE_INTERVAL := MIN_TRADE_INTERVAL default_config;
  DEVIATION := DEVIATION default_config;
  MAGIC := MAGIC default_config;
  DRY_RUN := false;
  TRADE_HOURS := TRADE_HOURS default_config
|}.

(** 124 flat bars at 100 and a last bar that closes at 100.1: a z-score
    near 2 on the shipped lookback of 120. *)
Definition spike_frame : DataFrame :=
  flat_frame 124 100 ++ [mkBar 0 100 (1002 # 10) 100 (1001 # 10)].

Definition TRADE_RETCODE_REJECT : Z := 10006.

(** A market that has just spiked, no position, and a broker that rejects
    every order. *)
Definition spike_world : World := {|
  account_info := Some (mkAccount 10000 10000);
  copy_rates_from := Some spike_frame;
  symbol_info_tick := Some (mkTick 100 (1001 # 10));
  symbol_info := Some sample_info;
  positions_get := Some [];
  order_send := fun _ => Some TRADE_RETCODE_REJECT;
  now_day_check := mk_datetime 5 10 15 0;
  now_day_set := mk_datetime 5 10 15 0;
  now_gate := mk_datetime 5 10 15 0;
  now_trade := mk_datetime 5 10 15 1
|}.

(** [spike_world] with a broker that carries out every order. *)
Definition spike_world_filled : World := {|
  account_info := account_info spike_world;
  copy_rates_from := copy_rates_from spike_world;
  symbol_info_tick := symbol_info_tick spike_world;
  symbol_info := symbol_info spike_world;
  positions_get := positions_get spike_world;
  order_send := fun _ => Some TRADE_RETCODE_DONE;
  now_day_check := now_day_check spike_world;
  now_day_set := now_day_set spike_world;
  now_gate := now_gate spike_world;
  now_trade := now_trade spike_world
|}.

(** A flat market with a long position of 0.5 and a short one of 0.2 open,
    and a broker that rejects every order. *)
Definition holding_world : World := {|
  account_info := Some (mkAccount 10000 10000);
  copy_rates_from := Some (flat_frame 125 100);
  symbol_info_tick := Some (mkTick 100 (1001 # 10));
  symbol_info := Some sample_info;
  positions_get := Some [mkPosition 0 (1 # 2); mkPosition 1 (2 # 10)];
  order_send := fun _ => Some TRADE_RETCODE_REJECT;
  now_day_check := mk_datetime 5 10 15 0;
  now_day_set := mk_datetime 5 10 15 0;
  now_gate := mk_datetime 5 10 15 0;
  now_trade := mk_datetime 5 10 15 1
|}.

(** A symbol whose minimum volume, 0.15, is not a whole number of steps
    of 0.1. *)
Definition odd_step_info : SymbolInfo := {|
  point := 1 # 100;
  trade_tick_value := 1;
  trade_tick_size := 1;
  volume_min := 15 # 100;
  volume_max := 100;
  volume_step := 1 # 10
|}.

Definition odd_step_world : World := {|
  account_info := Some (mkAccount 100 100);
  copy_rates_from := copy_rates_from quiet_world;
  symbol_info_tick := symbol_info_tick quiet_world;
  symbol_info := Some odd_step_info;
  positions_get := positions_get quiet_world;
  order_send := order_send quiet_world;
  now_day_check := now_day_check quiet_world;
  now_day_set := now_day_set quiet_world;
  now_gate := now_gate quiet_world;
  now_trade := now_trade quiet_world
|}.

(** Three in the morning, and a broker that knows neither quote nor
    symbol nor bars. *)
Definition night_world : World := {|
  account_info := Some (mkAccount 10000 10000);
  copy_rates_from := Some [];
  symbol_info_tick := None;
  symbol_info := None;
  positions_get := None;
  order_send := fun _ => None;
  now_day_check := mk_datetime 5 3 0 0;
  now_day_set := mk_datetime 5 3 0 0;
  now_gate := mk_datetime 5 3 0 0;
  now_trade := mk_datetime 5 3 0 1
|}.

(** [quiet_world] with a spread of one price unit, twice the ceiling of 50
    points of 0.01. *)
Definition wide_spread_world : World := {|
  account_info := account_info quiet_world;
  copy_rates_from := copy_rates_from quiet_world;
  symbol_info_tick := Some (mkTick 100 101);
  symbol_info := symbol_info quiet_world;
  positions_get := positions_get quiet_world;
  order_send := order_send quiet_world;
  now_day_check := now_day_check quiet_world;
  now_day_set := now_day_set quiet_world;
  now_gate := now_gate quiet_world;
  now_trade := now_trade quiet_world
|}.

(** Thirty bars that close at 100 and 110 in turn: a one-minute volatility
    near ten percent. *)
Definition choppy_frame : DataFrame :=
  flat_map (fun _ => [mkBar 0 100 110 100 100; mkBar 0 100 110 100 110])
           (seq 0 15).

(** 124 flat bars at 100 and a last bar that closes at 99.9: a z-score
    near -2 on the shipped lookback of 120. *)
Definition dip_frame : DataFrame :=
  flat_frame 124 100 ++ [mkBar 0 100 100 (998 # 10) (999 # 10)].

(** A market that has just dipped, no position. *)
Definition dip_world : World := {|
  account_info := Some (mkAccount 10000 10000);
  copy_rates_from := Some dip_frame;
  symbol_info_tick := Some (mkTick (999 # 10) 100);
  symbol_info := Some sample_info;
  positions_get := Some [];
  order_send := fun _ => Some TRADE_RETCODE_DONE;
  now_day_check := mk_datetime 5 10 15 0;
  now_day_set := mk_datetime 5 10 15 0;
  now_gate := mk_datetime 5 10 15 0;
  now_trade := mk_datetime 5 10 15 1
|}.

(** The globals on day 5 with three losses in a row on the counter. *)
Definition streak_state : RiskState := {|
  last_trade_time := None;
  loss_streak := 3;
  peak_equity := Some 10000;
  day_start := 5;
  start_equity := Some 10000
|}.

(** [quiet_world] seen from a terminal that has lost the account. *)
Definition offline_world : World := {|
  account_info := None;
  copy_rates_from := copy_rates_from quiet_world;
  symbol_info_tick := symbol_info_tick quiet_world;
  symbol_info := symbol_info quiet_world;
  positions_get := positions_get quiet_world;
  order_send := order_send quiet_world;
  now_day_check := now_day_check quiet_world;
  now_day_set := now_day_set quiet_world;
  now_gate := now_gate quiet_world;
  now_trade := now_trade quiet_world
|}.

(** [quiet_world] with other bars, or none. *)
Definition world_with_rates (r : option DataFrame) : World := {|
  account_info := account_info quiet_world;
  copy_rates_from := r;
  symbol_info_tick := symbol_info_tick quiet_world;
  symbol_info := symbol_info quiet_world;
  positions_get := positions_get quiet_world;
  order_send := order_send quiet_world;
  now_day_check := now_day_check quiet_world;
  now_day_set := now_day_set quiet_world;
  now_gate := now_gate quiet_world;
  now_trade := now_trade quiet_world
|}.

(** Twenty-nine flat bars at 100 and a last bar that closes at 100.1:
    fewer bars than the shipped lookback. *)
Definition short_spike_frame : DataFrame :=
  flat_frame 29 100 ++ [mkBar 0 100 (1002 # 10) 100 (1001 # 10)].

(** [holding_world] with that short history. *)
Definition short_holding_world : World := {|
  account_info := account_info holding_world;
  copy_rates_from := Some short_spike_frame;
  symbol_info_tick := symbol_info_tick holding_world;
  symbol_info := symbol_info holding_world;
  positions_get := positions_get holding_world;
  order_send := order_send holding_world;
  now_day_check := now_day_check holding_world;
  now_day_set := now_day_set holding_world;
  now_gate := now_gate holding_world;
  now_trade := now_trade holding_world
|}.

(** The sample symbol with a tick value of zero, as a terminal reports it
    before the symbol is synchronised. *)
Definition zero_value_info : SymbolInfo := {|
  point := point sample_info;
  trade_tick_value := 0;
  trade_tick_size := trade_tick_size sample_info;
  volume_min := volume_min sample_info;
  volume_max := volume_max sample_info;
  volume_step := volume_step sample_info
|}.

(** The sample symbol with a volume step of zero. *)
Definition zero_step_info : SymbolInfo := {|
  point := point sample_info;
  trade_tick_value := trade_tick_value sample_info;
  trade_tick_size := trade_tick_size sample_info;
  volume_min := volume_min sample_info;
  volume_max := volume_max sample_info;
  volume_step := 0
|}.

(** [spike_world] with another description of the symbol, or none. *)
Definition spike_world_with_info (i : option SymbolInfo) : World := {|
  account_info := account_info spike_world;
  copy_rates_from := copy_rates_from spike_world;
  symbol_info_tick := symbol_info_tick spike_world;
  symbol_info := i;
  positions_get := positions_get spike_world;
  order_send := order_send spike_world;
  now_day_check := now_day_check spike_world;
  now_day_set := now_day_set spike_world;
  now_gate := now_gate spike_world;
  now_trade := now_trade spike_world
|}.

(** [next_day_world] after a night that halved the equity. *)
Definition gap_down_world : World := {|
  account_info := Some (mkAccount 5000 5000);
  copy_rates_from := copy_rates_from next_day_world;
  symbol_info_tick := symbol_info_tick next_day_world;
  symbol_info := symbol_info next_day_world;
  positions_get := positions_get next_day_world;
  order_send := order_send next_day_world;
  now_day_check := now_day_check next_day_world;
  now_day_set := now_day_set next_day_world;
  now_gate := now_gate next_day_world;
  now_trade := now_trade next_day_world
|}.

(** The globals on day 5, the day having started with an equity of zero. *)
Definition broke_state : RiskState := {|
  last_trade_time := None;
  loss_streak := 0;
  peak_equity := Some 0;
  day_start := 5;
  start_equity := Some 0
|}.

(** [holding_world] with a broker that answers no order. *)
Definition mute_broker_world : World := {|
  account_info := account_info holding_world;
  copy_rates_from := copy_rates_from holding_world;
  symbol_info_tick := symbol_info_tick holding_world;
  symbol_info := symbol_info holding_world;
  positions_get := positions_get holding_world;
  order_send := fun _ => None;
  now_day_check := now_day_check holding_world;
  now_day_set := now_day_set holding_world;
  now_gate := now_gate holding_world;
  now_trade := now_trade holding_world
|}.

(** [spike_world] with a broker that answers no order. *)
Definition mute_spike_world : World := {|
  account_info := account_info spike_world;
  copy_rates_from := copy_rates_from spike_world;
  symbol_info_tick := symbol_info_tick spike_world;
  symbol_info := symbol_info spike_world;
  positions_get := positions_get spike_world;
  order_send := fun _ => None;
  now_day_check := now_day_check spike_world;
  now_day_set := now_day_set spike_world;
  now_gate := now_gate spike_world;
  now_trade := now_trade spike_world
|}.

End Sample.
Import Sample.

(** ** Vocabulary of the statements *)

Module Vocabulary.

(** [m] keeps the invariant [I] of the globals, also when it raises. *)
Definition preserves (I : RiskState -> Prop) (A : Type) (m : M A) : Prop :=
  forall s, I s -> I (state_of (m s)).

(** The invariant does not look at [last_trade_time]. *)
Definition trade_time_blind (I : RiskState -> Prop) : Prop :=
  forall s t,
    I s ->
    I {| last_trade_time := t;
         loss_streak := loss_streak s;
         peak_equity := peak_equity s;
         day_start := day_start s;
         start_equity := start_equity s |}.

(** The globals after the two bookkeeping statements of a pass that reads
    the equity [equity]. *)
Definition bookkept (w : World) (equity : Q) (s : RiskState) : RiskState :=
  state_of (daily_reset w equity (state_of (first_equity equity s))).

(** The globals other than the cooldown anchor. *)
Definition risk_fields (s : RiskState) : Z * option Q * Z * option Q :=
  (loss_streak s, peak_equity s, day_start s, start_equity s).

(** The states the loop can be in between two passes, for any answers of
    the outside. *)
Inductive reachable (cfg : Config) : RiskState -> Prop :=
| reach_start (today : Z) : reachable cfg (initial_state today)
| reach_pass (s : RiskState) (w : World) :
    reachable cfg s -> reachable cfg (state_of (loop_pass cfg w s)).

(** The events that carry an order: the broker call and the dry-run report. *)
Definition is_order_event (e : Event) : bool :=
  match e with
  | Call (CallOrderSend _) => true
  | LogDryRunOrder _ => true
  | _ => false
  end.

Definition has_order (t : list Event) : bool := existsb is_order_event t.

(** What [send_order] does with a request once it is built. *)
Definition order_event (cfg : Config) (req : OrderRequest) : Event :=
  if DRY_RUN cfg then LogDryRunOrder req else Call (CallOrderSend req).

(** [m] emits no event that [P] picks. *)
Definition never (P : Event -> bool) (A : Type) (m : M A) : Prop :=
  forall s, existsb P (trace_of (m s)) = false.

(** [m] emits no order event. *)
Definition silent (A : Type) (m : M A) : Prop :=
  forall s, has_order (trace_of (m s)) = false.

(** The log line of the loss-streak breaker. *)
Definition is_lock_log (e : Event) : bool :=
  match e with
  | Log msg => String.eqb msg "LOSS STREAK LOCK"
  | _ => false
  end.

(** When [m] emits an order event and returns, the cooldown anchor is the
    clock reading [now]. *)
Definition stamps (now : datetime) (A : Type) (m : M A) : Prop :=
  forall s,
    has_order (trace_of (m s)) = true ->
    (exists a, outcome (m s) = Ok a) ->
    last_trade_time (state_of (m s)) = Some now.

(** The globals with the cooldown anchor set to [t]. *)
Definition stamped (t : datetime) (s : RiskState) : RiskState := {|
  last_trade_time := Some t;
  loss_streak := loss_streak s;
  peak_equity := peak_equity s;
  day_start := day_start s;
  start_equity := start_equity s
|}.

(** The request [send_order] builds at the quote [tick]. *)
Definition order_request (cfg : Config) (tick : Tick) (side : Side)
    (volume : Q) (sl tp : option pyfloat) : OrderRequest := {|
  req_action := TRADE_ACTION_DEAL;
  req_symbol := SYMBOL cfg;
  req_volume := volume;
  req_type := side;
  req_price := match side with Buy => ask tick | Sell => bid tick end;
  req_sl := sl;
  req_tp := tp;
  req_deviation := DEVIATION cfg;
  req_magic := MAGIC cfg;
  req_comment := "meanrev_safe";
  req_type_filling := ORDER_FILLING_FOK
|}.

(** The market order that closes [p]: the opposite side, the volume of the
    position, neither stop nor target. *)
Definition closing_request (cfg : Config) (tick : Tick) (p : Position) :
    OrderRequest := {|
  req_action := TRADE_ACTION_DEAL;
  req_symbol := SYMBOL cfg;
  req_volume := pos_volume p;
  req_type := if (pos_type p =? 0)%Z then Sell else Buy;
  req_price := if (pos_type p =? 0)%Z then bid tick else ask tick;
  req_sl := None;
  req_tp := None;
  req_deviation := DEVIATION cfg;
  req_magic := MAGIC cfg;
  req_comment := "meanrev_safe";
  req_type_filling := ORDER_FILLING_FOK
|}.

(** What closing [p] leaves in the trace. *)
Definition closing_events (cfg : Config) (tick : Tick) (p : Position) :
    list Event :=
  [Call CallSymbolInfoTick; order_event cfg (closing_request cfg tick p)].

(** The broker answers every order, or is not asked. *)
Definition broker_answers (cfg : Config) (w : World) : Prop :=
  DRY_RUN cfg = true \/ forall req, order_send w req <> None.

(** Two worlds that differ at most in what the broker answers to an order,
    and in which it does answer. *)
Record same_but_orders (w1 w2 : World) : Prop := {
  same_account : account_info w1 = account_info w2;
  same_rates : copy_rates_from w1 = copy_rates_from w2;
  same_tick : symbol_info_tick w1 = symbol_info_tick w2;
  same_info : symbol_info w1 = symbol_info w2;
  same_positions : positions_get w1 = positions_get w2;
  same_day_check : now_day_check w1 = now_day_check w2;
  same_day_set : now_day_set w1 = now_day_set w2;
  same_gate : now_gate w1 = now_gate w2;
  same_trade : now_trade w1 = now_trade w2;
  answers_left : forall req, order_send w1 req <> None;
  answers_right : forall req, order_send w2 req <> None
}.

(** An entry of the rolling mean of a flat series: none yet, or the level. *)
Definition none_or_level (c : Q) (y : pyfloat) : Prop :=
  y = NaN \/ exists m, y = F m /\ m == c.

(** The real number a z-value stands for. *)
Definition z_real (z : zvalue) : R :=
  (Q2R (z_num z) / sqrt (Q2R (z_var z)))%R.

(** The sleeps of the loop. *)
Definition is_sleep (e : Event) : bool :=
  match e with
  | Sleep _ => true
  | _ => false
  end.

(** A run that returned ends with its only sleep, of one of the lengths
    [allowed]; a run that raised has not slept. *)
Definition sleep_closes (allowed : list Z) (A : Type)
    (r : result A * RiskState * list Event) : Prop :=
  match outcome r with
  | Ok _ =>
      exists t n,
        trace_of r = t ++ [Sleep n]
        /\ existsb is_sleep t = false
        /\ In n allowed
  | Raise _ => existsb is_sleep (trace_of r) = false
  end.

(** The orders that go to the broker. *)
Definition is_dispatch (e : Event) : bool :=
  match e with
  | Call (CallOrderSend _) => true
  | _ => false
  end.

(** [m] leaves the cooldown anchor alone, or it emits an order, returns
    and leaves the clock reading [now] in the anchor. *)
Definition anchored (now : datetime) (A : Type) (m : M A) : Prop :=
  forall s,
    last_trade_time (state_of (m s)) = last_trade_time s
    \/ (has_order (trace_of (m s)) = true
        /\ (exists a, outcome (m s) = Ok a)
        /\ last_trade_time (state_of (m s)) = Some now).

(** [m] never assigns the cooldown anchor. *)
Definition keeps_anchor (A : Type) (m : M A) : Prop :=
  forall s, last_trade_time (state_of (m s)) = last_trade_time s.

(** The log line of the daily-loss breaker. *)
Definition is_stop_log (e : Event) : bool :=
  match e with
  | Log msg => String.eqb msg "MAX DAILY LOSS HIT → STOP"
  | _ => false
  end.

(** What a pass that ends in the handler right after the account query
    leaves in the trace. *)
Definition failed_pass_events (w : World) : list Event :=
  [Call CallAccountInfo;
   LogError match account_info w with
            | Some _ => ArithmeticError
            | None => AttributeError
            end;
   Sleep 10].

(** When [m] emits an order event, it returns. *)
Definition loud_returns (A : Type) (m : M A) : Prop :=
  forall s,
    has_order (trace_of (m s)) = true -> exists a, outcome (m s) = Ok a.

End Vocabulary.
Import Vocabulary.

(** ** Properties *)

Ltac m_unfold :=
  unfold bind, ret, raise, get, put, emit, log, sleep, call, attr in *.

(** *** Running the monad *)

Lemma bind_run (A B : Type) (m : M A) (k : A -> M B) (s s1 : RiskState)
    (a : A) (t1 : list Event) :
  m s = (Ok a, s1, t1) ->
  bind m k s
  = (outcome (k a s1), state_of (k a s1), t1 ++ trace_of (k a s1)).
Proof.
  intros H. unfold bind, outcome, state_of, trace_of. rewrite H.
  destruct (k a s1) as [[r s2] t2]. reflexivity.
Qed.

Arguments bind_run {A B m} k {s s1 a t1} _.

Lemma bind_raise (A B : Type) (m : M A) (k : A -> M B) (s s1 : RiskState)
    (e : exn) (t1 : list Event) :
  m s = (Raise e, s1, t1) ->
  bind m k s = (Raise e, s1, t1).
Proof. intros H. unfold bind. rewrite H. reflexivity. Qed.

Arguments bind_raise {A B m} k {s s1 e t1} _.

Lemma get_ok (s : RiskState) : get s = (Ok s, s, []).
Proof. reflexivity. Qed.

Lemma call_ok (A : Type) (c : Mt5Call) (a : A) (s : RiskState) :
  call c a s = (Ok a, s, [Call c]).
Proof. reflexivity. Qed.

Lemma attr_ok (A : Type) (a : A) (s : RiskState) :
  attr (Some a) s = (Ok a, s, []).
Proof. reflexivity. Qed.

Lemma run_eta (A : Type) (r : result A * RiskState * list Event) :
  r = (outcome r, state_of r, trace_of r).
Proof. destruct r as [[o s] t]. reflexivity. Qed.

(** *** The safety gate *)

Section Gate.

Variable cfg : Config.

Lemma safety_check_outside_hours (w : World) (df : DataFrame) (s : RiskState) :
  in_trade_hours cfg (now_gate w) = false ->
  safety_check cfg w df s = (Ok (false, "outside trade hours"%string), s, []).
Proof.
  intros H. unfold safety_check. rewrite H. reflexivity.
Qed.

Lemma safety_check_cooldown (w : World) (df : DataFrame) (s : RiskState) :
  in_trade_hours cfg (now_gate w) = true ->
  in_cooldown cfg (now_gate w) (last_trade_time s) = true ->
  safety_check cfg w df s = (Ok (false, "cooldown"%string), s, []).
Proof.
  intros Hh Hc. unfold safety_check. rewrite Hh. m_unfold. simpl.
  rewrite Hc. reflexivity.
Qed.

Lemma safety_check_volatility (w : World) (df : DataFrame) (s : RiskState)
    (vol : sqrtval) :
  in_trade_hours cfg (now_gate w) = true ->
  in_cooldown cfg (now_gate w) (last_trade_time s) = false ->
  last_volatility df = Some vol ->
  sqrt_gt vol (VOL_MAX cfg) = true ->
  safety_check cfg w df s = (Ok (false, "volatility too high"%string), s, []).
Proof.
  intros Hh Hc Hv Hgt. unfold safety_check. rewrite Hh. m_unfold. simpl.
  rewrite Hc, Hv, Hgt. reflexivity.
Qed.

Lemma safety_check_spread (w : World) (df : DataFrame) (s : RiskState)
    (vol : sqrtval) (tick : Tick) (info : SymbolInfo) :
  in_trade_hours cfg (now_gate w) = true ->
  in_cooldown cfg (now_gate w) (last_trade_time s) = false ->
  last_volatility df = Some vol ->
  sqrt_gt vol (VOL_MAX cfg) = false ->
  symbol_info_tick w = Some tick ->
  symbol_info w = Some info ->
  safety_check cfg w df s =
    (Ok (if Qltb (SPREAD_MAX cfg * point info) (ask tick - bid tick)
         then (false, "spread too wide"%string)
         else (true, "ok"%string)),
     s, [Call CallSymbolInfoTick; Call CallSymbolInfo]).
Proof.
  intros Hh Hc Hv Hgt Ht Hi. unfold safety_check. rewrite Hh. m_unfold. simpl.
  rewrite Hc, Hv, Hgt, Ht, Hi. simpl.
  destruct (Qltb _ _); reflexivity.
Qed.

(** The gate never touches the globals. *)
Lemma safety_check_state (w : World) (df : DataFrame) (s : RiskState) :
  state_of (safety_check cfg w df s) = s.
Proof.
  unfold safety_check. m_unfold.
  destruct (in_trade_hours cfg (now_gate w)); simpl; [|reflexivity].
  destruct (in_cooldown _ _ _); simpl; [reflexivity|].
  destruct (last_volatility df) as [vol|]; simpl; [|reflexivity].
  destruct (sqrt_gt _ _); simpl; [reflexivity|].
  destruct (symbol_info_tick w); simpl; [|reflexivity].
  destruct (symbol_info w); simpl; [|reflexivity].
  destruct (Qltb _ _); reflexivity.
Qed.

(** A failed gate ends the pass: the decision logic sleeps and does nothing
    else. *)
Lemma decide_gate_failed (w : World) (equity : Q) (df : DataFrame)
    (s s' : RiskState) (reason : string) (t : list Event) :
  copy_rates_from w = Some df ->
  safety_check cfg w df s = (Ok (false, reason), s', t) ->
  decide cfg w equity s =
    (Ok tt, s', Call (CallCopyRatesFrom (LOOKBACK cfg + 5)) :: t ++ [Sleep 5]).
Proof.
  intros Hr Hs. unfold decide, rates. m_unfold. simpl. rewrite Hr. simpl.
  rewrite Hs. reflexivity.
Qed.

End Gate.

(** C6. The gate checks trading hours, cooldown, volatility and spread in
    that order and stops at the first failure.  Outside the trading hours
    it answers "outside trade hours" whatever the cooldown state, the bars
    and the quote are (even where a later filter would raise), without a
    broker call; a failed gate makes the decision logic sleep five seconds
    and neither query positions nor send an order. *)
Theorem safety_check_order_short_circuit :
  forall (cfg : Config) (w : World) (df : DataFrame) (s : RiskState),
    (in_trade_hours cfg (now_gate w) = false ->
     safety_check cfg w df s =
       (Ok (false, "outside trade hours"%string), s, []))
    /\ (in_trade_hours cfg (now_gate w) = true ->
        in_cooldown cfg (now_gate w) (last_trade_time s) = true ->
        safety_check cfg w df s = (Ok (false, "cooldown"%string), s, []))
    /\ (forall vol,
        in_trade_hours cfg (now_gate w) = true ->
        in_cooldown cfg (now_gate w) (last_trade_time s) = false ->
        last_volatility df = Some vol ->
        sqrt_gt vol (VOL_MAX cfg) = true ->
        safety_check cfg w df s =
          (Ok (false, "volatility too high"%string), s, []))
    /\ (forall vol tick info,
        in_trade_hours cfg (now_gate w) = true ->
        in_cooldown cfg (now_gate w) (last_trade_time s) = false ->
        last_volatility df = Some vol ->
        sqrt_gt vol (VOL_MAX cfg) = false ->
        symbol_info_tick w = Some tick ->
        symbol_info w = Some info ->
        safety_check cfg w df s =
          (Ok (if Qltb (SPREAD_MAX cfg * point info) (ask tick - bid tick)
               then (false, "spread too wide"%string)
               else (true, "ok"%string)),
           s, [Call CallSymbolInfoTick; Call CallSymbolInfo]))
    /\ (forall equity reason s' t,
        copy_rates_from w = Some df ->
        safety_check cfg w df s = (Ok (false, reason), s', t) ->
        decide cfg w equity s =
          (Ok tt, s',
           Call (CallCopyRatesFrom (LOOKBACK cfg + 5)) :: t ++ [Sleep 5])).
Proof.
  intros cfg w df s. repeat split.
  - apply safety_check_outside_hours.
  - apply safety_check_cooldown.
  - intros vol. apply safety_check_volatility.
  - intros vol tick info. apply safety_check_spread.
  - intros equity reason s' t. apply decide_gate_failed.
Qed.

(** *** The cooldown *)

Local Open Scope Z_scope.

Lemma td_seconds_range (d : timedelta) : (0 <= td_seconds d < 86400)%Z.
Proof. unfold td_seconds. apply Z.mod_pos_bound. lia. Qed.

(** Whole days of elapsed time are invisible to the [seconds] field. *)
Lemma td_seconds_add_days (d k : Z) :
  td_seconds (d + k * us_per_day) = td_seconds d.
Proof.
  unfold td_seconds, us_per_day.
  replace (d + k * (86400 * us_per_second))%Z
    with (d + (k * 86400) * us_per_second)%Z by ring.
  rewrite Z.div_add by (unfold us_per_second; lia).
  apply Z.mod_add. lia.
Qed.

Lemma td_seconds_total (d : timedelta) :
  td_seconds d = (td_total_seconds d mod 86400)%Z.
Proof. reflexivity. Qed.

Lemma in_cooldown_shift_days (cfg : Config) (now last : datetime) (k : Z) :
  in_cooldown cfg now (Some (last - k * us_per_day)%Z)
  = in_cooldown cfg now (Some last).
Proof.
  unfold in_cooldown, dt_sub.
  replace (now - (last - k * us_per_day))%Z
    with ((now - last) + k * us_per_day)%Z by ring.
  now rewrite td_seconds_add_days.
Qed.

Lemma safety_check_cooldown_iff (cfg : Config) (w : World) (df : DataFrame)
    (s : RiskState) (last : datetime) :
  in_trade_hours cfg (now_gate w) = true ->
  last_trade_time s = Some last ->
  safety_check cfg w df s = (Ok (false, "cooldown"%string), s, [])
  <-> (td_total_seconds (dt_sub (now_gate w) last) mod 86400
       < MIN_TRADE_INTERVAL cfg)%Z.
Proof.
  intros Hh Hl. rewrite <- td_seconds_total. split.
  - unfold safety_check. rewrite Hh. m_unfold. simpl. rewrite Hl. simpl.
    destruct (Z.ltb_spec (td_seconds (dt_sub (now_gate w) last))
                         (MIN_TRADE_INTERVAL cfg)) as [Hlt|Hge];
      [intros _; exact Hlt|].
    destruct (last_volatility df) as [vol|]; simpl; [|discriminate].
    destruct (sqrt_gt _ _); simpl; [discriminate|].
    destruct (symbol_info_tick w); simpl; [|discriminate].
    destruct (symbol_info w); simpl; [|discriminate].
    destruct (Qltb _ _); discriminate.
  - intros Hlt. apply safety_check_cooldown; [exact Hh|].
    rewrite Hl. simpl. now apply Z.ltb_lt.
Qed.

(** C10. With the trading hours open, the gate answers "cooldown" exactly
    when the seconds field of the elapsed timedelta (the elapsed whole
    seconds modulo one day) is below MIN_TRADE_INTERVAL; moving the last
    trade back by whole days changes nothing.  So a trade one day and ten
    seconds old still blocks with the shipped 180 seconds, while one 200
    seconds old does not: passing the cooldown is not monotone in the
    elapsed time. *)
Theorem cooldown_compares_seconds_field :
  (forall cfg w df s last,
      in_trade_hours cfg (now_gate w) = true ->
      last_trade_time s = Some last ->
      safety_check cfg w df s = (Ok (false, "cooldown"%string), s, [])
      <-> (td_total_seconds (dt_sub (now_gate w) last) mod 86400
           < MIN_TRADE_INTERVAL cfg)%Z)
  /\ (forall cfg now last k,
      in_cooldown cfg now (Some (last - k * us_per_day)%Z)
      = in_cooldown cfg now (Some last))
  /\ (let s := traded_before (86400 + 10) in
      let w := quiet_world in
      in_trade_hours default_config (now_gate w) = true
      /\ (exists last,
          last_trade_time s = Some last
          /\ td_total_seconds (dt_sub (now_gate w) last) = 86410%Z
          /\ (MIN_TRADE_INTERVAL default_config < 86410)%Z)
      /\ forall df,
          safety_check default_config w df s
          = (Ok (false, "cooldown"%string), s, []))
  /\ (exists now early late : datetime,
      (late < early < now)%Z
      /\ in_cooldown default_config now (Some early) = false
      /\ in_cooldown default_config now (Some late) = true).
Proof.
  split; [|split; [|split]].
  - intros. now apply safety_check_cooldown_iff.
  - intros. apply in_cooldown_shift_days.
  - cbv zeta. split; [reflexivity|]. split.
    + eexists. split; [reflexivity|]. split; [reflexivity|]. reflexivity.
    + intros df. apply safety_check_cooldown; reflexivity.
  - exists (now_gate quiet_world),
      (now_gate quiet_world - 200 * us_per_second)%Z,
      (now_gate quiet_world - 86410 * us_per_second)%Z.
    split; [vm_compute; split; reflexivity|].
    split; reflexivity.
Qed.

Local Open Scope Q_scope.

(** *** Invariants of the globals *)

Section Frame.

Variable I : RiskState -> Prop.

Lemma preserves_ret (A : Type) (a : A) : preserves I (ret a).
Proof. intros s H; exact H. Qed.

Lemma preserves_raise (A : Type) (e : exn) : preserves I (@raise A e).
Proof. intros s H; exact H. Qed.

Lemma preserves_get : preserves I get.
Proof. intros s H; exact H. Qed.

Lemma preserves_emit (e : Event) : preserves I (emit e).
Proof. intros s H; exact H. Qed.

Lemma preserves_bind (A B : Type) (m : M A) (k : A -> M B) :
  preserves I m -> (forall a, preserves I (k a)) -> preserves I (bind m k).
Proof.
  intros Hm Hk s Hs. unfold bind, state_of.
  specialize (Hm s Hs). unfold state_of in Hm.
  destruct (m s) as [[[a|e] s1] t1]; simpl in *; [|exact Hm].
  specialize (Hk a s1 Hm). unfold state_of in Hk.
  destruct (k a s1) as [[r s2] t2]; exact Hk.
Qed.

Lemma preserves_call (A : Type) (c : Mt5Call) (a : A) : preserves I (call c a).
Proof. intros s H; exact H. Qed.

Lemma preserves_attr (A : Type) (o : option A) : preserves I (attr o).
Proof. intros s H; destruct o; exact H. Qed.

Lemma preserves_for_each (A : Type) (l : list A) (body : A -> M unit) :
  (forall a, preserves I (body a)) -> preserves I (for_each l body).
Proof.
  intros Hb. induction l as [|x l IH]; simpl.
  - apply preserves_ret.
  - apply preserves_bind; [apply Hb | intros _; exact IH].
Qed.

End Frame.

Ltac frame_step :=
  first
    [ apply preserves_ret
    | apply preserves_raise
    | apply preserves_get
    | apply preserves_emit
    | apply preserves_call
    | apply preserves_attr
    | apply preserves_for_each; intros
    | apply preserves_bind; [|intros]
    | match goal with
      | |- preserves _ (if ?b then _ else _) => destruct b
      | |- preserves _ (match ?x with _ => _ end) => destruct x
      end ].

Ltac frame := repeat frame_step.

Section FrameBot.

Variable cfg : Config.
Variable w : World.
Variable I : RiskState -> Prop.

Lemma preserves_safety_check (df : DataFrame) :
  preserves I (safety_check cfg w df).
Proof. unfold safety_check, log, sleep. frame. Qed.

Lemma preserves_compute_lot (equity : Q) (stop_dist : pyfloat) :
  preserves I (compute_lot cfg w equity stop_dist).
Proof. unfold compute_lot. frame. Qed.

Lemma preserves_send_order (side : Side) (volume : Q)
    (sl tp : option pyfloat) :
  preserves I (send_order cfg w side volume sl tp).
Proof. unfold send_order. frame. Qed.

Hypothesis blind : trade_time_blind I.

Lemma preserves_set_last_trade_time (t : datetime) :
  preserves I (set_last_trade_time t).
Proof. intros s Hs. apply blind. exact Hs. Qed.

Lemma preserves_exit_positions (ps : list Position) :
  preserves I (exit_positions cfg w ps).
Proof.
  unfold exit_positions, log.
  repeat first [ apply preserves_set_last_trade_time
               | apply preserves_send_order
               | frame_step ].
Qed.

Lemma preserves_enter (df : DataFrame) (equity : Q) (z : zvalue) :
  preserves I (enter cfg w df equity z).
Proof.
  unfold enter.
  repeat first [ apply preserves_set_last_trade_time
               | apply preserves_send_order
               | apply preserves_compute_lot
               | frame_step ].
Qed.

Lemma preserves_decide (equity : Q) : preserves I (decide cfg w equity).
Proof.
  unfold decide, rates, has_position, sleep.
  repeat first [ apply preserves_safety_check
               | apply preserves_exit_positions
               | apply preserves_enter
               | frame_step ].
Qed.

End FrameBot.

(** *** The bookkeeping that opens a pass *)

Section Bookkeeping.

Variable cfg : Config.
Variable w : World.

Lemma first_equity_result (equity : Q) (s : RiskState) :
  first_equity equity s
  = (Ok tt,
     match start_equity s with
     | None => {| last_trade_time := last_trade_time s;
                  loss_streak := loss_streak s;
                  peak_equity := Some equity;
                  day_start := day_start s;
                  start_equity := Some equity |}
     | Some _ => s
     end, []).
Proof.
  unfold first_equity. m_unfold. simpl. destruct (start_equity s); reflexivity.
Qed.

Lemma daily_reset_result (equity : Q) (s : RiskState) :
  daily_reset w equity s
  = (Ok tt,
     if (date_of (now_day_check w) =? day_start s)%Z then s
     else {| last_trade_time := last_trade_time s;
             loss_streak := 0;
             peak_equity := peak_equity s;
             day_start := date_of (now_day_set w);
             start_equity := Some equity |}, []).
Proof.
  unfold daily_reset. m_unfold. simpl.
  destruct (date_of (now_day_check w) =? day_start s)%Z; reflexivity.
Qed.

(** Past the bookkeeping the start-of-day equity is always set. *)
Lemma bookkept_start_equity (equity : Q) (s : RiskState) :
  exists se, start_equity (bookkept w equity s) = Some se.
Proof.
  unfold bookkept. rewrite first_equity_result. unfold state_of at 2. simpl.
  rewrite daily_reset_result. unfold state_of. simpl.
  destruct (date_of (now_day_check w) =? _)%Z; [|eexists; reflexivity].
  destruct (start_equity s) eqn:E; simpl; eexists; [exact E | reflexivity].
Qed.

Lemma first_equity_ok (equity : Q) (s : RiskState) :
  first_equity equity s = (Ok tt, state_of (first_equity equity s), []).
Proof. rewrite first_equity_result. reflexivity. Qed.

Lemma daily_reset_ok (equity : Q) (s : RiskState) :
  daily_reset w equity s = (Ok tt, state_of (daily_reset w equity s), []).
Proof. rewrite daily_reset_result. reflexivity. Qed.

Lemma account_ok (s : RiskState) (acc : Account) :
  account_info w = Some acc ->
  account w s
  = (Ok (acc_balance acc, acc_equity acc), s, [Call CallAccountInfo]).
Proof. intros Ha. unfold account. m_unfold. simpl. rewrite Ha. reflexivity. Qed.

Lemma daily_loss_hit_ok (equity se : Q) (s : RiskState) :
  start_equity s = Some se ->
  Qeq_bool se 0 = false ->
  daily_loss_hit cfg equity s
  = (Ok (Qltb (MAX_DAILY_LOSS cfg) ((se - equity) / se)), s, []).
Proof.
  intros Hs Hz. unfold daily_loss_hit. m_unfold. simpl. rewrite Hs, Hz.
  reflexivity.
Qed.

(** The loop body, once the account has answered: the bookkeeping, then one
    of the two breakers or the decision logic. *)
Lemma loop_body_after_account (s : RiskState) (acc : Account) (se : Q) :
  account_info w = Some acc ->
  start_equity (bookkept w (acc_equity acc) s) = Some se ->
  Qeq_bool se 0 = false ->
  loop_body cfg w s
  = let equity := acc_equity acc in
    let s2 := bookkept w equity s in
    if Qltb (MAX_DAILY_LOSS cfg) ((se - equity) / se)
    then (Ok tt, s2,
          [Call CallAccountInfo; Log "MAX DAILY LOSS HIT → STOP"; Sleep 300])
    else if (MAX_LOSS_STREAK cfg <=? loss_streak s2)%Z
    then (Ok tt, s2,
          [Call CallAccountInfo; Log "LOSS STREAK LOCK"; Sleep 900])
    else (outcome (decide cfg w equity s2),
          state_of (decide cfg w equity s2),
          Call CallAccountInfo :: trace_of (decide cfg w equity s2)).
Proof.
  intros Ha Hse Hz. cbv zeta. unfold loop_body.
  rewrite (bind_run _ (account_ok s Ha)). cbn [snd].
  rewrite (bind_run _ (first_equity_ok _ s)).
  rewrite (bind_run _ (daily_reset_ok _ _)).
  fold (bookkept w (acc_equity acc) s).
  rewrite (bind_run _ (daily_loss_hit_ok _ _ Hse Hz)).
  destruct (Qltb _ _); [reflexivity|].
  rewrite (bind_run _ (get_ok _)).
  destruct (_ <=? _)%Z; reflexivity.
Qed.

(** The handler of [except] leaves the globals as the body left them. *)
Lemma state_of_loop_pass (s : RiskState) :
  state_of (loop_pass cfg w s) = state_of (loop_body cfg w s).
Proof.
  unfold loop_pass, state_of.
  destruct (loop_body cfg w s) as [[[u|e] s1] t1]; reflexivity.
Qed.

End Bookkeeping.

(** *** Invariants of a pass and of the loop *)

Section PassInvariants.

Variable cfg : Config.

Lemma preserves_loop_body (I : RiskState -> Prop) (w : World) :
  trade_time_blind I ->
  (forall equity, preserves I (first_equity equity)) ->
  (forall equity, preserves I (daily_reset w equity)) ->
  preserves I (loop_body cfg w).
Proof.
  intros Hb Hf Hd. unfold loop_body, account, daily_loss_hit, log, sleep.
  repeat first [ apply Hf | apply Hd | apply preserves_decide; assumption
               | frame_step ].
Qed.

Lemma preserves_loop_pass (I : RiskState -> Prop) (w : World) :
  preserves I (loop_body cfg w) -> preserves I (loop_pass cfg w).
Proof.
  intros H s Hs. rewrite state_of_loop_pass. apply H. exact Hs.
Qed.

Lemma loop_pass_returns (w : World) (s : RiskState) :
  outcome (loop_pass cfg w s) = Ok tt.
Proof.
  unfold loop_pass, outcome.
  destruct (loop_body cfg w s) as [[[[]|e] s1] t1]; reflexivity.
Qed.

Lemma loop_pass_ok (w : World) (s : RiskState) :
  loop_pass cfg w s
  = (Ok tt, state_of (loop_pass cfg w s), trace_of (loop_pass cfg w s)).
Proof.
  rewrite <- (loop_pass_returns w s). apply run_eta.
Qed.

Lemma run_loop_cons (w : World) (ws : list World) (s : RiskState) :
  state_of (run_loop cfg (w :: ws) s)
  = state_of (run_loop cfg ws (state_of (loop_pass cfg w s))).
Proof.
  unfold run_loop. simpl.
  rewrite (bind_run _ (loop_pass_ok w s)). reflexivity.
Qed.

Lemma run_loop_reachable (ws : list World) (s : RiskState) :
  reachable cfg s -> reachable cfg (state_of (run_loop cfg ws s)).
Proof.
  revert s. induction ws as [|w ws IH]; intros s Hs.
  - exact Hs.
  - rewrite run_loop_cons. apply IH. now apply reach_pass.
Qed.

(** Nothing in a pass assigns [loss_streak] a value other than zero. *)
Lemma loss_streak_zero_pass (w : World) :
  preserves (fun s => loss_streak s = 0%Z) (loop_pass cfg w).
Proof.
  apply preserves_loop_pass, preserves_loop_body.
  - intros s t H. exact H.
  - intros equity s H. rewrite first_equity_result. unfold state_of. simpl.
    destruct (start_equity s); exact H.
  - intros equity s H. rewrite daily_reset_result. unfold state_of. simpl.
    destruct (_ =? _)%Z; [exact H | reflexivity].
Qed.

Lemma loss_streak_zero_bookkept (w : World) (equity : Q) (s : RiskState) :
  loss_streak s = 0%Z -> loss_streak (bookkept w equity s) = 0%Z.
Proof.
  intros H. unfold bookkept.
  rewrite first_equity_result. unfold state_of at 2. simpl.
  rewrite daily_reset_result. unfold state_of. simpl.
  destruct (_ =? _)%Z; [|reflexivity].
  destruct (start_equity s); exact H.
Qed.

(** On the day of the marker, with the start-of-day equity set, a pass
    leaves every global but the cooldown anchor alone. *)
Lemma same_day_pass (w : World) (s : RiskState) :
  start_equity s <> None ->
  date_of (now_day_check w) = day_start s ->
  risk_fields (state_of (loop_pass cfg w s)) = risk_fields s.
Proof.
  intros Hse Hday.
  apply (@preserves_loop_pass (fun s' => risk_fields s' = risk_fields s) w);
    [|reflexivity].
  apply preserves_loop_body.
  - intros s' t H. exact H.
  - intros equity s' H. rewrite first_equity_result. unfold state_of. simpl.
    destruct (start_equity s') eqn:E; [exact H|].
    exfalso. apply Hse. unfold risk_fields in H. congruence.
  - intros equity s' H. rewrite daily_reset_result. unfold state_of. simpl.
    assert (Hd : day_start s' = day_start s)
      by (unfold risk_fields in H; congruence).
    rewrite Hd, <- Hday, Z.eqb_refl. exact H.
Qed.

Lemma same_day_run_loop (ws : list World) (s : RiskState) :
  start_equity s <> None ->
  (forall w, In w ws -> date_of (now_day_check w) = day_start s) ->
  risk_fields (state_of (run_loop cfg ws s)) = risk_fields s.
Proof.
  revert s. induction ws as [|w ws IH]; intros s Hse Hday.
  - reflexivity.
  - rewrite run_loop_cons.
    assert (Hw : risk_fields (state_of (loop_pass cfg w s)) = risk_fields s)
      by (apply same_day_pass; [exact Hse | apply Hday; now left]).
    rewrite IH.
    + exact Hw.
    + unfold risk_fields in Hw. congruence.
    + intros w' Hin. unfold risk_fields in Hw.
      replace (day_start (state_of (loop_pass cfg w s))) with (day_start s)
        by congruence.
      apply Hday. now right.
Qed.

(** The pass that sees a new date resets the day's figures. *)
Lemma rollover_pass (w : World) (s : RiskState) (acc : Account) :
  account_info w = Some acc ->
  date_of (now_day_check w) <> day_start s ->
  risk_fields (state_of (loop_pass cfg w s))
  = (0%Z,
     match start_equity s with
     | None => Some (acc_equity acc)
     | Some _ => peak_equity s
     end,
     date_of (now_day_set w), Some (acc_equity acc)).
Proof.
  intros Ha Hday.
  set (s0 := state_of (first_equity (acc_equity acc) s)).
  set (s1 := state_of (daily_reset w (acc_equity acc) s0)).
  assert (H1 : risk_fields s1
               = (0%Z,
                  match start_equity s with
                  | None => Some (acc_equity acc)
                  | Some _ => peak_equity s
                  end, date_of (now_day_set w), Some (acc_equity acc))).
  { unfold s1, s0. rewrite first_equity_result. unfold state_of at 2. simpl.
    rewrite daily_reset_result. unfold state_of. simpl.
    destruct (start_equity s); simpl;
      destruct (Z.eqb_spec (date_of (now_day_check w)) (day_start s));
      try contradiction; reflexivity. }
  rewrite <- H1. rewrite state_of_loop_pass. unfold loop_body.
  rewrite (bind_run _ (account_ok w s Ha)). cbn [snd].
  rewrite (bind_run _ (first_equity_ok _ s)).
  rewrite (bind_run _ (daily_reset_ok w _ _)).
  fold s0. fold s1. unfold state_of at 1. cbn [fst snd].
  apply (@preserves_bind (fun s' => risk_fields s' = risk_fields s1));
    [ | | reflexivity].
  - unfold daily_loss_hit. frame.
  - intros hit. unfold log, sleep.
    repeat first [ apply preserves_decide; [intros ? ? H; exact H]
                 | frame_step ].
Qed.

End PassInvariants.

(** *** Day rollover *)

Lemma bookkept_same_day (w : World) (equity : Q) (s : RiskState) :
  start_equity s <> None ->
  date_of (now_day_check w) = day_start s ->
  bookkept w equity s = s.
Proof.
  intros Hse Hday. unfold bookkept.
  rewrite first_equity_result. unfold state_of at 2. simpl.
  rewrite daily_reset_result. unfold state_of. simpl.
  destruct (start_equity s); [|contradiction].
  rewrite Hday, Z.eqb_refl. reflexivity.
Qed.

(** C5. A pass that reads a date other than the day marker sets
    [start_equity] to the equity it read, [loss_streak] to 0 and the day
    marker to the date read at the assignment.  Later passes that read that
    same date change none of these: the two bookkeeping statements are the
    identity on the state they find, and the whole pass leaves every global
    but the cooldown anchor as it was. *)
Theorem day_rollover_resets_once :
  forall (cfg : Config) (w : World) (ws : list World) (s : RiskState)
         (acc : Account),
    account_info w = Some acc ->
    date_of (now_day_check w) <> day_start s ->
    (forall w', In w' ws ->
                date_of (now_day_check w') = date_of (now_day_set w)) ->
    let s1 := state_of (loop_pass cfg w s) in
    start_equity s1 = Some (acc_equity acc)
    /\ loss_streak s1 = 0%Z
    /\ day_start s1 = date_of (now_day_set w)
    /\ (forall w' equity, In w' ws -> bookkept w' equity s1 = s1)
    /\ risk_fields (state_of (run_loop cfg ws s1)) = risk_fields s1.
Proof.
  intros cfg w ws s acc Ha Hday Hws s1.
  pose proof (rollover_pass cfg w s Ha Hday) as H. fold s1 in H.
  unfold risk_fields in H.
  assert (Hse : start_equity s1 = Some (acc_equity acc)) by congruence.
  assert (Hd : day_start s1 = date_of (now_day_set w)) by congruence.
  split; [exact Hse|]. split; [congruence|]. split; [exact Hd|].
  split.
  - intros w' equity Hin. apply bookkept_same_day.
    + rewrite Hse. discriminate.
    + rewrite Hd. now apply Hws.
  - apply same_day_run_loop.
    + rewrite Hse. discriminate.
    + intros w' Hin. rewrite Hd. now apply Hws.
Qed.

Lemma day_rollover_resets_once_witness :
  let s1 := state_of (loop_pass default_config next_day_world day5_state) in
  start_equity s1 = Some 10100
  /\ loss_streak s1 = 0%Z
  /\ day_start s1 = 6%Z
  /\ (forall w' equity,
       In w' [next_day_world; next_day_world] -> bookkept w' equity s1 = s1)
  /\ risk_fields
       (state_of
          (run_loop default_config [next_day_world; next_day_world] s1))
     = risk_fields s1.
Proof.
  apply (@day_rollover_resets_once default_config next_day_world
           [next_day_world; next_day_world] day5_state
           (mkAccount 10100 10100)).
  - reflexivity.
  - vm_compute. discriminate.
  - intros w' [Hw|[Hw|[]]]; subst w'; reflexivity.
Defined.

(** *** The daily-loss breaker *)

Lemma Qltb_lt (a b : Q) : Qltb a b = true <-> a < b.
Proof.
  unfold Qltb. rewrite negb_true_iff. split.
  - intros H. apply Qnot_le_lt. intros Hle.
    apply Qle_bool_iff in Hle. congruence.
  - intros H. destruct (Qle_bool b a) eqn:E; [|reflexivity].
    apply Qle_bool_iff in E. exfalso. now apply (Qlt_not_le a b).
Qed.

(** The decision logic begins by fetching the rates. *)
Lemma decide_trace_head (cfg : Config) (w : World) (equity : Q)
    (s : RiskState) :
  exists t,
    trace_of (decide cfg w equity s)
    = Call (CallCopyRatesFrom (LOOKBACK cfg + 5)) :: t.
Proof.
  unfold decide, rates, call.
  destruct (copy_rates_from w) as [df|].
  - m_unfold. simpl. unfold trace_of.
    destruct (safety_check cfg w df s) as [[[chk|e] s1] t1]; simpl.
    + match goal with
      | |- context [let (_, _) := ?x in _] => destruct x as [[r2 s2] t2]
      end.
      eexists. reflexivity.
    + eexists. reflexivity.
  - m_unfold. simpl. eexists. reflexivity.
Qed.

Lemma daily_loss_breaker_iff (cfg : Config) (w : World) (s : RiskState)
    (acc : Account) (se : Q) :
  account_info w = Some acc ->
  start_equity (bookkept w (acc_equity acc) s) = Some se ->
  ~ se == 0 ->
  loop_body cfg w s
  = (Ok tt, bookkept w (acc_equity acc) s,
     [Call CallAccountInfo; Log "MAX DAILY LOSS HIT → STOP"; Sleep 300])
  <-> MAX_DAILY_LOSS cfg < (se - acc_equity acc) / se.
Proof.
  intros Ha Hse Hz.
  assert (Hz' : Qeq_bool se 0 = false).
  { destruct (Qeq_bool se 0) eqn:E; [|reflexivity].
    apply Qeq_bool_iff in E. contradiction. }
  rewrite (loop_body_after_account cfg w s Ha Hse Hz'). cbv zeta.
  rewrite <- Qltb_lt.
  destruct (Qltb (MAX_DAILY_LOSS cfg) _).
  - split; reflexivity.
  - split; [|discriminate].
    destruct (_ <=? _)%Z; [discriminate|].
    destruct (decide_trace_head cfg w (acc_equity acc)
                (bookkept w (acc_equity acc) s)) as [t Ht].
    rewrite Ht. discriminate.
Qed.

(** C2. Once the account has answered and the start-of-day equity [se] is
    not zero, the pass takes the daily-loss branch (it logs the stop, sleeps
    300 seconds and does nothing else: no rates, no gate, no order) exactly
    when [(se - equity) / se > MAX_DAILY_LOSS].  With the shipped 0.02 and a
    day started at 10000, an equity of 9800 does not trip the breaker and an
    equity of 9790 does. *)
Theorem daily_loss_breaker_strict :
  (forall (cfg : Config) (w : World) (s : RiskState) (acc : Account) (se : Q),
      account_info w = Some acc ->
      start_equity (bookkept w (acc_equity acc) s) = Some se ->
      ~ se == 0 ->
      loop_body cfg w s
      = (Ok tt, bookkept w (acc_equity acc) s,
         [Call CallAccountInfo; Log "MAX DAILY LOSS HIT → STOP"; Sleep 300])
      <-> MAX_DAILY_LOSS cfg < (se - acc_equity acc) / se)
  /\ ~ In (Log "MAX DAILY LOSS HIT → STOP")
          (trace_of (loop_body default_config (world_with_equity 9800)
                       day5_state))
  /\ loop_body default_config (world_with_equity 9790) day5_state
     = (Ok tt, day5_state,
        [Call CallAccountInfo; Log "MAX DAILY LOSS HIT → STOP"; Sleep 300]).
Proof.
  split; [|split].
  - intros. now apply daily_loss_breaker_iff.
  - vm_compute. intuition discriminate.
  - vm_compute. reflexivity.
Qed.

(** *** Orders *)

Section Never.

Variable P : Event -> bool.

Lemma never_ret (A : Type) (a : A) : never P (ret a).
Proof. intros s; reflexivity. Qed.

Lemma never_raise (A : Type) (e : exn) : never P (@raise A e).
Proof. intros s; reflexivity. Qed.

Lemma never_get : never P get.
Proof. intros s; reflexivity. Qed.

Lemma never_put (s' : RiskState) : never P (put s').
Proof. intros s; reflexivity. Qed.

Lemma never_emit (e : Event) : P e = false -> never P (emit e).
Proof. intros H s. simpl. now rewrite H. Qed.

Lemma never_attr (A : Type) (o : option A) : never P (attr o).
Proof. intros s; destruct o; reflexivity. Qed.

Lemma never_bind (A B : Type) (m : M A) (k : A -> M B) :
  never P m -> (forall a, never P (k a)) -> never P (bind m k).
Proof.
  intros Hm Hk s. specialize (Hm s). unfold bind, trace_of in *.
  destruct (m s) as [[[a|e] s1] t1]; simpl in *; [|exact Hm].
  specialize (Hk a s1). unfold trace_of in Hk.
  destruct (k a s1) as [[r s2] t2]; simpl in *.
  rewrite existsb_app, Hm, Hk. reflexivity.
Qed.

Lemma never_call (A : Type) (c : Mt5Call) (a : A) :
  P (Call c) = false -> never P (call c a).
Proof.
  intros H. unfold call. apply never_bind.
  - now apply never_emit.
  - intros _. apply never_ret.
Qed.

Lemma never_for_each (A : Type) (l : list A) (body : A -> M unit) :
  (forall a, never P (body a)) -> never P (for_each l body).
Proof.
  intros Hb. induction l as [|x l IH]; simpl.
  - apply never_ret.
  - apply never_bind; [apply Hb | intros _; exact IH].
Qed.

End Never.

Lemma has_order_app (t1 t2 : list Event) :
  has_order (t1 ++ t2) = has_order t1 || has_order t2.
Proof. apply existsb_app. Qed.

Ltac never_step :=
  first
    [ apply never_ret
    | apply never_raise
    | apply never_get
    | apply never_put
    | apply never_attr
    | apply never_emit; reflexivity
    | apply never_call; reflexivity
    | apply never_for_each; intros
    | apply never_bind; [|intros]
    | match goal with
      | |- never _ (if ?b then _ else _) => destruct b
      | |- never _ (match ?x with _ => _ end) => destruct x
      end ].

(** Silence is the absence of order events. *)
Ltac silence :=
  try match goal with
      | |- @silent ?A ?m => change (@never is_order_event A m)
      end;
  repeat never_step.

Section Orders.

Variable cfg : Config.
Variable w : World.

Lemma silent_account : silent (account w).
Proof. unfold account. silence. Qed.

Lemma silent_rates (n : nat) : silent (rates w n).
Proof. unfold rates. silence. Qed.

Lemma silent_safety_check (df : DataFrame) : silent (safety_check cfg w df).
Proof. unfold safety_check. silence. Qed.

Lemma silent_has_position : silent (has_position w).
Proof. unfold has_position. silence. Qed.

Lemma silent_compute_lot (equity : Q) (stop_dist : pyfloat) :
  silent (compute_lot cfg w equity stop_dist).
Proof. unfold compute_lot. silence. Qed.

Lemma silent_first_equity (equity : Q) : silent (first_equity equity).
Proof. unfold first_equity. silence. Qed.

Lemma silent_daily_reset (equity : Q) : silent (daily_reset w equity).
Proof. unfold daily_reset. silence. Qed.

Lemma silent_daily_loss_hit (equity : Q) :
  silent (daily_loss_hit cfg equity).
Proof. unfold daily_loss_hit. silence. Qed.

Lemma stamps_silent (now : datetime) (A : Type) (m : M A) :
  silent m -> stamps now m.
Proof. intros H s Ho. rewrite H in Ho. discriminate. Qed.

(** A silent prefix does not matter. *)
Lemma stamps_after_silent (now : datetime) (A B : Type) (m : M A)
    (k : A -> M B) :
  silent m -> (forall a, stamps now (k a)) -> stamps now (bind m k).
Proof.
  intros Hm Hk s. specialize (Hm s).
  unfold stamps, bind, trace_of, outcome, state_of in *.
  destruct (m s) as [[[a|e] s1] t1]; simpl in *.
  - specialize (Hk a s1). destruct (k a s1) as [[r s2] t2]; simpl in *.
    rewrite has_order_app, Hm. simpl. exact Hk.
  - intros Ho. rewrite Hm in Ho. discriminate.
Qed.

(** Nor does a sleep at the end. *)
Lemma stamps_then_sleep (now : datetime) (m : M unit) (secs : Z) :
  stamps now m -> stamps now (bind m (fun _ => sleep secs)).
Proof.
  intros Hm s. specialize (Hm s).
  unfold stamps, bind, sleep, emit, trace_of, outcome, state_of in *.
  destruct (m s) as [[[a|e] s1] t1]; simpl in *.
  - rewrite has_order_app. simpl. rewrite orb_false_r.
    intros Ho _. apply Hm; [exact Ho | now exists a].
  - intros _ [a Ha]. discriminate.
Qed.

(** Whatever precedes it, the assignment of the anchor is what a returning
    branch ends with. *)
Lemma stamps_set_last (now : datetime) (A : Type) (m : M A) :
  stamps now (bind m (fun _ => set_last_trade_time now)).
Proof.
  intros s _ [a Ha]. revert Ha.
  unfold bind, set_last_trade_time, get, put, outcome, state_of.
  destruct (m s) as [[[x|e] s1] t1]; simpl; [reflexivity | discriminate].
Qed.

Lemma stamps_exit_positions (ps : list Position) :
  stamps (now_trade w) (exit_positions cfg w ps).
Proof.
  unfold exit_positions. apply stamps_after_silent.
  - unfold log. silence.
  - intros _. apply stamps_set_last.
Qed.

Lemma stamps_enter (df : DataFrame) (equity : Q) (z : zvalue) :
  stamps (now_trade w) (enter cfg w df equity z).
Proof.
  unfold enter.
  destruct (iloc_last (closes df)) as [price|];
    [|apply stamps_silent; silence].
  destruct (iloc_last (rolling_mean 20 (ranges df))) as [atr|];
    [|apply stamps_silent; silence].
  destruct (z_ge z (Z_ENTER cfg)); [|destruct (z_le z (- Z_ENTER cfg))].
  - apply stamps_after_silent; [apply silent_compute_lot|].
    intros lots. apply stamps_set_last.
  - apply stamps_after_silent; [apply silent_compute_lot|].
    intros lots. apply stamps_set_last.
  - apply stamps_silent. silence.
Qed.

Lemma stamps_decide (equity : Q) :
  stamps (now_trade w) (decide cfg w equity).
Proof.
  unfold decide.
  apply stamps_after_silent; [apply silent_rates|]. intros df.
  apply stamps_after_silent; [apply silent_safety_check|]. intros chk.
  destruct (negb (fst chk)); [apply stamps_silent; unfold sleep; silence|].
  apply stamps_after_silent; [apply silent_has_position|]. intros pos.
  apply stamps_then_sleep.
  destruct pos as [ps|].
  - destruct (z_abs_le _ _);
      [apply stamps_exit_positions | apply stamps_silent; silence].
  - apply stamps_enter.
Qed.

Lemma stamps_loop_body : stamps (now_trade w) (loop_body cfg w).
Proof.
  unfold loop_body.
  apply stamps_after_silent; [apply silent_account|]. intros acc.
  apply stamps_after_silent; [apply silent_first_equity|]. intros _.
  apply stamps_after_silent; [apply silent_daily_reset|]. intros _.
  apply stamps_after_silent; [apply silent_daily_loss_hit|]. intros hit.
  destruct hit; [apply stamps_silent; unfold log, sleep; silence|].
  apply stamps_after_silent; [silence|]. intros s.
  destruct (_ <=? _)%Z; [apply stamps_silent; unfold log, sleep; silence|].
  apply stamps_decide.
Qed.

End Orders.

(** *** What the broker answers to an order does not matter *)

Section Independence.

Lemma bind_ext (A B : Type) (m1 m2 : M A) (k1 k2 : A -> M B) :
  (forall s, m1 s = m2 s) ->
  (forall a s, k1 a s = k2 a s) ->
  forall s, bind m1 k1 s = bind m2 k2 s.
Proof.
  intros Hm Hk s. unfold bind. rewrite Hm.
  destruct (m2 s) as [[[a|e] s1] t1]; [|reflexivity].
  rewrite Hk. reflexivity.
Qed.

Lemma for_each_ext (A : Type) (l : list A) (body1 body2 : A -> M unit) :
  (forall a s, body1 a s = body2 a s) ->
  forall s, for_each l body1 s = for_each l body2 s.
Proof.
  intros Hb. induction l as [|x l IH]; intros s; [reflexivity|].
  simpl. apply bind_ext; [apply Hb | intros _; exact IH].
Qed.

Variable cfg : Config.
Variables w1 w2 : World.
Hypothesis same : same_but_orders w1 w2.

Lemma account_same (s : RiskState) : account w1 s = account w2 s.
Proof. unfold account. rewrite (same_account same). reflexivity. Qed.

Lemma rates_same (n : nat) (s : RiskState) : rates w1 n s = rates w2 n s.
Proof. unfold rates. rewrite (same_rates same). reflexivity. Qed.

Lemma has_position_same (s : RiskState) :
  has_position w1 s = has_position w2 s.
Proof. unfold has_position. rewrite (same_positions same). reflexivity. Qed.

Lemma safety_check_same (df : DataFrame) (s : RiskState) :
  safety_check cfg w1 df s = safety_check cfg w2 df s.
Proof.
  unfold safety_check.
  rewrite (same_gate same), (same_tick same), (same_info same).
  reflexivity.
Qed.

Lemma compute_lot_same (equity : Q) (stop_dist : pyfloat) (s : RiskState) :
  compute_lot cfg w1 equity stop_dist s = compute_lot cfg w2 equity stop_dist s.
Proof. unfold compute_lot. rewrite (same_info same). reflexivity. Qed.

Lemma daily_reset_same (equity : Q) (s : RiskState) :
  daily_reset w1 equity s = daily_reset w2 equity s.
Proof.
  unfold daily_reset.
  rewrite (same_day_check same), (same_day_set same). reflexivity.
Qed.

(** The value [send_order] returns may differ; what follows a call that
    drops it does not. *)
Lemma send_order_dropped (B : Type) (k : M B) (side : Side) (volume : Q)
    (sl tp : option pyfloat) (s : RiskState) :
  bind (send_order cfg w1 side volume sl tp) (fun _ => k) s
  = bind (send_order cfg w2 side volume sl tp) (fun _ => k) s.
Proof.
  unfold send_order. m_unfold. simpl. rewrite (same_tick same).
  destruct (symbol_info_tick w2) as [tick|]; simpl; [|reflexivity].
  destruct (DRY_RUN cfg); simpl; [reflexivity|].
  match goal with
  | |- context [order_send w1 ?r] =>
      pose proof (answers_left same r) as H1;
      pose proof (answers_right same r) as H2;
      destruct (order_send w1 r) as [rc1|]; [|contradiction];
      destruct (order_send w2 r) as [rc2|]; [|contradiction]
  end.
  simpl. reflexivity.
Qed.

Lemma exit_positions_same (ps : list Position) (s : RiskState) :
  exit_positions cfg w1 ps s = exit_positions cfg w2 ps s.
Proof.
  unfold exit_positions. apply bind_ext; [reflexivity|]. intros _ s1.
  apply bind_ext.
  - apply for_each_ext. intros p s2. apply send_order_dropped.
  - intros _ s2. rewrite (same_trade same). reflexivity.
Qed.

Lemma enter_same (df : DataFrame) (equity : Q) (z : zvalue) (s : RiskState) :
  enter cfg w1 df equity z s = enter cfg w2 df equity z s.
Proof.
  unfold enter.
  destruct (iloc_last (closes df)); [|reflexivity].
  destruct (iloc_last (rolling_mean 20 (ranges df))); [|reflexivity].
  rewrite (same_trade same).
  destruct (z_ge z (Z_ENTER cfg)); [|destruct (z_le z (- Z_ENTER cfg))].
  - apply bind_ext; [apply compute_lot_same|].
    intros lots s1. apply send_order_dropped.
  - apply bind_ext; [apply compute_lot_same|].
    intros lots s1. apply send_order_dropped.
  - reflexivity.
Qed.

Lemma decide_same (equity : Q) (s : RiskState) :
  decide cfg w1 equity s = decide cfg w2 equity s.
Proof.
  unfold decide. apply bind_ext; [apply rates_same|]. intros df s1.
  apply bind_ext; [apply safety_check_same|]. intros chk s2.
  destruct (negb (fst chk)); [reflexivity|].
  apply bind_ext; [apply has_position_same|]. intros pos s3.
  apply bind_ext; [|reflexivity].
  intros s4. destruct pos as [ps|].
  - destruct (z_abs_le _ _); [apply exit_positions_same | reflexivity].
  - apply enter_same.
Qed.

(** The whole pass is the same, state, trace and outcome, whatever return
    codes the broker gives. *)
Lemma loop_body_same (s : RiskState) : loop_body cfg w1 s = loop_body cfg w2 s.
Proof.
  unfold loop_body. apply bind_ext; [apply account_same|]. intros acc s1.
  apply bind_ext; [reflexivity|]. intros _ s2.
  apply bind_ext; [apply daily_reset_same|]. intros _ s3.
  apply bind_ext; [reflexivity|]. intros hit s4.
  destruct hit; [reflexivity|].
  apply bind_ext; [reflexivity|]. intros s5 s6.
  destruct (_ <=? _)%Z; [reflexivity|]. apply decide_same.
Qed.

End Independence.

(** One request, two answers: it is carried out in [spike_world_filled],
    where [send_order] answers [True]; in [spike_world] it is rejected and
    [send_order] answers [False]. *)
Example spike_world_send_order_values :
  outcome (send_order live_config spike_world_filled Sell 1 None None
             day5_state) = Ok true
  /\ outcome (send_order live_config spike_world Sell 1 None None
                day5_state) = Ok false.
Proof. split; reflexivity. Qed.

(** The broker of [spike_world] rejects the order of that pass, and
    [send_order] reports it. *)
Example spike_world_order_rejected :
  exists req,
    In (Call (CallOrderSend req))
       (trace_of (loop_body live_config spike_world day5_state))
    /\ order_send spike_world req = Some TRADE_RETCODE_REJECT
    /\ outcome (send_order live_config spike_world (req_type req)
                  (req_volume req) (req_sl req) (req_tp req) day5_state)
       = Ok false.
Proof.
  eexists. split.
  - vm_compute. do 7 right. left. reflexivity.
  - split; vm_compute; reflexivity.
Qed.

(** *** The loss streak *)

Section LossStreak.

Variable cfg : Config.
Variable w : World.

(** Nothing the decision logic does logs the lock of the breaker. *)
Lemma never_lock_decide (equity : Q) :
  never is_lock_log (decide cfg w equity).
Proof.
  unfold decide, rates, safety_check, has_position, exit_positions, enter,
    compute_lot, send_order, set_last_trade_time, log, sleep.
  repeat never_step.
Qed.

Lemma account_none (s : RiskState) :
  account_info w = None ->
  account w s = (Raise AttributeError, s, [Call CallAccountInfo]).
Proof. intros H. unfold account. m_unfold. simpl. rewrite H. reflexivity. Qed.

Lemma daily_loss_hit_zero (equity se : Q) (s : RiskState) :
  start_equity s = Some se ->
  Qeq_bool se 0 = true ->
  daily_loss_hit cfg equity s = (Raise ArithmeticError, s, []).
Proof.
  intros Hs Hz. unfold daily_loss_hit. m_unfold. simpl. rewrite Hs, Hz.
  reflexivity.
Qed.

(** With a loss streak of zero and a limit of at least one, the body of a
    pass does not log the lock. *)
Lemma no_lock_body (s : RiskState) :
  (1 <= MAX_LOSS_STREAK cfg)%Z ->
  loss_streak s = 0%Z ->
  existsb is_lock_log (trace_of (loop_body cfg w s)) = false.
Proof.
  intros Hmax H0.
  destruct (account_info w) as [acc|] eqn:Ha.
  - destruct (bookkept_start_equity w (acc_equity acc) s) as [se Hse].
    destruct (Qeq_bool se 0) eqn:Hz.
    + unfold loop_body.
      rewrite (bind_run _ (account_ok w s Ha)). cbn [snd].
      rewrite (bind_run _ (first_equity_ok _ s)).
      rewrite (bind_run _ (daily_reset_ok w _ _)).
      fold (bookkept w (acc_equity acc) s).
      rewrite (bind_raise _ (daily_loss_hit_zero _ _ Hse Hz)).
      reflexivity.
    + rewrite (loop_body_after_account cfg w s Ha Hse Hz). cbv zeta.
      destruct (Qltb _ _); [reflexivity|].
      rewrite (loss_streak_zero_bookkept w (acc_equity acc) s H0).
      replace (MAX_LOSS_STREAK cfg <=? 0)%Z with false
        by (symmetry; apply Z.leb_gt; lia).
      unfold trace_of at 1. cbn [snd existsb is_lock_log orb].
      apply never_lock_decide.
  - unfold loop_body. rewrite (bind_raise _ (account_none s Ha)).
    reflexivity.
Qed.

Lemma no_lock_pass (s : RiskState) :
  (1 <= MAX_LOSS_STREAK cfg)%Z ->
  loss_streak s = 0%Z ->
  existsb is_lock_log (trace_of (loop_pass cfg w s)) = false.
Proof.
  intros Hmax H0. pose proof (no_lock_body s Hmax H0) as H.
  unfold loop_pass, trace_of in *.
  destruct (loop_body cfg w s) as [[[u|e] s1] t1]; cbn [snd] in *.
  - exact H.
  - rewrite existsb_app, H. reflexivity.
Qed.

End LossStreak.

(** C8. In every state the loop reaches, [loss_streak] is 0: it starts at
    0 and each pass keeps it at 0, also at the point inside a pass where the
    breaker reads it; so with MAX_LOSS_STREAK at least 1 the breaker
    condition [loss_streak >= MAX_LOSS_STREAK] is false there, and no pass
    logs the lock of the breaker. *)
Theorem loss_streak_stays_zero :
  forall (cfg : Config) (s : RiskState),
    reachable cfg s ->
    loss_streak s = 0%Z
    /\ (forall w equity, loss_streak (bookkept w equity s) = 0%Z)
    /\ ((1 <= MAX_LOSS_STREAK cfg)%Z ->
        forall w,
          (forall equity,
              (MAX_LOSS_STREAK cfg <=? loss_streak (bookkept w equity s))%Z
              = false)
          /\ ~ In (Log "LOSS STREAK LOCK") (trace_of (loop_pass cfg w s))).
Proof.
  intros cfg s Hr.
  assert (H0 : loss_streak s = 0%Z).
  { induction Hr as [today|s w Hr IH].
    - reflexivity.
    - now apply loss_streak_zero_pass. }
  split; [exact H0|]. split.
  - intros w equity. now apply loss_streak_zero_bookkept.
  - intros Hmax w. split.
    + intros equity. rewrite (loss_streak_zero_bookkept w equity s H0).
      apply Z.leb_gt. lia.
    + intros Hin. pose proof (no_lock_pass cfg w s Hmax H0) as Hn.
      assert (Ht : existsb is_lock_log (trace_of (loop_pass cfg w s)) = true).
      { apply existsb_exists. eexists. split; [exact Hin | reflexivity]. }
      congruence.
Qed.

Lemma loss_streak_stays_zero_witness :
  let s := state_of (run_loop default_config
                       [quiet_world; next_day_world] (initial_state 5)) in
  loss_streak s = 0%Z
  /\ (forall w equity, loss_streak (bookkept w equity s) = 0%Z)
  /\ ((1 <= MAX_LOSS_STREAK default_config)%Z ->
      forall w,
        (forall equity,
            (MAX_LOSS_STREAK default_config
             <=? loss_streak (bookkept w equity s))%Z = false)
        /\ ~ In (Log "LOSS STREAK LOCK")
               (trace_of (loop_pass default_config w s))).
Proof.
  apply (@loss_streak_stays_zero default_config).
  apply run_loop_reachable. apply reach_start.
Defined.

(** *** Closing a position *)

Section Execution.

Variable cfg : Config.
Variable w : World.

Lemma rates_ok (n : nat) (df : DataFrame) (s : RiskState) :
  copy_rates_from w = Some df ->
  rates w n s = (Ok df, s, [Call (CallCopyRatesFrom n)]).
Proof. intros H. unfold rates. m_unfold. simpl. rewrite H. reflexivity. Qed.

Lemma has_position_ok (s : RiskState) :
  has_position w s
  = (Ok match positions_get w with
        | Some (p :: ps) => Some (p :: ps)
        | _ => None
        end, s, [Call CallPositionsGet]).
Proof. reflexivity. Qed.

Lemma send_order_ok (tick : Tick) (side : Side) (volume : Q)
    (sl tp : option pyfloat) (s : RiskState) :
  symbol_info_tick w = Some tick ->
  broker_answers cfg w ->
  exists filled,
    send_order cfg w side volume sl tp s
    = (Ok filled, s,
       [Call CallSymbolInfoTick;
        order_event cfg (order_request cfg tick side volume sl tp)])
    /\ (DRY_RUN cfg = true -> filled = true).
Proof.
  intros Ht Hb. unfold send_order, order_event. m_unfold. simpl.
  rewrite Ht. simpl. fold (order_request cfg tick side volume sl tp).
  destruct (DRY_RUN cfg) eqn:Hd.
  - exists true. split; reflexivity.
  - destruct Hb as [Hb|Hb]; [congruence|].
    specialize (Hb (order_request cfg tick side volume sl tp)).
    destruct (order_send w _) as [rc|]; [|contradiction].
    eexists. split; [reflexivity | discriminate].
Qed.

Lemma closing_request_eq (tick : Tick) (p : Position) :
  order_request cfg tick (if (pos_type p =? 0)%Z then Sell else Buy)
    (pos_volume p) None None
  = closing_request cfg tick p.
Proof.
  unfold order_request, closing_request. destruct (_ =? _)%Z; reflexivity.
Qed.

Lemma close_all_ok (tick : Tick) (ps : list Position) (s : RiskState) :
  symbol_info_tick w = Some tick ->
  broker_answers cfg w ->
  for_each ps (fun p =>
    bind (send_order cfg w (if (pos_type p =? 0)%Z then Sell else Buy)
            (pos_volume p) None None)
         (fun _ => ret tt)) s
  = (Ok tt, s, flat_map (closing_events cfg tick) ps).
Proof.
  intros Ht Hb. induction ps as [|p ps IH]; [reflexivity|].
  simpl for_each.
  destruct (send_order_ok (if (pos_type p =? 0)%Z then Sell else Buy)
              (pos_volume p) None None s Ht Hb) as [filled [Hs _]].
  rewrite closing_request_eq in Hs.
  assert (Hp : bind (send_order cfg w
                       (if (pos_type p =? 0)%Z then Sell else Buy)
                       (pos_volume p) None None)
                    (fun _ => ret tt) s
               = (Ok tt, s, closing_events cfg tick p))
    by (rewrite (bind_run _ Hs); reflexivity).
  rewrite (bind_run _ Hp), IH. reflexivity.
Qed.

Lemma exit_positions_ok (tick : Tick) (ps : list Position) (s : RiskState) :
  symbol_info_tick w = Some tick ->
  broker_answers cfg w ->
  exit_positions cfg w ps s
  = (Ok tt, stamped (now_trade w) s,
     Log "EXIT SIGNAL" :: flat_map (closing_events cfg tick) ps).
Proof.
  intros Ht Hb. unfold exit_positions.
  rewrite (bind_run _ (eq_refl : log "EXIT SIGNAL" s
                                 = (Ok tt, s, [Log "EXIT SIGNAL"]))).
  rewrite (bind_run _ (close_all_ok ps s Ht Hb)).
  unfold set_last_trade_time. m_unfold. simpl.
  rewrite app_nil_r. reflexivity.
Qed.

(** A gate that answers "ok" has read the quote. *)
Lemma safety_check_passed (df : DataFrame) (s s' : RiskState)
    (reason : string) (t : list Event) :
  safety_check cfg w df s = (Ok (true, reason), s', t) ->
  s' = s
  /\ t = [Call CallSymbolInfoTick; Call CallSymbolInfo]
  /\ in_trade_hours cfg (now_gate w) = true
  /\ in_cooldown cfg (now_gate w) (last_trade_time s) = false
  /\ (exists vol, last_volatility df = Some vol
                  /\ sqrt_gt vol (VOL_MAX cfg) = false)
  /\ (exists tick info,
        symbol_info_tick w = Some tick /\ symbol_info w = Some info
        /\ Qltb (SPREAD_MAX cfg * point info) (ask tick - bid tick) = false).
Proof.
  unfold safety_check. m_unfold. simpl.
  destruct (in_trade_hours cfg (now_gate w)); simpl; [|discriminate].
  destruct (in_cooldown _ _ _); simpl; [discriminate|].
  destruct (last_volatility df) as [vol|]; simpl; [|discriminate].
  destruct (sqrt_gt vol _) eqn:Hv; simpl; [discriminate|].
  destruct (symbol_info_tick w) as [tick|]; simpl; [|discriminate].
  destruct (symbol_info w) as [info|]; simpl; [|discriminate].
  destruct (Qltb _ _) eqn:Hs; simpl; [discriminate|].
  intros H. inversion H; subst.
  repeat split; try reflexivity.
  - exists vol. split; [reflexivity | exact Hv].
  - exists tick, info. repeat split. exact Hs.
Qed.

(** The decision logic in a pass whose gate is open. *)
Lemma decide_gate_passed (equity : Q) (df : DataFrame) (s : RiskState)
    (reason : string) (t : list Event) :
  copy_rates_from w = Some df ->
  safety_check cfg w df s = (Ok (true, reason), s, t) ->
  decide cfg w equity s
  = let z := zscore (detrended cfg df) in
    let act :=
      match positions_get w with
      | Some (p :: ps) =>
          if z_abs_le z (Z_EXIT cfg) then exit_positions cfg w (p :: ps)
          else ret tt
      | _ => enter cfg w df equity z
      end in
    (match outcome (act s) with
     | Ok _ => Ok tt
     | Raise e => Raise e
     end,
     state_of (act s),
     Call (CallCopyRatesFrom (LOOKBACK cfg + 5)) :: t
     ++ Call CallPositionsGet :: trace_of (act s)
     ++ match outcome (act s) with
        | Ok _ => [Sleep 5]
        | Raise _ => []
        end).
Proof.
  intros Hr Hs. cbv zeta. unfold decide.
  rewrite (bind_run _ (rates_ok _ s Hr)).
  rewrite (bind_run _ Hs). cbn [negb fst].
  rewrite (bind_run _ (has_position_ok s)).
  set (act := match positions_get w with
              | Some (p :: ps) =>
                  if z_abs_le _ _ then exit_positions cfg w (p :: ps)
                  else ret tt
              | _ => enter cfg w df equity _
              end).
  assert (Hact : match match positions_get w with
                       | Some (p :: ps) => Some (p :: ps)
                       | _ => None
                       end with
                 | Some ps =>
                     if z_abs_le (zscore (detrended cfg df)) (Z_EXIT cfg)
                     then exit_positions cfg w ps else ret tt
                 | None => enter cfg w df equity (zscore (detrended cfg df))
                 end = act).
  { unfold act. destruct (positions_get w) as [[|p ps]|]; reflexivity. }
  rewrite Hact. unfold bind, sleep, emit, outcome, state_of, trace_of.
  destruct (act s) as [[[[]|e] s1] t1]; simpl.
  - reflexivity.
  - rewrite app_nil_r. reflexivity.
Qed.

End Execution.

(** C4. With the gate open and positions open, [abs(z) <= Z_EXIT] makes the
    pass send, for every open position, one market order (a deal) on the
    opposite side (sell for a long, buy for a short) for the volume of the
    position, with neither stop-loss nor take-profit, and then set the
    cooldown anchor; the order goes to the broker, or to the log in
    dry-run.  With [abs(z) > Z_EXIT] the pass holds: no order, the globals
    untouched. *)
Theorem exit_closes_or_holds :
  forall (cfg : Config) (w : World) (equity : Q) (df : DataFrame)
         (s : RiskState) (reason : string) (t : list Event)
         (p : Position) (ps : list Position),
    copy_rates_from w = Some df ->
    safety_check cfg w df s = (Ok (true, reason), s, t) ->
    positions_get w = Some (p :: ps) ->
    broker_answers cfg w ->
    exists tick,
      symbol_info_tick w = Some tick
      /\ (z_abs_le (zscore (detrended cfg df)) (Z_EXIT cfg) = true ->
          decide cfg w equity s
          = (Ok tt, stamped (now_trade w) s,
             Call (CallCopyRatesFrom (LOOKBACK cfg + 5)) :: t
             ++ Call CallPositionsGet :: Log "EXIT SIGNAL"
             :: flat_map (closing_events cfg tick) (p :: ps) ++ [Sleep 5]))
      /\ (z_abs_le (zscore (detrended cfg df)) (Z_EXIT cfg) = false ->
          decide cfg w equity s
          = (Ok tt, s,
             Call (CallCopyRatesFrom (LOOKBACK cfg + 5)) :: t
             ++ [Call CallPositionsGet; Sleep 5]))
      /\ (forall q, In q (p :: ps) ->
          let req := closing_request cfg tick q in
          (pos_type q = 0%Z -> req_type req = Sell)
          /\ (pos_type q <> 0%Z -> req_type req = Buy)
          /\ req_volume req = pos_volume q
          /\ req_sl req = None
          /\ req_tp req = None
          /\ req_action req = TRADE_ACTION_DEAL).
Proof.
  intros cfg w equity df s reason t p ps Hr Hs Hp Hb.
  destruct (@safety_check_passed cfg w df s s reason t Hs)
    as (_ & _ & _ & _ & _ & tick & info & Ht & _ & _).
  exists tick. split; [exact Ht|].
  pose proof (@decide_gate_passed cfg w equity df s reason t Hr Hs) as Hd.
  cbv zeta in Hd. rewrite Hp in Hd.
  split; [|split].
  - intros Hz. rewrite Hz in Hd. rewrite Hd.
    rewrite (@exit_positions_ok cfg w tick (p :: ps) s Ht Hb).
    unfold outcome, state_of, trace_of. cbn [fst snd]. reflexivity.
  - intros Hz. rewrite Hz in Hd. rewrite Hd. reflexivity.
  - intros q _. cbv zeta. unfold closing_request. cbn.
    repeat split.
    + intros H0. rewrite H0. reflexivity.
    + intros H0. apply Z.eqb_neq in H0. rewrite H0. reflexivity.
Qed.

Lemma exit_closes_or_holds_witness :
  exists tick,
    symbol_info_tick holding_world = Some tick
    /\ decide live_config holding_world 10000 day5_state
       = (Ok tt, stamped (now_trade holding_world) day5_state,
          [Call (CallCopyRatesFrom 125);
           Call CallSymbolInfoTick; Call CallSymbolInfo;
           Call CallPositionsGet; Log "EXIT SIGNAL";
           Call CallSymbolInfoTick;
           Call (CallOrderSend
                   (closing_request live_config tick (mkPosition 0 (1 # 2))));
           Call CallSymbolInfoTick;
           Call (CallOrderSend
                   (closing_request live_config tick (mkPosition 1 (2 # 10))));
           Sleep 5]).
Proof.
  destruct (@exit_closes_or_holds live_config holding_world 10000
              (flat_frame 125 100) day5_state "ok"
              [Call CallSymbolInfoTick; Call CallSymbolInfo]
              (mkPosition 0 (1 # 2)) [mkPosition 1 (2 # 10)])
    as (tick & Ht & Hexit & _).
  - reflexivity.
  - vm_compute. reflexivity.
  - reflexivity.
  - right. intros req. discriminate.
  - exists tick. split; [exact Ht|]. apply Hexit. vm_compute. reflexivity.
Defined.

(** *** Rolling windows at the last row *)

Section Windows.

Lemma iloc_last_app (A : Type) (l : list A) (x : A) :
  iloc_last (l ++ [x]) = Some x.
Proof. unfold iloc_last. rewrite rev_app_distr. reflexivity. Qed.

Lemma iloc_last_nonempty (A : Type) (l : list A) :
  l <> [] -> exists x, iloc_last l = Some x.
Proof.
  intros H. destruct (exists_last H) as [l' [x Hx]]. subst l.
  exists x. apply iloc_last_app.
Qed.

Lemma iloc_last_map (A B : Type) (f : A -> B) (l : list A) :
  iloc_last (map f l) = option_map f (iloc_last l).
Proof.
  unfold iloc_last. rewrite <- map_rev. destruct (rev l); reflexivity.
Qed.

(** The last row of a rolling statistic is the statistic of the whole
    series seen as one prefix. *)
Lemma iloc_last_rolling (R : Type) (n : nat) (f : list Q -> R) (nan : R)
    (l : list pyfloat) :
  l <> [] ->
  iloc_last (rolling n f nan l) = Some (roll_at n f nan l).
Proof.
  intros H. unfold rolling.
  destruct (length l) as [|m] eqn:E.
  - destruct l; [contradiction | discriminate].
  - rewrite seq_S, map_app. cbn [map Nat.add]. rewrite iloc_last_app.
    rewrite <- E, firstn_all. reflexivity.
Qed.

Lemma finite_values_map (A : Type) (g : A -> Q) (l : list A) :
  finite_values (map (fun a => F (g a)) l) = Some (map g l).
Proof.
  induction l as [|a l IH]; [reflexivity|]. simpl. rewrite IH. reflexivity.
Qed.

Lemma lastn_map (A B : Type) (g : A -> B) (n : nat) (l : list A) :
  lastn n (map g l) = map g (lastn n l).
Proof. unfold lastn. rewrite length_map, skipn_map. reflexivity. Qed.

Lemma roll_at_finite (A R : Type) (n : nat) (f : list Q -> R) (nan : R)
    (g : A -> Q) (l : list A) :
  (0 < n <= length l)%nat ->
  roll_at n f nan (map (fun a => F (g a)) l) = f (map g (lastn n l)).
Proof.
  intros [H0 Hn]. unfold roll_at. rewrite length_map.
  replace (n =? 0)%nat with false by (symmetry; apply Nat.eqb_neq; lia).
  replace (length l <? n)%nat with false by (symmetry; apply Nat.ltb_ge; lia).
  simpl. rewrite lastn_map, finite_values_map. reflexivity.
Qed.

Lemma ranges_map (df : DataFrame) :
  ranges df = map (fun b => F (bar_high b - bar_low b)) df.
Proof.
  unfold ranges. induction df as [|b df IH]; [reflexivity|].
  simpl. rewrite IH. reflexivity.
Qed.

(** The 20-bar mean range at the last row. *)
Lemma last_mean_range (df : DataFrame) :
  (20 <= length df)%nat ->
  iloc_last (rolling_mean 20 (ranges df))
  = Some (F (mean (map (fun b => bar_high b - bar_low b) (lastn 20 df)))).
Proof.
  intros H. unfold rolling_mean. rewrite ranges_map.
  rewrite iloc_last_rolling.
  - rewrite roll_at_finite by lia. reflexivity.
  - destruct df; [simpl in H; lia | discriminate].
Qed.

End Windows.

(** *** Position sizing *)

Lemma Qeq_bool_false (a b : Q) : ~ a == b -> Qeq_bool a b = false.
Proof.
  intros H. destruct (Qeq_bool a b) eqn:E; [|reflexivity].
  apply Qeq_bool_iff in E. contradiction.
Qed.

Lemma Qle_bool_lt (a b : Q) : Qle_bool a b = false <-> b < a.
Proof.
  split.
  - intros H. apply Qnot_le_lt. intros Hle.
    apply Qle_bool_iff in Hle. congruence.
  - intros H. destruct (Qle_bool a b) eqn:E; [|reflexivity].
    apply Qle_bool_iff in E. exfalso. now apply (Qlt_not_le b a).
Qed.

Lemma Qltb_ge (a b : Q) : Qltb a b = false <-> b <= a.
Proof.
  unfold Qltb. rewrite negb_false_iff. apply Qle_bool_iff.
Qed.

Ltac qbool :=
  repeat match goal with
         | H : Qle_bool _ _ = true |- _ => apply Qle_bool_iff in H
         | H : Qle_bool _ _ = false |- _ => apply Qle_bool_lt in H
         | H : Qltb _ _ = true |- _ => apply Qltb_lt in H
         | H : Qltb _ _ = false |- _ => apply Qltb_ge in H
         end.

(** Clamping always yields a finite volume, never below the minimum and,
    when the limits are in order, never above the maximum. *)
Lemma clamp_finite (vmin vmax : Q) (x : pyfloat) :
  exists l,
    py_max (F vmin) (py_min (F vmax) x) = F l
    /\ vmin <= l
    /\ (vmin <= vmax -> l <= vmax).
Proof.
  unfold py_max, py_min, flt.
  destruct x as [q| | |]; simpl.
  - destruct (Qltb q vmax) eqn:E1; simpl.
    + destruct (Qltb vmin q) eqn:E2.
      * exists q. apply Qltb_lt in E1, E2. repeat split; try lra.
      * exists vmin. apply Qltb_ge in E2. repeat split; lra.
    + destruct (Qltb vmin vmax) eqn:E2.
      * exists vmax. apply Qltb_lt in E2. repeat split; lra.
      * exists vmin. repeat split; lra.
  - destruct (Qltb vmin vmax) eqn:E2.
    + exists vmax. apply Qltb_lt in E2. repeat split; lra.
    + exists vmin. repeat split; lra.
  - exists vmin. repeat split; lra.
  - destruct (Qltb vmin vmax) eqn:E2.
    + exists vmax. apply Qltb_lt in E2. repeat split; lra.
    + exists vmin. repeat split; lra.
Qed.

(** [compute_lot] returns as soon as the symbol is known and neither the
    tick size nor the volume step is zero: the clamped size [l], cut down
    to whole steps and rounded to eight decimals. *)
Lemma compute_lot_ok (cfg : Config) (w : World) (equity : Q)
    (stop_dist : pyfloat) (s : RiskState) (info : SymbolInfo) :
  symbol_info w = Some info ->
  ~ trade_tick_size info == 0 ->
  ~ volume_step info == 0 ->
  exists l,
    compute_lot cfg w equity stop_dist s
    = (Ok (py_round (inject_Z (Qfloor (l / volume_step info))
                     * volume_step info) 8),
       s, [Call CallSymbolInfo])
    /\ py_max (F (volume_min info))
         (py_min (F (volume_max info))
            (np_div (F (equity * RISK_PER_TRADE cfg))
               (fmul stop_dist
                  (F (trade_tick_value info / trade_tick_size info)))))
       = F l
    /\ volume_min info <= l
    /\ (volume_min info <= volume_max info -> l <= volume_max info).
Proof.
  intros Hi Hts Hst.
  destruct (clamp_finite (volume_min info) (volume_max info)
              (np_div (F (equity * RISK_PER_TRADE cfg))
                 (fmul stop_dist
                    (F (trade_tick_value info / trade_tick_size info)))))
    as [l [Hl [Hlo Hhi]]].
  exists l. split; [|split; [exact Hl | split; assumption]].
  unfold compute_lot.
  rewrite (bind_run _ (call_ok CallSymbolInfo (symbol_info w) s)), Hi.
  rewrite (bind_run _ (attr_ok info s)).
  rewrite (Qeq_bool_false Hts). cbv zeta. rewrite Hl.
  rewrite (Qeq_bool_false Hst). reflexivity.
Qed.

(** *** How much history a signal needs *)

Section History.

Lemma fsub_nan (a : pyfloat) : fsub a NaN = NaN.
Proof. destruct a; reflexivity. Qed.

(** Rows whose window is not yet full are dropped from the difference. *)
Lemma dropna_sub_length (n : nat) (g : nat -> pyfloat) (m : nat) :
  (forall i, (S i < n)%nat -> g i = NaN) ->
  forall (k : nat) (a : list pyfloat),
    (length (dropna (series_sub a (map g (seq k m))))
     <= (k + m) - Nat.max k (n - 1))%nat.
Proof.
  intros Hg. induction m as [|m IH]; intros k a.
  - destruct a; simpl; lia.
  - destruct a as [|x a]; [simpl; lia|].
    cbn [seq map series_sub].
    specialize (IH (S k) a).
    destruct (Nat.lt_ge_cases (S k) n) as [Hlt|Hge].
    + rewrite (Hg k Hlt), fsub_nan. cbn [dropna]. lia.
    + destruct (fsub x (g k)); cbn [dropna length]; lia.
Qed.

Lemma roll_at_short (R : Type) (n : nat) (f : list Q -> R) (nan : R)
    (l : list pyfloat) (i : nat) :
  (S i < n)%nat -> roll_at n f nan (firstn (S i) l) = nan.
Proof.
  intros H. unfold roll_at.
  replace (length (firstn (S i) l) <? n)%nat with true;
    [rewrite orb_true_r; reflexivity|].
  symmetry. apply Nat.ltb_lt.
  pose proof (firstn_le_length (S i) l). lia.
Qed.

(** The detrended series has one entry per full lookback window. *)
Lemma detrended_length (cfg : Config) (df : DataFrame) :
  (length (detrended cfg df) <= length df - (LOOKBACK cfg - 1))%nat.
Proof.
  unfold detrended, rolling_mean, rolling, closes.
  rewrite !length_map.
  pose proof (@dropna_sub_length (LOOKBACK cfg)
                (fun i => roll_at (LOOKBACK cfg) (fun w => F (mean w)) NaN
                            (firstn (S i) (map F (map bar_close df))))
                (length df)
                (fun i Hi => @roll_at_short _ _ _ _ _ i Hi)
                0%nat (map F (map bar_close df))) as H.
  cbn [Nat.add Nat.max] in H. exact H.
Qed.

(** A z-score at or above a positive threshold is not the zero of the
    degenerate branch, so the frame holds more bars than the lookback. *)
Lemma signal_needs_history (cfg : Config) (df : DataFrame) (c : Q) :
  0 < c ->
  z_ge (zscore (detrended cfg df)) c = true ->
  (LOOKBACK cfg < length df)%nat.
Proof.
  intros Hc Hz.
  pose proof (detrended_length cfg df) as Hlen.
  destruct (Nat.ltb_spec (length (detrended cfg df)) 2) as [Hshort|Hlong];
    [|lia].
  exfalso. revert Hz. unfold zscore, std.
  replace (length (detrended cfg df) <? 2)%nat with true
    by (symmetry; now apply Nat.ltb_lt).
  cbn [sqrt_is_zero sqrt_is_nan orb]. unfold z_ge, z_zero. cbn [z_num z_var].
  destruct (Qle_bool 0 c) eqn:E0.
  - rewrite andb_true_iff. intros [_ H]. qbool. nra.
  - qbool. lra.
Qed.

End History.

(** *** Entering short *)

Lemma py_max_finite (a b : Q) :
  exists m,
    py_max (F a) (F b) = F m
    /\ a <= m /\ b <= m /\ (m = a \/ m = b).
Proof.
  unfold py_max, fgt. destruct (Qltb a b) eqn:E.
  - exists b. apply Qltb_lt in E. repeat split; try lra. now right.
  - exists a. apply Qltb_ge in E. repeat split; try lra. now left.
Qed.

Lemma send_order_dry_run (cfg : Config) (w : World) (tick : Tick)
    (side : Side) (volume : Q) (sl tp : option pyfloat) (s : RiskState) :
  symbol_info_tick w = Some tick ->
  DRY_RUN cfg = true ->
  send_order cfg w side volume sl tp s
  = (Ok true, s,
     [Call CallSymbolInfoTick;
      LogDryRunOrder (order_request cfg tick side volume sl tp)]).
Proof.
  intros Ht Hd. unfold send_order.
  rewrite (bind_run _ (call_ok CallSymbolInfoTick (symbol_info_tick w) s)), Ht.
  rewrite (bind_run _ (attr_ok tick s)). cbv zeta. rewrite Hd.
  reflexivity.
Qed.

(** C3. With the gate open, no position, [z >= Z_ENTER], dry-run on, and
    a symbol whose tick size and volume step are not zero, the pass sizes a
    lot, reports one sell order in the log and sets the cooldown anchor;
    the entry threshold is positive and the lookback at least 19 bars, as
    shipped, so that the signal implies 20 bars of history.  The order
    carries stop-loss [price + stop] and take-profit [price - 1.5 * stop],
    where [price] is the last close and [stop] is the larger of the mean of
    [high - low] over the last 20 bars and a thousandth of the price.
    [send_order] returns [True] and the trace of the pass holds no
    [order_send] call. *)
Theorem dry_run_short_entry :
  forall (cfg : Config) (w : World) (equity : Q) (df : DataFrame)
         (s : RiskState) (reason : string) (t : list Event)
         (tick : Tick) (info : SymbolInfo) (price : Q),
    copy_rates_from w = Some df ->
    safety_check cfg w df s = (Ok (true, reason), s, t) ->
    positions_get w = None \/ positions_get w = Some [] ->
    z_ge (zscore (detrended cfg df)) (Z_ENTER cfg) = true ->
    DRY_RUN cfg = true ->
    symbol_info_tick w = Some tick ->
    symbol_info w = Some info ->
    iloc_last (closes df) = Some price ->
    0 < Z_ENTER cfg ->
    (19 <= LOOKBACK cfg)%nat ->
    ~ trade_tick_size info == 0 ->
    ~ volume_step info == 0 ->
    let atr := mean (map (fun b => bar_high b - bar_low b) (lastn 20 df)) in
    exists stop lots,
      (atr <= stop /\ price * (1 # 1000) <= stop
       /\ (stop = atr \/ stop = price * (1 # 1000)))
      /\ outcome (compute_lot cfg w equity (F stop) s) = Ok lots
      /\ let req := {|
           req_action := TRADE_ACTION_DEAL;
           req_symbol := SYMBOL cfg;
           req_volume := lots;
           req_type := Sell;
           req_price := bid tick;
           req_sl := Some (F (price + stop));
           req_tp := Some (F (price - stop * (15 # 10)));
           req_deviation := DEVIATION cfg;
           req_magic := MAGIC cfg;
           req_comment := "meanrev_safe";
           req_type_filling := ORDER_FILLING_FOK
         |} in
         send_order cfg w Sell lots (req_sl req) (req_tp req) s
         = (Ok true, s, [Call CallSymbolInfoTick; LogDryRunOrder req])
         /\ decide cfg w equity s
            = (Ok tt, stamped (now_trade w) s,
               Call (CallCopyRatesFrom (LOOKBACK cfg + 5)) :: t
               ++ [Call CallPositionsGet; Call CallSymbolInfo;
                   Call CallSymbolInfoTick; LogDryRunOrder req; Sleep 5])
         /\ forall r,
              ~ In (Call (CallOrderSend r)) (trace_of (decide cfg w equity s)).
Proof.
  intros cfg w equity df s reason t tick info price
         Hr Hs Hp Hz Hd Ht Hi Hprice Hzpos Hlook Hts Hst atr.
  assert (Hlen : (20 <= length df)%nat)
    by (pose proof (signal_needs_history cfg df Hzpos Hz); lia).
  destruct (py_max_finite atr (price * (1 # 1000)))
    as (stop & Hstop & Ha & Hb & Hor).
  destruct (@compute_lot_ok cfg w equity (F stop) s info Hi Hts Hst)
    as (l & Hlot & _).
  exists stop. eexists. split; [repeat split; assumption|].
  split; [rewrite Hlot; reflexivity|].
  cbv zeta.
  set (req := {| req_action := _; req_symbol := _; req_volume := _;
                 req_type := Sell; req_price := bid tick;
                 req_sl := _; req_tp := _; req_deviation := _;
                 req_magic := _; req_comment := _;
                 req_type_filling := _ |}).
  assert (Hsend :
    send_order cfg w Sell (req_volume req) (req_sl req) (req_tp req) s
    = (Ok true, s, [Call CallSymbolInfoTick; LogDryRunOrder req]))
    by (rewrite (@send_order_dry_run cfg w tick Sell _ _ _ s Ht Hd);
        reflexivity).
  assert (Hdec :
    decide cfg w equity s
    = (Ok tt, stamped (now_trade w) s,
       Call (CallCopyRatesFrom (LOOKBACK cfg + 5)) :: t
       ++ [Call CallPositionsGet; Call CallSymbolInfo;
           Call CallSymbolInfoTick; LogDryRunOrder req; Sleep 5])).
  { rewrite (@decide_gate_passed cfg w equity df s reason t Hr Hs). cbv zeta.
    assert (Hact :
      match positions_get w with
      | Some (p :: ps) =>
          if z_abs_le (zscore (detrended cfg df)) (Z_EXIT cfg)
          then exit_positions cfg w (p :: ps) else ret tt
      | _ => enter cfg w df equity (zscore (detrended cfg df))
      end = enter cfg w df equity (zscore (detrended cfg df)))
      by (destruct Hp as [Hp|Hp]; rewrite Hp; reflexivity).
    rewrite Hact.
    assert (Henter :
      enter cfg w df equity (zscore (detrended cfg df)) s
      = (Ok tt, stamped (now_trade w) s,
         [Call CallSymbolInfo; Call CallSymbolInfoTick; LogDryRunOrder req])).
    { unfold enter. rewrite Hprice, (last_mean_range df Hlen).
      fold atr. cbv zeta. rewrite Hstop, Hz.
      rewrite (bind_run _ Hlot).
      change (fadd (F price) (F stop)) with (F (price + stop)).
      change (fsub (F price) (fmul (F stop) (F (15 # 10))))
        with (F (price - stop * (15 # 10))).
      rewrite (bind_run _ Hsend). reflexivity. }
    rewrite Henter. reflexivity. }
  split; [exact Hsend|]. split; [exact Hdec|].
  intros r. rewrite Hdec.
  destruct (@safety_check_passed cfg w df s s reason t Hs) as (_ & Ht' & _).
  subst t. unfold trace_of. simpl. intuition discriminate.
Qed.

Lemma dry_run_short_entry_witness :
  exists req stop,
    In (LogDryRunOrder req)
       (trace_of (decide default_config spike_world 10000 day5_state))
    /\ req_type req = Sell
    /\ req_sl req = Some (F ((1001 # 10) + stop))
    /\ req_tp req = Some (F ((1001 # 10) - stop * (15 # 10)))
    /\ stop == 96 # 100.
Proof.
  destruct (@dry_run_short_entry default_config spike_world 10000
              spike_frame day5_state "ok"
              [Call CallSymbolInfoTick; Call CallSymbolInfo]
              (mkTick 100 (1001 # 10)) sample_info (1001 # 10))
    as (stop & lots & (Ha & _ & Hstop) & _ & _ & Hdec & _).
  - reflexivity.
  - vm_compute. reflexivity.
  - right. reflexivity.
  - vm_compute. reflexivity.
  - reflexivity.
  - reflexivity.
  - reflexivity.
  - reflexivity.
  - reflexivity.
  - apply Nat.leb_le. reflexivity.
  - intros H. vm_compute in H. discriminate.
  - intros H. vm_compute in H. discriminate.
  - assert (Hs : stop == 96 # 100).
    { clear Hdec. destruct Hstop as [H|H]; rewrite H in *.
      - vm_compute. reflexivity.
      - exfalso. apply Qle_bool_iff in Ha. vm_compute in Ha. discriminate. }
    exists {| req_action := TRADE_ACTION_DEAL;
              req_symbol := SYMBOL default_config;
              req_volume := lots;
              req_type := Sell;
              req_price := 100;
              req_sl := Some (F ((1001 # 10) + stop));
              req_tp := Some (F ((1001 # 10) - stop * (15 # 10)));
              req_deviation := DEVIATION default_config;
              req_magic := MAGIC default_config;
              req_comment := "meanrev_safe";
              req_type_filling := ORDER_FILLING_FOK |}, stop.
    split.
    + rewrite Hdec. unfold trace_of. cbn [snd].
      do 6 right. left. reflexivity.
    + repeat split. exact Hs.
Defined.

(** *** The z-score of a flat series *)

Section Flat.

Lemma Qsum_cons (x : Q) (l : list Q) : Qsum (x :: l) == x + Qsum l.
Proof.
  change (Qsum (x :: l)) with (Qred (x + Qsum l)). apply Qred_correct.
Qed.

Lemma Qsum_zero (l : list Q) : Forall (fun x => x == 0) l -> Qsum l == 0.
Proof.
  induction 1 as [|x l Hx Hl IH]; [reflexivity|].
  rewrite Qsum_cons, Hx, IH. reflexivity.
Qed.

Lemma Qsum_const (c : Q) (l : list Q) :
  Forall (fun x => x == c) l -> Qsum l == len l * c.
Proof.
  induction 1 as [|x l Hx Hl IH].
  - unfold len. simpl. ring.
  - cbv beta in Hx. rewrite Qsum_cons, IH. unfold len. simpl length.
    rewrite Nat2Z.inj_succ. unfold Z.succ. rewrite inject_Z_plus, Hx. ring.
Qed.

Lemma len_pos (A : Type) (l : list A) : l <> [] -> 0 < len l.
Proof.
  intros H. destruct l as [|a l]; [contradiction|].
  unfold len. simpl length. rewrite Nat2Z.inj_succ.
  change 0 with (inject_Z 0). rewrite <- Zlt_Qlt. lia.
Qed.

(** The mean of a constant window is the constant. *)
Lemma mean_const (c : Q) (l : list Q) :
  l <> [] -> Forall (fun x => x == c) l -> mean l == c.
Proof.
  intros Hne Hc. unfold mean. rewrite Qred_correct, (Qsum_const Hc).
  pose proof (len_pos Hne) as Hl. field. lra.
Qed.

Lemma mean_zero (l : list Q) : Forall (fun x => x == 0) l -> mean l == 0.
Proof.
  intros H. unfold mean. rewrite Qred_correct, (Qsum_zero H).
  unfold Qdiv. ring.
Qed.

(** A series of zeros has no spread. *)
Lemma variance_zero (l : list Q) :
  Forall (fun x => x == 0) l -> variance l == 0.
Proof.
  intros H. unfold variance, sq_dev. rewrite Qred_correct.
  assert (Hs : Qsum (map (fun x => (x - mean l) * (x - mean l)) l) == 0).
  { apply Qsum_zero. apply Forall_map.
    pose proof (mean_zero H) as Hm.
    eapply Forall_impl; [|exact H].
    intros x Hx. cbv beta. rewrite Hx, Hm. ring. }
  rewrite Hs. unfold Qdiv. ring.
Qed.

(** [zscore] answers zero on a series of zeros, whatever its length. *)
Lemma zscore_zeros (l : list Q) :
  Forall (fun x => x == 0) l -> zscore l = z_zero.
Proof.
  intros H. unfold zscore, std.
  destruct (length l <? 2)%nat; [reflexivity|].
  unfold sqrt_is_zero.
  replace (Qeq_bool (variance l) 0) with true; [reflexivity|].
  symmetry. apply Qeq_bool_iff. now apply variance_zero.
Qed.

Lemma Forall_skipn_firstn (A : Type) (P : A -> Prop) (n : nat) (l : list A) :
  Forall P l -> Forall P (firstn n l) /\ Forall P (skipn n l).
Proof.
  intros H. rewrite <- (firstn_skipn n l) in H.
  now apply Forall_app in H.
Qed.

Lemma Forall_lastn (A : Type) (P : A -> Prop) (n : nat) (l : list A) :
  Forall P l -> Forall P (lastn n l).
Proof. intros H. unfold lastn. now apply Forall_skipn_firstn. Qed.

Lemma Forall_firstn (A : Type) (P : A -> Prop) (n : nat) (l : list A) :
  Forall P l -> Forall P (firstn n l).
Proof. intros H. now apply Forall_skipn_firstn. Qed.

Lemma rolling_mean_flat (n : nat) (c : Q) (l : list Q) :
  Forall (fun x => x == c) l ->
  Forall (none_or_level c) (rolling_mean n (map F l)).
Proof.
  intros Hc. unfold rolling_mean, rolling. apply Forall_map.
  apply Forall_forall. intros i _. unfold roll_at.
  destruct ((n =? 0)%nat || (length (firstn (S i) (map F l)) <? n)%nat)
    eqn:E; [now left|].
  apply orb_false_iff in E. destruct E as [E0 En].
  apply Nat.eqb_neq in E0. apply Nat.ltb_ge in En.
  rewrite firstn_map in *. rewrite length_map in En.
  change (map F (firstn (S i) l))
    with (map (fun a : Q => F ((fun q => q) a)) (firstn (S i) l)).
  rewrite lastn_map, finite_values_map, map_id.
  right. eexists. split; [reflexivity|].
  apply mean_const.
  - unfold lastn. intros Hnil.
    apply (f_equal (@length Q)) in Hnil.
    rewrite length_skipn in Hnil.
    change (length (@nil Q)) with 0%nat in Hnil. lia.
  - apply Forall_lastn, Forall_firstn, Hc.
Qed.

Lemma dropna_sub_flat (c : Q) (a : list Q) (b : list pyfloat) :
  Forall (fun x => x == c) a ->
  Forall (none_or_level c) b ->
  Forall (fun x => x == 0) (dropna (series_sub (map F a) b)).
Proof.
  intros Ha. revert b. induction Ha as [|x a Hx Ha IH]; intros b Hb.
  - constructor.
  - destruct Hb as [|y b Hy Hb]; [constructor|].
    simpl. destruct Hy as [Hy|[m [Hy Hm]]]; subst y; simpl.
    + apply IH, Hb.
    + constructor; [|apply IH, Hb]. rewrite Hx, Hm. ring.
Qed.

(** The detrended closes of a flat frame are all zero. *)
Lemma detrended_flat (cfg : Config) (df : DataFrame) (c : Q) :
  (forall b, In b df -> bar_close b == c) ->
  Forall (fun x => x == 0) (detrended cfg df).
Proof.
  intros H. unfold detrended.
  assert (Hc : Forall (fun x => x == c) (closes df)).
  { unfold closes. apply Forall_map. apply Forall_forall. exact H. }
  apply (dropna_sub_flat Hc). now apply rolling_mean_flat.
Qed.

End Flat.


(** *** The lot size *)

Section LotSize.

Lemma pow10_pos (n : nat) : 0 < pow10 n.
Proof.
  unfold pow10. change 0 with (inject_Z 0). rewrite <- Zlt_Qlt.
  apply Z.pow_pos_nonneg; lia.
Qed.

(** Rounding to [n] decimals leaves a value with at most [n] decimals
    alone. *)
Lemma py_round_exact (v : Q) (n : nat) (m : Z) :
  v * pow10 n == inject_Z m -> py_round v n == v.
Proof.
  intros H. unfold py_round, round_half_even.
  assert (Hf : Qfloor (v * pow10 n) = m)
    by (rewrite (Qfloor_comp _ _ H); apply Qfloor_Z).
  rewrite Hf.
  assert (Hr : Qltb (v * pow10 n - inject_Z m) (1 # 2) = true)
    by (apply Qltb_lt; rewrite H; lra).
  rewrite Hr. rewrite <- H.
  pose proof (pow10_pos n) as Hp. field. lra.
Qed.

(** Cutting [l] down to whole steps: at most [l], and not below a lower
    limit that is itself a whole number of steps. *)
Lemma floor_steps_bounds (l step lo : Q) (k : Z) :
  0 < step ->
  lo == inject_Z k * step ->
  lo <= l ->
  lo <= inject_Z (Qfloor (l / step)) * step <= l.
Proof.
  intros Hs Hlo Hl. split.
  - rewrite Hlo. apply Qmult_le_compat_r; [|lra].
    rewrite <- Zle_Qle. rewrite <- (Qfloor_Z k).
    apply Qfloor_resp_le.
    apply Qle_shift_div_l; [exact Hs|]. rewrite <- Hlo. exact Hl.
  - pose proof (Qfloor_le (l / step)) as Hf.
    apply (Qmult_le_compat_r _ _ step) in Hf; [|lra].
    assert (He : l / step * step == l) by (field; lra).
    rewrite He in Hf. exact Hf.
Qed.

(** Position sizing on a well-formed symbol: when the minimum volume is a
    whole number of steps and the step has at most eight decimals, the
    volume returned lies between the limits of the symbol and is a whole
    number of steps, for every equity and every stop distance. *)
Lemma compute_lot_within_limits (cfg : Config) (w : World) (equity : Q)
    (stop_dist : pyfloat) (s : RiskState) (info : SymbolInfo) (k m : Z) :
  symbol_info w = Some info ->
  ~ trade_tick_size info == 0 ->
  0 < volume_step info ->
  volume_min info <= volume_max info ->
  volume_min info == inject_Z k * volume_step info ->
  volume_step info * pow10 8 == inject_Z m ->
  exists v n,
    compute_lot cfg w equity stop_dist s = (Ok v, s, [Call CallSymbolInfo])
    /\ volume_min info <= v <= volume_max info
    /\ v == inject_Z n * volume_step info.
Proof.
  intros Hi Hts Hst Hmm Hk Hm.
  assert (Hst0 : ~ volume_step info == 0) by lra.
  destruct (@compute_lot_ok cfg w equity stop_dist s info Hi Hts Hst0)
    as (l & Hlot & _ & Hlo & Hhi).
  specialize (Hhi Hmm).
  eexists. exists (Qfloor (l / volume_step info)).
  split; [exact Hlot|].
  assert (Hr : py_round (inject_Z (Qfloor (l / volume_step info))
                         * volume_step info) 8
               == inject_Z (Qfloor (l / volume_step info)) * volume_step info).
  { apply (@py_round_exact _ 8 (Qfloor (l / volume_step info) * m)).
    rewrite inject_Z_mult, <- Hm. ring. }
  rewrite Hr.
  pose proof (@floor_steps_bounds l (volume_step info) (volume_min info) k
                Hst Hk Hlo) as [Hb1 Hb2].
  split; [split; lra | reflexivity].
Qed.

End LotSize.

(** C1 (defect). [compute_lot] clamps the size to the limits of the symbol
    and only then cuts it down to whole steps, so the cut can take the
    volume below the minimum.  With a minimum of 0.15 and a step of 0.1, an
    equity of 100 and a stop distance of 100 give a risk size of 0.003; it
    is clamped to 0.15 and cut to 0.1, below the minimum. *)
Theorem compute_lot_below_minimum :
  exists v,
    compute_lot default_config odd_step_world 100 (F 100) day5_state
    = (Ok v, day5_state, [Call CallSymbolInfo])
    /\ v == 1 # 10
    /\ v < volume_min odd_step_info
    /\ np_div (F (100 * RISK_PER_TRADE default_config))
         (fmul (F 100)
            (F (trade_tick_value odd_step_info
                / trade_tick_size odd_step_info)))
       = F (100 * (3 # 1000) / (100 * (1 / 1))).
Proof.
  eexists. split; [vm_compute; reflexivity|].
  split; [reflexivity|]. split; reflexivity.
Qed.

(** A well-formed symbol, for comparison: the same equity and stop distance
    on the sample symbol give its minimum volume. *)
Example compute_lot_sample_symbol :
  exists v n,
    compute_lot default_config quiet_world 100 (F 100) day5_state
    = (Ok v, day5_state, [Call CallSymbolInfo])
    /\ volume_min sample_info <= v <= volume_max sample_info
    /\ v == inject_Z n * volume_step sample_info.
Proof.
  apply (@compute_lot_within_limits default_config quiet_world 100 (F 100)
           day5_state sample_info 1 1000000).
  - reflexivity.
  - intros H. vm_compute in H. discriminate.
  - reflexivity.
  - vm_compute. discriminate.
  - reflexivity.
  - reflexivity.
Qed.

(** *** What the exact comparisons mean over the reals *)

Section Meaning.

Lemma Q2R_pos (v : Q) : 0 < v -> (0 < Q2R v)%R.
Proof. intros H. apply Qlt_Rlt in H. now rewrite RMicromega.Q2R_0 in H. Qed.

Lemma sqrt_Q2R_pos (v : Q) : 0 < v -> (0 < sqrt (Q2R v))%R.
Proof. intros H. apply sqrt_lt_R0. now apply Q2R_pos. Qed.

Lemma Qle_bool_R (a b : Q) : Qle_bool a b = true <-> (Q2R a <= Q2R b)%R.
Proof.
  rewrite Qle_bool_iff. split; [apply Qle_Rle | apply Rle_Qle].
Qed.

Lemma div_le_iff (c d r : R) :
  (0 < r)%R -> (c <= d / r)%R <-> (c * r <= d)%R.
Proof.
  intros Hr. assert (He : (d / r * r = d)%R) by (field; lra).
  split; intros H; nra.
Qed.

Lemma sq_le_of_le (a b : R) : (0 <= a <= b)%R -> (a * a <= b * b)%R.
Proof. intros [H0 H1]. apply Rmult_le_compat; lra. Qed.

Lemma le_of_sq_le (a b : R) :
  (0 <= a)%R -> (0 <= b)%R -> (a * a <= b * b)%R -> (a <= b)%R.
Proof.
  intros Ha Hb H. destruct (Rle_lt_dec a b) as [?|Hlt]; [assumption|].
  exfalso. assert (Hc : (b * b < a * a)%R).
  { apply Rle_lt_trans with (b * a)%R.
    - apply Rmult_le_compat_l; lra.
    - apply Rmult_lt_compat_r; lra. }
  lra.
Qed.

(** [z_ge] decides [c <= d / sqrt v]. *)
Lemma z_ge_real (z : zvalue) (c : Q) :
  0 < z_var z -> z_ge z c = true <-> (Q2R c <= z_real z)%R.
Proof.
  intros Hv. unfold z_real. rewrite (div_le_iff _ _ (sqrt_Q2R_pos Hv)).
  pose proof (sqrt_Q2R_pos Hv) as Hs.
  pose proof (sqrt_sqrt (Q2R (z_var z)) (Rlt_le _ _ (Q2R_pos Hv))) as Hss.
  unfold z_ge. cbv zeta.
  set (D := Q2R (z_num z)) in *. set (C := Q2R c) in *.
  set (r := sqrt (Q2R (z_var z))) in *.
  assert (H0c : Qle_bool 0 c = true <-> (0 <= C)%R)
    by (rewrite Qle_bool_R, RMicromega.Q2R_0; reflexivity).
  assert (H0d : Qle_bool 0 (z_num z) = true <-> (0 <= D)%R)
    by (rewrite Qle_bool_R, RMicromega.Q2R_0; reflexivity).
  assert (Hcd : Qle_bool (c * c * z_var z) (z_num z * z_num z) = true
                <-> (C * C * (r * r) <= D * D)%R)
    by (rewrite Qle_bool_R, !Q2R_mult, Hss; reflexivity).
  assert (Hdc : Qle_bool (z_num z * z_num z) (c * c * z_var z) = true
                <-> (D * D <= C * C * (r * r))%R)
    by (rewrite Qle_bool_R, !Q2R_mult, Hss; reflexivity).
  assert (Hsq : (C * C * (r * r) = (C * r) * (C * r))%R) by ring.
  rewrite Hsq in Hcd, Hdc.
  destruct (Qle_bool 0 c) eqn:Ec.
  - assert (HC : (0 <= C)%R) by now apply H0c.
    assert (Hcr : (0 <= C * r)%R) by (apply Rmult_le_pos; lra).
    rewrite andb_true_iff, H0d, Hcd. split.
    + intros [Hd Hle]. now apply le_of_sq_le.
    + intros H. split; [lra|]. apply sq_le_of_le. lra.
  - assert (HC : (C < 0)%R).
    { destruct (Rle_lt_dec 0 C) as [Hge|?]; [|assumption].
      apply H0c in Hge. discriminate. }
    assert (Hcr : (C * r < 0)%R).
    { assert (H : (0 < - C * r)%R) by (apply Rmult_lt_0_compat; lra). lra. }
    rewrite orb_true_iff, H0d, Hdc. split.
    + intros [Hd|Hle]; [lra|].
      destruct (Rle_lt_dec 0 D) as [?|Hneg]; [lra|].
      assert (H : (- D <= - (C * r))%R).
      { apply le_of_sq_le; [lra | lra |].
        replace (- D * - D)%R with (D * D)%R by ring.
        replace (- (C * r) * - (C * r))%R with (C * r * (C * r))%R by ring.
        exact Hle. }
      lra.
    + intros H. destruct (Rle_lt_dec 0 D) as [?|Hneg]; [now left|].
      right.
      replace (D * D)%R with (- D * - D)%R by ring.
      replace (C * r * (C * r))%R with (- (C * r) * - (C * r))%R by ring.
      apply sq_le_of_le. lra.
Qed.

Lemma z_real_neg (z : zvalue) : z_real (z_neg z) = (- z_real z)%R.
Proof.
  unfold z_real, z_neg. simpl. rewrite Q2R_opp. unfold Rdiv. ring.
Qed.

(** [z_le] decides [d / sqrt v <= c]. *)
Lemma z_le_real (z : zvalue) (c : Q) :
  0 < z_var z -> z_le z c = true <-> (z_real z <= Q2R c)%R.
Proof.
  intros Hv. unfold z_le.
  rewrite (@z_ge_real (z_neg z) (- c) Hv), z_real_neg, Q2R_opp.
  split; intros H; lra.
Qed.

Lemma Rabs_le_iff (x b : R) : (Rabs x <= b)%R <-> (- b <= x <= b)%R.
Proof.
  split; [|apply Rabs_le].
  unfold Rabs. destruct (Rcase_abs x); intros H; lra.
Qed.

Lemma div_ge_iff (c d r : R) :
  (0 < r)%R -> (d / r <= c)%R <-> (d <= c * r)%R.
Proof.
  intros Hr. assert (He : (d / r * r = d)%R) by (field; lra).
  split; intros H; nra.
Qed.

(** [z_abs_le] decides [abs (d / sqrt v) <= c]. *)
Lemma z_abs_le_real (z : zvalue) (c : Q) :
  0 < z_var z -> z_abs_le z c = true <-> (Rabs (z_real z) <= Q2R c)%R.
Proof.
  intros Hv. unfold z_real.
  pose proof (sqrt_Q2R_pos Hv) as Hs.
  pose proof (sqrt_sqrt (Q2R (z_var z)) (Rlt_le _ _ (Q2R_pos Hv))) as Hss.
  rewrite Rabs_le_iff, (div_le_iff _ _ Hs), (div_ge_iff _ _ Hs).
  unfold z_abs_le.
  set (D := Q2R (z_num z)) in *. set (C := Q2R c) in *.
  set (r := sqrt (Q2R (z_var z))) in *.
  assert (H0c : Qle_bool 0 c = true <-> (0 <= C)%R)
    by (rewrite Qle_bool_R, RMicromega.Q2R_0; reflexivity).
  assert (Hdc : Qle_bool (z_num z * z_num z) (c * c * z_var z) = true
                <-> (D * D <= C * C * (r * r))%R)
    by (rewrite Qle_bool_R, !Q2R_mult, Hss; reflexivity).
  replace (C * C * (r * r))%R with (C * r * (C * r))%R in Hdc by ring.
  rewrite andb_true_iff, H0c, Hdc. split.
  - intros [HC Hle].
    assert (Hcr : (0 <= C * r)%R) by (apply Rmult_le_pos; lra).
    destruct (Rle_lt_dec 0 D) as [Hd|Hd].
    + assert (D <= C * r)%R by (apply le_of_sq_le; assumption). lra.
    + assert (- D <= C * r)%R.
      { apply le_of_sq_le; [lra | assumption |].
        replace (- D * - D)%R with (D * D)%R by ring. exact Hle. }
      lra.
  - intros [H1 H2].
    assert (Hcr : (0 <= C * r)%R) by lra.
    assert (HC : (0 <= C)%R).
    { destruct (Rle_lt_dec 0 C) as [?|Hneg]; [assumption|].
      assert (0 < - C * r)%R by (apply Rmult_lt_0_compat; lra). lra. }
    split; [exact HC|].
    destruct (Rle_lt_dec 0 D) as [Hd|Hd].
    + apply sq_le_of_le. lra.
    + replace (D * D)%R with (- D * - D)%R by ring.
      apply sq_le_of_le. lra.
Qed.

(** [sqrt_gt] decides [sqrt v > c]. *)
Lemma sqrt_gt_real (v c : Q) :
  0 <= v -> sqrt_gt (Sqrt v) c = true <-> (Q2R c < sqrt (Q2R v))%R.
Proof.
  intros Hv. unfold sqrt_gt.
  assert (HV : (0 <= Q2R v)%R)
    by (apply Qle_Rle in Hv; now rewrite RMicromega.Q2R_0 in Hv).
  pose proof (sqrt_pos (Q2R v)) as Hs.
  pose proof (sqrt_sqrt (Q2R v) HV) as Hss.
  destruct (Qltb c 0) eqn:Ec.
  - apply Qltb_lt in Ec. apply Qlt_Rlt in Ec.
    rewrite RMicromega.Q2R_0 in Ec. split; [intros _; lra | reflexivity].
  - apply Qltb_ge in Ec. apply Qle_Rle in Ec.
    rewrite RMicromega.Q2R_0 in Ec. rewrite Qltb_lt. split.
    + intros H. apply Qlt_Rlt in H. rewrite Q2R_mult in H.
      destruct (Rlt_le_dec (Q2R c) (sqrt (Q2R v))) as [?|Hle]; [assumption|].
      exfalso. nra.
    + intros H. apply Rlt_Qlt. rewrite Q2R_mult. nra.
Qed.

Lemma Qsquare_nonneg (y : Q) : 0 <= y * y.
Proof.
  destruct (Qlt_le_dec y 0) as [Hneg|Hpos].
  - assert (He : y * y == (- y) * (- y)) by ring.
    rewrite He. apply Qmult_le_0_compat; lra.
  - apply Qmult_le_0_compat; assumption.
Qed.

Lemma Qsum_nonneg (l : list Q) : Forall (fun x => 0 <= x) l -> 0 <= Qsum l.
Proof.
  induction 1 as [|x l Hx Hl IH]; [apply Qle_refl|].
  cbv beta in Hx. rewrite Qsum_cons. lra.
Qed.

Lemma variance_nonneg (l : list Q) : (2 <= length l)%nat -> 0 <= variance l.
Proof.
  intros Hn. unfold variance. rewrite Qred_correct.
  assert (Hs : 0 <= sq_dev l).
  { unfold sq_dev. apply Qsum_nonneg, Forall_map, Forall_forall.
    intros x _. cbv beta. apply Qsquare_nonneg. }
  assert (Hl : 0 < len l - 1).
  { assert (H2 : inject_Z 2 <= len l)
      by (unfold len; rewrite <- Zle_Qle; lia).
    change (inject_Z 2) with 2 in H2. lra. }
  apply Qle_shift_div_l; [exact Hl | lra].
Qed.

(** The variance under the root of a z-score is positive, so the reading
    over the reals applies to every z-score the bot computes. *)
Lemma zscore_var_pos (series : list Q) : 0 < z_var (zscore series).
Proof.
  unfold zscore, std.
  destruct (Nat.ltb_spec (length series) 2) as [Hlt|Hge]; [reflexivity|].
  unfold sqrt_is_zero, sqrt_is_nan. rewrite orb_false_r.
  destruct (Qeq_bool (variance series) 0) eqn:E; [reflexivity|].
  destruct (iloc_last series); [|reflexivity].
  cbn [z_var]. pose proof (variance_nonneg series Hge) as Hv.
  assert (Hne : ~ variance series == 0)
    by (intros H; apply Qeq_bool_iff in H; congruence).
  lra.
Qed.

(** The zero of the degenerate branch is the real number zero. *)
Lemma z_real_zero : z_real z_zero = 0%R.
Proof.
  unfold z_real, z_zero. simpl. rewrite RMicromega.Q2R_0. unfold Rdiv. ring.
Qed.

End Meaning.

(** *** The filters on sample inputs *)

(** The trading hours are the hours 8 to 22, both included. *)
Example trade_hours_inclusive :
  in_trade_hours default_config (mk_datetime 5 7 59 59) = false
  /\ in_trade_hours default_config (mk_datetime 5 8 0 0) = true
  /\ in_trade_hours default_config (mk_datetime 5 22 59 59) = true
  /\ in_trade_hours default_config (mk_datetime 5 23 0 0) = false.
Proof. repeat split. Qed.

(** Outside the trading hours the gate answers without looking at the
    bars or asking the broker, here with no bars and no broker at all. *)
Example gate_at_night :
  safety_check default_config night_world [] (traded_before 10)
  = (Ok (false, "outside trade hours"%string), traded_before 10, []).
Proof. reflexivity. Qed.

(** The same frame and broker in the trading hours make the gate raise. *)
Example gate_without_bars :
  outcome (safety_check default_config quiet_world [] day5_state)
  = Raise LookupError.
Proof. reflexivity. Qed.

Example gate_in_cooldown :
  safety_check default_config quiet_world [] (traded_before 10)
  = (Ok (false, "cooldown"%string), traded_before 10, []).
Proof. reflexivity. Qed.

Example gate_volatile :
  safety_check default_config night_world choppy_frame
    (traded_before 3600)
  = (Ok (false, "outside trade hours"%string), traded_before 3600, [])
  /\ safety_check default_config quiet_world choppy_frame
       (traded_before 3600)
     = (Ok (false, "volatility too high"%string), traded_before 3600, []).
Proof. split; vm_compute; reflexivity. Qed.

Example gate_wide_spread :
  safety_check default_config wide_spread_world (flat_frame 30 100)
    day5_state
  = (Ok (false, "spread too wide"%string), day5_state,
     [Call CallSymbolInfoTick; Call CallSymbolInfo]).
Proof. vm_compute. reflexivity. Qed.

Example gate_open :
  safety_check default_config quiet_world (flat_frame 30 100) day5_state
  = (Ok (true, "ok"%string), day5_state,
     [Call CallSymbolInfoTick; Call CallSymbolInfo]).
Proof. vm_compute. reflexivity. Qed.

(** The z-score is zero on the flat frame and about 2.04 on the spike:
    [d / sqrt v] with [d = 119/1440] and [v = 14161/8640000]. *)
Example zscore_samples :
  zscore (detrended default_config (flat_frame 125 100)) = z_zero
  /\ z_num (zscore (detrended default_config spike_frame)) == 119 # 1440
  /\ z_var (zscore (detrended default_config spike_frame))
     == 14161 # 8640000
  /\ z_ge (zscore (detrended default_config spike_frame)) (204 # 100) = true
  /\ z_ge (zscore (detrended default_config spike_frame)) (205 # 100)
     = false.
Proof. repeat split; vm_compute; reflexivity. Qed.

(** *** Cross-checks in binary64 *)

Module Binary64.

Import Floats.
Local Open Scope float_scope.
Local Set Warnings "-inexact-float".

(** The boundary of the daily-loss breaker falls the same way in binary64
    as over the rationals: a loss of 200 on 10000 is not above 0.02, a
    loss of 210 is. *)
Example daily_loss_boundary :
  (0.02 <? (10000 - 9800) / 10000) = false
  /\ (0.02 <? (10000 - 9790) / 10000) = true.
Proof. split; vm_compute; reflexivity. Qed.

(** In binary64 a minimum volume of 0.3 over a step of 0.1 is a quotient
    below 3, so whole steps go down to 2 and the volume to 0.2: there the
    cut below the minimum needs no odd symbol. *)
Example min_over_step_rounds_down :
  (0.3 / 0.1 <? 3) = true
  /\ (2 <=? 0.3 / 0.1) = true
  /\ (2 * 0.1 <? 0.3) = true.
Proof. repeat split; vm_compute; reflexivity. Qed.

End Binary64.

(** ** Further properties of the loop *)

(** *** Entries on either side *)

Section Entries.

Variable cfg : Config.
Variable w : World.

Lemma set_last_trade_time_ok (t : datetime) (s : RiskState) :
  set_last_trade_time t s = (Ok tt, stamped t s, []).
Proof. reflexivity. Qed.

(** What the ENTRY branch does on a frame of at least 20 bars and a symbol
    on which sizing returns. *)
Lemma enter_result (df : DataFrame) (equity : Q) (z : zvalue)
    (s : RiskState) (tick : Tick) (info : SymbolInfo) (price : Q) :
  symbol_info_tick w = Some tick ->
  symbol_info w = Some info ->
  iloc_last (closes df) = Some price ->
  (20 <= length df)%nat ->
  ~ trade_tick_size info == 0 ->
  ~ volume_step info == 0 ->
  broker_answers cfg w ->
  let atr := mean (map (fun b => bar_high b - bar_low b) (lastn 20 df)) in
  exists stop lots,
    (atr <= stop /\ price * (1 # 1000) <= stop
     /\ (stop = atr \/ stop = price * (1 # 1000)))
    /\ compute_lot cfg w equity (F stop) s
       = (Ok lots, s, [Call CallSymbolInfo])
    /\ enter cfg w df equity z s
       = if z_ge z (Z_ENTER cfg) then
           (Ok tt, stamped (now_trade w) s,
            [Call CallSymbolInfo; Call CallSymbolInfoTick;
             order_event cfg
               (order_request cfg tick Sell lots
                  (Some (F (price + stop)))
                  (Some (F (price - stop * (15 # 10)))))])
         else if z_le z (- Z_ENTER cfg) then
           (Ok tt, stamped (now_trade w) s,
            [Call CallSymbolInfo; Call CallSymbolInfoTick;
             order_event cfg
               (order_request cfg tick Buy lots
                  (Some (F (price - stop)))
                  (Some (F (price + stop * (15 # 10)))))])
         else (Ok tt, s, []).
Proof.
  intros Ht Hi Hprice Hlen Hts Hst Hb atr.
  destruct (py_max_finite atr (price * (1 # 1000)))
    as (stop & Hstop & Ha & Hp & Hor).
  destruct (@compute_lot_ok cfg w equity (F stop) s info Hi Hts Hst)
    as (l & Hlot & _).
  exists stop. eexists. split; [repeat split; assumption|].
  split; [exact Hlot|].
  unfold enter. rewrite Hprice, (last_mean_range df Hlen).
  fold atr. cbv zeta. rewrite Hstop.
  change (fadd (F price) (F stop)) with (F (price + stop)).
  change (fsub (F price) (fmul (F stop) (F (15 # 10))))
    with (F (price - stop * (15 # 10))).
  change (fsub (F price) (F stop)) with (F (price - stop)).
  change (fadd (F price) (fmul (F stop) (F (15 # 10))))
    with (F (price + stop * (15 # 10))).
  destruct (z_ge z (Z_ENTER cfg)); [|destruct (z_le z (- Z_ENTER cfg))].
  - rewrite (bind_run _ Hlot).
    match goal with
    | |- context [send_order cfg w Sell ?v ?sl ?tp] =>
        destruct (@send_order_ok cfg w tick Sell v sl tp s Ht Hb)
          as (filled & Hsend & _)
    end.
    rewrite (bind_run _ Hsend). reflexivity.
  - rewrite (bind_run _ Hlot).
    match goal with
    | |- context [send_order cfg w Buy ?v ?sl ?tp] =>
        destruct (@send_order_ok cfg w tick Buy v sl tp s Ht Hb)
          as (filled & Hsend & _)
    end.
    rewrite (bind_run _ Hsend). reflexivity.
  - reflexivity.
Qed.

(** A z-score at or below a negative threshold is not at or above its
    opposite. *)
Lemma z_le_not_ge (series : list Q) (c : Q) :
  0 < c ->
  z_le (zscore series) (- c) = true ->
  z_ge (zscore series) c = false.
Proof.
  intros Hc Hle. pose proof (zscore_var_pos series) as Hv.
  revert Hle. unfold z_le, z_ge, z_neg. cbn [z_num z_var].
  set (d := z_num (zscore series)). set (v := z_var (zscore series)) in *.
  replace (Qle_bool 0 (- - c)) with true
    by (symmetry; apply Qle_bool_iff; lra).
  replace (Qle_bool 0 c) with true by (symmetry; apply Qle_bool_iff; lra).
  rewrite andb_true_iff. intros [H1 H2].
  apply andb_false_iff.
  destruct (Qle_bool 0 d) eqn:E; [|now left]. right.
  qbool. apply Qle_bool_lt.
  assert (Hd : d == 0) by lra.
  assert (Hcc : 0 < c * c * v)
    by (apply Qmult_lt_0_compat; [apply Qmult_lt_0_compat|]; assumption).
  rewrite Hd. lra.
Qed.

(** A signal on the long side also needs more bars than the lookback. *)
Lemma long_signal_needs_history (df : DataFrame) (c : Q) :
  0 < c ->
  z_le (zscore (detrended cfg df)) (- c) = true ->
  (LOOKBACK cfg < length df)%nat.
Proof.
  intros Hc Hz.
  pose proof (detrended_length cfg df) as Hlen.
  destruct (Nat.ltb_spec (length (detrended cfg df)) 2) as [Hshort|Hlong];
    [|lia].
  exfalso. revert Hz. unfold zscore, std.
  replace (length (detrended cfg df) <? 2)%nat with true
    by (symmetry; now apply Nat.ltb_lt).
  cbn [sqrt_is_zero sqrt_is_nan orb].
  unfold z_le, z_ge, z_neg, z_zero. cbn [z_num z_var].
  replace (Qle_bool 0 (- - c)) with true
    by (symmetry; apply Qle_bool_iff; lra).
  rewrite andb_true_iff. intros [_ H]. qbool.
  assert (Hcc : 0 < c * c) by (apply Qmult_lt_0_compat; assumption).
  lra.
Qed.

End Entries.

Section EntryTheorems.

Lemma gate_passed_nonempty (cfg : Config) (w : World) (df : DataFrame)
    (s s' : RiskState) (reason : string) (t : list Event) :
  safety_check cfg w df s = (Ok (true, reason), s', t) -> df <> [].
Proof.
  intros Hs Hnil. subst df.
  destruct (@safety_check_passed cfg w [] s s' reason t Hs)
    as (_ & _ & _ & _ & (vol & Hv & _) & _).
  discriminate.
Qed.

Lemma enter_no_signal (cfg : Config) (w : World) (df : DataFrame)
    (equity : Q) (z : zvalue) (s : RiskState) :
  df <> [] ->
  z_ge z (Z_ENTER cfg) = false ->
  z_le z (- Z_ENTER cfg) = false ->
  enter cfg w df equity z s = (Ok tt, s, []).
Proof.
  intros Hne Hge Hle. unfold enter.
  destruct (@iloc_last_nonempty Q (closes df)) as [price Hp].
  { unfold closes. destruct df; [contradiction | discriminate]. }
  rewrite Hp. unfold rolling_mean. rewrite iloc_last_rolling.
  - rewrite Hge, Hle. reflexivity.
  - rewrite ranges_map. destruct df; [contradiction | discriminate].
Qed.

Lemma no_position_act (cfg : Config) (w : World) (df : DataFrame)
    (equity : Q) (z : zvalue) :
  positions_get w = None \/ positions_get w = Some [] ->
  match positions_get w with
  | Some (p :: ps) =>
      if z_abs_le z (Z_EXIT cfg) then exit_positions cfg w (p :: ps)
      else ret tt
  | _ => enter cfg w df equity z
  end = enter cfg w df equity z.
Proof. intros [H|H]; rewrite H; reflexivity. Qed.

End EntryTheorems.

(** X1. The long side of the ENTRY branch.  With the gate open, no
    position and [z <= -Z_ENTER], on a symbol on which sizing returns and
    with a broker that answers (or dry-run), the pass sizes a lot and
    emits one buy order at the ask with stop-loss [price - stop] and
    take-profit [price + 1.5 * stop], then sets the cooldown anchor;
    [stop] is the larger of the 20-bar mean range and a thousandth of the
    last close. *)
Theorem long_entry :
  forall (cfg : Config) (w : World) (equity : Q) (df : DataFrame)
         (s : RiskState) (reason : string) (t : list Event)
         (tick : Tick) (info : SymbolInfo) (price : Q),
    copy_rates_from w = Some df ->
    safety_check cfg w df s = (Ok (true, reason), s, t) ->
    positions_get w = None \/ positions_get w = Some [] ->
    z_le (zscore (detrended cfg df)) (- Z_ENTER cfg) = true ->
    broker_answers cfg w ->
    symbol_info_tick w = Some tick ->
    symbol_info w = Some info ->
    iloc_last (closes df) = Some price ->
    0 < Z_ENTER cfg ->
    (19 <= LOOKBACK cfg)%nat ->
    ~ trade_tick_size info == 0 ->
    ~ volume_step info == 0 ->
    let atr := mean (map (fun b => bar_high b - bar_low b) (lastn 20 df)) in
    exists stop lots,
      (atr <= stop /\ price * (1 # 1000) <= stop
       /\ (stop = atr \/ stop = price * (1 # 1000)))
      /\ outcome (compute_lot cfg w equity (F stop) s) = Ok lots
      /\ decide cfg w equity s
         = (Ok tt, stamped (now_trade w) s,
            Call (CallCopyRatesFrom (LOOKBACK cfg + 5)) :: t
            ++ [Call CallPositionsGet; Call CallSymbolInfo;
                Call CallSymbolInfoTick;
                order_event cfg {|
                  req_action := TRADE_ACTION_DEAL;
                  req_symbol := SYMBOL cfg;
                  req_volume := lots;
                  req_type := Buy;
                  req_price := ask tick;
                  req_sl := Some (F (price - stop));
                  req_tp := Some (F (price + stop * (15 # 10)));
                  req_deviation := DEVIATION cfg;
                  req_magic := MAGIC cfg;
                  req_comment := "meanrev_safe";
                  req_type_filling := ORDER_FILLING_FOK
                |};
                Sleep 5]).
Proof.
  intros cfg w equity df s reason t tick info price
         Hr Hs Hp Hz Hb Ht Hi Hprice Hzpos Hlook Hts Hst atr.
  assert (Hlen : (20 <= length df)%nat)
    by (pose proof (long_signal_needs_history cfg df Hzpos Hz); lia).
  pose proof (z_le_not_ge (detrended cfg df) Hzpos Hz) as Hge.
  destruct (@enter_result cfg w df equity (zscore (detrended cfg df)) s
              tick info price Ht Hi Hprice Hlen Hts Hst Hb)
    as (stop & lots & Hstop & Hlot & Henter).
  exists stop, lots. split; [exact Hstop|].
  split; [rewrite Hlot; reflexivity|].
  rewrite (@decide_gate_passed cfg w equity df s reason t Hr Hs). cbv zeta.
  rewrite (no_position_act cfg w df equity _ Hp).
  rewrite Henter, Hge, Hz. reflexivity.
Qed.

Lemma long_entry_witness :
  exists req,
    In (Call (CallOrderSend req))
       (trace_of (decide live_config dip_world 10000 day5_state))
    /\ req_type req = Buy
    /\ req_price req = 100.
Proof.
  destruct (@long_entry live_config dip_world 10000 dip_frame day5_state
              "ok" [Call CallSymbolInfoTick; Call CallSymbolInfo]
              (mkTick (999 # 10) 100) sample_info (999 # 10))
    as (stop & lots & _ & _ & Hdec).
  - reflexivity.
  - vm_compute. reflexivity.
  - right. reflexivity.
  - vm_compute. reflexivity.
  - right. intros req. discriminate.
  - reflexivity.
  - reflexivity.
  - reflexivity.
  - reflexivity.
  - apply Nat.leb_le. reflexivity.
  - intros H. vm_compute in H. discriminate.
  - intros H. vm_compute in H. discriminate.
  - eexists. split.
    + rewrite Hdec. unfold trace_of. cbn [snd].
      do 6 right. left. reflexivity.
    + split; reflexivity.
Defined.

(** X2. No signal, no action.  With the gate open, no position and a
    z-score strictly between the two entry thresholds, the pass sizes
    nothing, sends nothing and leaves the globals as they were: after the
    position query it only sleeps five seconds. *)
Theorem no_signal_no_action :
  forall (cfg : Config) (w : World) (equity : Q) (df : DataFrame)
         (s : RiskState) (reason : string) (t : list Event),
    copy_rates_from w = Some df ->
    safety_check cfg w df s = (Ok (true, reason), s, t) ->
    positions_get w = None \/ positions_get w = Some [] ->
    z_ge (zscore (detrended cfg df)) (Z_ENTER cfg) = false ->
    z_le (zscore (detrended cfg df)) (- Z_ENTER cfg) = false ->
    decide cfg w equity s
    = (Ok tt, s,
       Call (CallCopyRatesFrom (LOOKBACK cfg + 5)) :: t
       ++ [Call CallPositionsGet; Sleep 5]).
Proof.
  intros cfg w equity df s reason t Hr Hs Hp Hge Hle.
  rewrite (@decide_gate_passed cfg w equity df s reason t Hr Hs). cbv zeta.
  rewrite (no_position_act cfg w df equity _ Hp).
  rewrite (@enter_no_signal cfg w df equity _ s
             (@gate_passed_nonempty cfg w df s s reason t Hs) Hge Hle).
  reflexivity.
Qed.

Lemma no_signal_no_action_witness :
  decide default_config quiet_world 10000 day5_state
  = (Ok tt, day5_state,
     Call (CallCopyRatesFrom 125)
     :: [Call CallSymbolInfoTick; Call CallSymbolInfo]
     ++ [Call CallPositionsGet; Sleep 5]).
Proof.
  apply (@no_signal_no_action default_config quiet_world 10000
           (flat_frame 30 100) day5_state "ok"
           [Call CallSymbolInfoTick; Call CallSymbolInfo]).
  - reflexivity.
  - vm_compute. reflexivity.
  - right. reflexivity.
  - vm_compute. reflexivity.
  - vm_compute. reflexivity.
Defined.

(** X3. The bracket of an entry straddles the price.  Whenever the ENTRY
    branch emits an order on a positive last close, a sell has its
    take-profit strictly below and its stop-loss strictly above that close,
    a buy the other way round, and on either side the take-profit is one
    and a half times as far from the close as the stop-loss. *)
Theorem entry_bracket_straddles_price :
  forall (cfg : Config) (w : World) (df : DataFrame) (equity : Q)
         (z : zvalue) (s : RiskState) (tick : Tick) (info : SymbolInfo)
         (price : Q) (req : OrderRequest),
    symbol_info_tick w = Some tick ->
    symbol_info w = Some info ->
    iloc_last (closes df) = Some price ->
    (20 <= length df)%nat ->
    ~ trade_tick_size info == 0 ->
    ~ volume_step info == 0 ->
    broker_answers cfg w ->
    0 < price ->
    In (order_event cfg req) (trace_of (enter cfg w df equity z s)) ->
    exists sl tp,
      req_sl req = Some (F sl)
      /\ req_tp req = Some (F tp)
      /\ ((req_type req = Sell /\ tp < price /\ price < sl
           /\ price - tp == (15 # 10) * (sl - price))
          \/ (req_type req = Buy /\ sl < price /\ price < tp
              /\ tp - price == (15 # 10) * (price - sl))).
Proof.
  intros cfg w df equity z s tick info price req
         Ht Hi Hprice Hlen Hts Hst Hb Hpos Hin.
  destruct (@enter_result cfg w df equity z s tick info price
              Ht Hi Hprice Hlen Hts Hst Hb)
    as (stop & lots & (_ & Hstop & _) & _ & Henter).
  assert (Hs : 0 < stop) by lra.
  rewrite Henter in Hin. clear Henter.
  assert (Hdiff : forall c, order_event cfg req <> Call c \/ exists r, c = CallOrderSend r).
  { intros c. unfold order_event. destruct (DRY_RUN cfg).
    - left. discriminate.
    - destruct c; try (left; discriminate). right. now eexists. }
  assert (Hinj : forall r, order_event cfg req = order_event cfg r -> req = r).
  { intros r. unfold order_event. destruct (DRY_RUN cfg); intros H;
      now inversion H. }
  destruct (z_ge z (Z_ENTER cfg)); [|destruct (z_le z (- Z_ENTER cfg))].
  - destruct Hin as [H|[H|[H|[]]]].
    + destruct (Hdiff CallSymbolInfo) as [Hd|[r Hr]];
        [now symmetry in H | discriminate].
    + destruct (Hdiff CallSymbolInfoTick) as [Hd|[r Hr]];
        [now symmetry in H | discriminate].
    + symmetry in H. apply Hinj in H. subst req.
      exists (price + stop), (price - stop * (15 # 10)).
      split; [reflexivity|]. split; [reflexivity|].
      left. cbn [req_type order_request]. repeat split; lra.
  - destruct Hin as [H|[H|[H|[]]]].
    + destruct (Hdiff CallSymbolInfo) as [Hd|[r Hr]];
        [now symmetry in H | discriminate].
    + destruct (Hdiff CallSymbolInfoTick) as [Hd|[r Hr]];
        [now symmetry in H | discriminate].
    + symmetry in H. apply Hinj in H. subst req.
      exists (price - stop), (price + stop * (15 # 10)).
      split; [reflexivity|]. split; [reflexivity|].
      right. cbn [req_type order_request]. repeat split; lra.
  - destruct Hin.
Qed.

Lemma entry_bracket_straddles_price_witness :
  exists req sl tp,
    In (order_event live_config req)
       (trace_of (enter live_config spike_world spike_frame 10000
                    (zscore (detrended live_config spike_frame))
                    day5_state))
    /\ req_sl req = Some (F sl)
    /\ req_tp req = Some (F tp)
    /\ ((req_type req = Sell /\ tp < 1001 # 10 /\ 1001 # 10 < sl
         /\ (1001 # 10) - tp == (15 # 10) * (sl - (1001 # 10)))
        \/ (req_type req = Buy /\ sl < 1001 # 10 /\ 1001 # 10 < tp
            /\ tp - (1001 # 10) == (15 # 10) * ((1001 # 10) - sl))).
Proof.
  assert (Hin : In (order_event live_config
                      (order_request live_config (mkTick 100 (1001 # 10))
                         Sell (3125000000 # 100000000)
                         (Some (F ((1001 # 10) + (24 # 25))))
                         (Some (F ((1001 # 10) - (24 # 25) * (15 # 10))))))
                   (trace_of (enter live_config spike_world spike_frame 10000
                                (zscore (detrended live_config spike_frame))
                                day5_state))).
  { vm_compute. do 2 right. left. reflexivity. }
  assert (Hlen : (20 <= length spike_frame)%nat)
    by (apply Nat.leb_le; reflexivity).
  assert (Hts : ~ trade_tick_size sample_info == 0)
    by (intros H; vm_compute in H; discriminate).
  assert (Hst : ~ volume_step sample_info == 0)
    by (intros H; vm_compute in H; discriminate).
  assert (Hb : broker_answers live_config spike_world)
    by (right; intros req; discriminate).
  assert (Hpos : 0 < 1001 # 10) by reflexivity.
  destruct (@entry_bracket_straddles_price live_config spike_world
              spike_frame 10000
              (zscore (detrended live_config spike_frame)) day5_state
              (mkTick 100 (1001 # 10)) sample_info (1001 # 10) _
              eq_refl eq_refl eq_refl Hlen Hts Hst Hb Hpos Hin)
    as (sl & tp & H).
  eexists. exists sl, tp. split; [exact Hin | exact H].
Defined.

(** *** Sleeps *)

Section Sleeps.

Variable cfg : Config.
Variable w : World.

Lemma never_sleep_send_order (side : Side) (volume : Q)
    (sl tp : option pyfloat) :
  never is_sleep (send_order cfg w side volume sl tp).
Proof. unfold send_order. cbv zeta. repeat never_step. Qed.

Lemma never_sleep_compute_lot (equity : Q) (stop_dist : pyfloat) :
  never is_sleep (compute_lot cfg w equity stop_dist).
Proof. unfold compute_lot. repeat never_step. Qed.

Lemma never_sleep_set_last_trade_time (t : datetime) :
  never is_sleep (set_last_trade_time t).
Proof. unfold set_last_trade_time. repeat never_step. Qed.

Lemma never_sleep_exit_positions (ps : list Position) :
  never is_sleep (exit_positions cfg w ps).
Proof.
  unfold exit_positions, log.
  apply never_bind; [apply never_emit; reflexivity | intros _].
  apply never_bind; [|intros _; apply never_sleep_set_last_trade_time].
  apply never_for_each. intros p.
  apply never_bind; [apply never_sleep_send_order | intros _; apply never_ret].
Qed.

Lemma never_sleep_enter (df : DataFrame) (equity : Q) (z : zvalue) :
  never is_sleep (enter cfg w df equity z).
Proof.
  unfold enter.
  destruct (iloc_last (closes df)) as [price|]; [|apply never_raise].
  destruct (iloc_last (rolling_mean 20 (ranges df))) as [atr|];
    [|apply never_raise].
  cbv zeta.
  destruct (z_ge z (Z_ENTER cfg)); [|destruct (z_le z (- Z_ENTER cfg))].
  - apply never_bind; [apply never_sleep_compute_lot | intros lots].
    apply never_bind; [apply never_sleep_send_order | intros _].
    apply never_sleep_set_last_trade_time.
  - apply never_bind; [apply never_sleep_compute_lot | intros lots].
    apply never_bind; [apply never_sleep_send_order | intros _].
    apply never_sleep_set_last_trade_time.
  - apply never_ret.
Qed.

Variable allowed : list Z.

(** What does not sleep may come first. *)
Lemma sleep_closes_after (A B : Type) (m : M A) (k : A -> M B) :
  never is_sleep m ->
  (forall a s, sleep_closes allowed (k a s)) ->
  forall s, sleep_closes allowed (bind m k s).
Proof.
  intros Hm Hk s. specialize (Hm s).
  unfold sleep_closes, bind, outcome, trace_of in *.
  destruct (m s) as [[[a|e] s1] t1]; simpl in *; [|exact Hm].
  specialize (Hk a s1).
  destruct (k a s1) as [[[b|e] s2] t2]; simpl in *.
  - destruct Hk as (t & n & Ht & Hn & Hin). exists (t1 ++ t), n.
    rewrite Ht, app_assoc, existsb_app, Hm, Hn. repeat split. exact Hin.
  - rewrite existsb_app, Hm, Hk. reflexivity.
Qed.

Lemma sleep_closes_sleep (n : Z) (s : RiskState) :
  In n allowed -> sleep_closes allowed (sleep n s).
Proof. intros H. exists [], n. repeat split. exact H. Qed.

End Sleeps.

Lemma sleep_closes_decide (cfg : Config) (w : World) (equity : Q)
    (s : RiskState) :
  sleep_closes [5; 300; 900]%Z (decide cfg w equity s).
Proof.
  unfold decide. revert s.
  apply sleep_closes_after; [unfold rates; repeat never_step | intros df].
  apply sleep_closes_after;
    [unfold safety_check; repeat never_step | intros chk s].
  destruct (negb (fst chk));
    [apply sleep_closes_sleep; simpl; tauto|].
  revert s.
  apply sleep_closes_after; [unfold has_position; repeat never_step|].
  intros pos.
  apply sleep_closes_after.
  - destruct pos as [ps|]; [|apply never_sleep_enter].
    destruct (z_abs_le _ _); [apply never_sleep_exit_positions|].
    apply never_ret.
  - intros _ s. apply sleep_closes_sleep. simpl. tauto.
Qed.

Lemma sleep_closes_loop_body (cfg : Config) (w : World) (s : RiskState) :
  sleep_closes [5; 300; 900]%Z (loop_body cfg w s).
Proof.
  unfold loop_body. revert s.
  apply sleep_closes_after; [unfold account; repeat never_step | intros acc].
  apply sleep_closes_after;
    [unfold first_equity; repeat never_step | intros _].
  apply sleep_closes_after;
    [unfold daily_reset; repeat never_step | intros _].
  apply sleep_closes_after;
    [unfold daily_loss_hit; repeat never_step | intros hit].
  destruct hit.
  - apply sleep_closes_after; [unfold log; repeat never_step|].
    intros _ s. apply sleep_closes_sleep. simpl. tauto.
  - apply sleep_closes_after; [apply never_get | intros s0 s].
    destruct (_ <=? _)%Z; [|apply sleep_closes_decide].
    revert s.
    apply sleep_closes_after; [unfold log; repeat never_step|].
    intros _ s. apply sleep_closes_sleep. simpl. tauto.
Qed.

(** X5. The loop does not die and does not spin: a run of any number of
    passes returns, whatever the broker answers, and its trace holds as
    many sleeps as there were passes. *)
Theorem run_loop_returns_and_sleeps_each_pass :
  forall (cfg : Config) (ws : list World) (s : RiskState),
    outcome (run_loop cfg ws s) = Ok tt
    /\ length (filter is_sleep (trace_of (run_loop cfg ws s))) = length ws.
Proof.
  intros cfg ws. induction ws as [|w ws IH]; intros s.
  - split; reflexivity.
  - unfold run_loop. simpl for_each.
    rewrite (bind_run _ (loop_pass_ok cfg w s)).
    fold (run_loop cfg ws).
    destruct (IH (state_of (loop_pass cfg w s))) as [Ho Hn].
    split; [exact Ho|].
    cbn [trace_of snd]. rewrite filter_app, length_app.
    fold (trace_of (run_loop cfg ws (state_of (loop_pass cfg w s)))).
    rewrite Hn. simpl length. f_equal.
    pose proof (sleep_closes_loop_body cfg w s) as H.
    unfold sleep_closes, loop_pass, outcome, trace_of in *.
    assert (Hnone : forall t, existsb is_sleep t = false ->
                              filter is_sleep t = []).
    { intros t. induction t as [|e t IHt]; simpl; [reflexivity|].
      destruct (is_sleep e); simpl; [discriminate | exact IHt]. }
    destruct (loop_body cfg w s) as [[[[]|e] s1] t1]; simpl in *.
    + destruct H as (t & n & Ht & Hs & _). rewrite Ht, filter_app.
      rewrite (Hnone _ Hs). reflexivity.
    + rewrite filter_app, (Hnone _ H). reflexivity.
Qed.

(** *** The loss-streak breaker *)

(** X6. The loss-streak breaker comes second.  Once the account has
    answered and the start-of-day equity is not zero, a tripped daily-loss
    breaker keeps the lock line out of the log whatever the counter says;
    otherwise the pass takes the loss-streak branch (it logs the lock,
    sleeps 900 seconds and asks for neither rates nor quotes) exactly when
    the counter has reached [MAX_LOSS_STREAK]. *)
Theorem loss_streak_breaker_comes_second :
  forall (cfg : Config) (w : World) (s : RiskState) (acc : Account) (se : Q),
    account_info w = Some acc ->
    start_equity (bookkept w (acc_equity acc) s) = Some se ->
    ~ se == 0 ->
    (MAX_DAILY_LOSS cfg < (se - acc_equity acc) / se ->
     ~ In (Log "LOSS STREAK LOCK") (trace_of (loop_body cfg w s)))
    /\ (~ MAX_DAILY_LOSS cfg < (se - acc_equity acc) / se ->
        (loop_body cfg w s
         = (Ok tt, bookkept w (acc_equity acc) s,
            [Call CallAccountInfo; Log "LOSS STREAK LOCK"; Sleep 900])
         <-> (MAX_LOSS_STREAK cfg
              <= loss_streak (bookkept w (acc_equity acc) s))%Z)).
Proof.
  intros cfg w s acc se Ha Hse Hz.
  rewrite (loop_body_after_account cfg w s Ha Hse (Qeq_bool_false Hz)).
  cbv zeta. split.
  - intros Hlt. apply Qltb_lt in Hlt. rewrite Hlt.
    cbn [trace_of snd In]. intros [H|[H|[H|[]]]]; discriminate.
  - intros Hnlt. rewrite <- Qltb_lt in Hnlt.
    destruct (Qltb (MAX_DAILY_LOSS cfg) _); [now elim Hnlt|].
    destruct (Z.leb_spec (MAX_LOSS_STREAK cfg)
                (loss_streak (bookkept w (acc_equity acc) s))) as [Hle|Hgt].
    + split; [intros _; exact Hle | reflexivity].
    + split; [|lia].
      destruct (decide_trace_head cfg w (acc_equity acc)
                  (bookkept w (acc_equity acc) s)) as [t Ht].
      rewrite Ht. discriminate.
Qed.

Lemma loss_streak_breaker_comes_second_witness :
  loop_body default_config quiet_world streak_state
  = (Ok tt, streak_state,
     [Call CallAccountInfo; Log "LOSS STREAK LOCK"; Sleep 900])
  /\ ~ In (Log "LOSS STREAK LOCK")
         (trace_of (loop_body default_config (world_with_equity 9000)
                      streak_state)).
Proof.
  assert (Hz : ~ 10000 == 0) by (intros H; discriminate).
  split.
  - destruct (@loss_streak_breaker_comes_second default_config quiet_world
                streak_state (mkAccount 10000 10000) 10000
                eq_refl eq_refl Hz) as [_ H].
    apply H.
    + intros Hlt. vm_compute in Hlt. discriminate.
    + vm_compute. discriminate.
  - destruct (@loss_streak_breaker_comes_second default_config
                (world_with_equity 9000) streak_state
                (mkAccount 10000 9000) 10000
                eq_refl eq_refl Hz) as [H _].
    apply H. reflexivity.
Defined.

(** *** The first equity *)

Section FirstEquity.

Variable cfg : Config.

(** Once the account has answered, what a pass leaves in the globals other
    than the cooldown anchor is what its bookkeeping put there. *)
Lemma pass_risk_fields (w : World) (s : RiskState) (acc : Account) :
  account_info w = Some acc ->
  risk_fields (state_of (loop_pass cfg w s))
  = risk_fields (bookkept w (acc_equity acc) s).
Proof.
  intros Ha. rewrite state_of_loop_pass. unfold loop_body.
  rewrite (bind_run _ (account_ok w s Ha)). cbn [snd].
  rewrite (bind_run _ (first_equity_ok _ s)).
  rewrite (bind_run _ (daily_reset_ok w _ _)).
  fold (bookkept w (acc_equity acc) s).
  unfold state_of at 1. cbn [fst snd].
  apply (@preserves_bind
           (fun s' => risk_fields s'
                      = risk_fields (bookkept w (acc_equity acc) s)));
    [ | | reflexivity].
  - unfold daily_loss_hit. frame.
  - intros hit. unfold log, sleep.
    repeat first [ apply preserves_decide; [intros ? ? H; exact H]
                 | frame_step ].
Qed.

(** With the start-of-day equity set, no pass assigns [peak_equity]. *)
Lemma peak_equity_kept (p : option Q) (w : World) :
  preserves (fun s => peak_equity s = p /\ start_equity s <> None)
            (loop_pass cfg w).
Proof.
  apply preserves_loop_pass, preserves_loop_body.
  - intros s t H. exact H.
  - intros equity s [Hp Hs]. rewrite first_equity_result.
    unfold state_of. simpl.
    destruct (start_equity s) eqn:E; [|contradiction].
    split; [exact Hp | congruence].
  - intros equity s [Hp Hs]. rewrite daily_reset_result.
    unfold state_of. simpl.
    destruct (_ =? _)%Z; [split; assumption|].
    split; [exact Hp | discriminate].
Qed.

Lemma peak_equity_kept_run_loop (p : option Q) (ws : list World)
    (s : RiskState) :
  peak_equity s = p -> start_equity s <> None ->
  peak_equity (state_of (run_loop cfg ws s)) = p.
Proof.
  revert s. induction ws as [|w ws IH]; intros s Hp Hs; [exact Hp|].
  rewrite run_loop_cons.
  destruct (@peak_equity_kept p w s (conj Hp Hs)) as [Hp' Hs'].
  now apply IH.
Qed.

End FirstEquity.

(** X7. [peak_equity] is the first equity the bot reads, for good: started
    from the initial globals with an account that answers on the first
    pass, the loop holds that first equity in [peak_equity] after any
    number of further passes, whatever the equity does later and across
    day rollovers. *)
Theorem peak_equity_is_first_equity :
  forall (cfg : Config) (w : World) (ws : list World) (today : Z)
         (acc : Account),
    account_info w = Some acc ->
    peak_equity (state_of (run_loop cfg (w :: ws) (initial_state today)))
    = Some (acc_equity acc).
Proof.
  intros cfg w ws today acc Ha. rewrite run_loop_cons.
  pose proof (@pass_risk_fields cfg w (initial_state today) acc Ha) as H.
  unfold bookkept in H. rewrite first_equity_result in H.
  unfold state_of at 3 in H. cbn [initial_state start_equity fst snd] in H.
  rewrite daily_reset_result in H. unfold state_of at 2 in H.
  cbn [fst snd] in H. unfold risk_fields in H.
  apply peak_equity_kept_run_loop.
  - destruct (_ =? _)%Z; simpl in H; congruence.
  - destruct (_ =? _)%Z; simpl in H;
      intros Hn; rewrite Hn in H; discriminate.
Qed.

Lemma peak_equity_is_first_equity_witness :
  peak_equity
    (state_of (run_loop default_config
                 [quiet_world; world_with_equity 12000; next_day_world]
                 (initial_state 5)))
  = Some 10000.
Proof.
  exact (@peak_equity_is_first_equity default_config quiet_world
           [world_with_equity 12000; next_day_world] 5
           (mkAccount 10000 10000) eq_refl).
Defined.

(** *** Missing answers *)

(** X8. A pass in which the terminal returns no account does nothing but
    report it: one call, the AttributeError in the log, ten seconds of
    sleep; the globals are as before, so that neither the first-equity
    bookkeeping nor the daily reset has run. *)
Theorem account_unavailable_pass :
  forall (cfg : Config) (w : World) (s : RiskState),
    account_info w = None ->
    loop_pass cfg w s
    = (Ok tt, s, [Call CallAccountInfo; LogError AttributeError; Sleep 10]).
Proof.
  intros cfg w s Ha. unfold loop_pass, loop_body.
  rewrite (bind_raise _ (account_none w s Ha)). reflexivity.
Qed.

Lemma account_unavailable_pass_witness :
  loop_pass default_config offline_world (initial_state 4)
  = (Ok tt, initial_state 4,
     [Call CallAccountInfo; LogError AttributeError; Sleep 10]).
Proof.
  exact (@account_unavailable_pass default_config offline_world
           (initial_state 4) eq_refl).
Defined.

(** X9. No bars.  When the terminal returns no rates the decision logic
    raises a LookupError right after the request.  When it returns an empty
    frame, the gate turns the pass away as usual outside the trading hours
    or during the cooldown, and raises the LookupError otherwise; in no
    case is a quote, the symbol or the positions asked for, or the globals
    touched. *)
Theorem decide_without_bars :
  forall (cfg : Config) (w : World) (equity : Q) (s : RiskState),
    (copy_rates_from w = None ->
     decide cfg w equity s
     = (Raise LookupError, s, [Call (CallCopyRatesFrom (LOOKBACK cfg + 5))]))
    /\ (copy_rates_from w = Some [] ->
        decide cfg w equity s
        = if in_trade_hours cfg (now_gate w)
             && negb (in_cooldown cfg (now_gate w) (last_trade_time s))
          then (Raise LookupError, s,
                [Call (CallCopyRatesFrom (LOOKBACK cfg + 5))])
          else (Ok tt, s,
                [Call (CallCopyRatesFrom (LOOKBACK cfg + 5)); Sleep 5])).
Proof.
  intros cfg w equity s. split; intros Hr.
  - assert (Hn : rates w (LOOKBACK cfg + 5) s
                 = (Raise LookupError, s,
                    [Call (CallCopyRatesFrom (LOOKBACK cfg + 5))])).
    { unfold rates. m_unfold. simpl. rewrite Hr. reflexivity. }
    unfold decide. rewrite (bind_raise _ Hn). reflexivity.
  - destruct (in_trade_hours cfg (now_gate w)) eqn:Hh; cbn [andb].
    + destruct (in_cooldown cfg (now_gate w) (last_trade_time s)) eqn:Hc;
        cbn [negb].
      * rewrite (decide_gate_failed cfg w equity s Hr
                   (safety_check_cooldown cfg w [] s Hh Hc)).
        reflexivity.
      * unfold decide. rewrite (bind_run _ (rates_ok w _ s Hr)).
        assert (Hs : safety_check cfg w [] s = (Raise LookupError, s, [])).
        { unfold safety_check. rewrite Hh. cbn [negb].
          rewrite (bind_run _ (get_ok s)), Hc. reflexivity. }
        rewrite (bind_raise _ Hs). reflexivity.
    + rewrite (decide_gate_failed cfg w equity s Hr
                 (safety_check_outside_hours cfg w [] s Hh)).
      reflexivity.
Qed.

(** *** Short histories *)

Section ShortHistory.

Lemma pct_from_length (prev : Q) (l : list Q) :
  length (pct_from prev l) = length l.
Proof.
  revert prev. induction l as [|x l IH]; intros prev; [reflexivity|].
  simpl. now rewrite IH.
Qed.

Lemma pct_change_length (l : list Q) : length (pct_change l) = length l.
Proof. destruct l; [reflexivity|]. simpl. now rewrite pct_from_length. Qed.

(** The first change is missing, so the 20-bar window of changes is full
    at the twenty-first bar only. *)
Lemma last_volatility_short (df : DataFrame) :
  df <> [] -> (length df <= 20)%nat -> last_volatility df = Some SqrtNaN.
Proof.
  intros Hne Hlen. unfold last_volatility, rolling_std.
  assert (Hl : length (pct_change (closes df)) = length df)
    by (rewrite pct_change_length; apply length_map).
  rewrite iloc_last_rolling
    by (intros H; rewrite H in Hl; destruct df; [contradiction|discriminate]).
  f_equal. unfold roll_at. rewrite Hl. cbn [Nat.eqb orb].
  destruct (Nat.ltb_spec (length df) 20) as [Hlt|Hge]; [reflexivity|].
  unfold lastn. rewrite Hl. replace (length df - 20)%nat with 0%nat by lia.
  cbn [skipn]. unfold closes. destruct df as [|b df]; [contradiction|].
  reflexivity.
Qed.

(** With no more bars than the lookback the z-score is the [0.0] of the
    degenerate branch. *)
Lemma short_history_zscore (cfg : Config) (df : DataFrame) :
  (length df <= LOOKBACK cfg)%nat -> zscore (detrended cfg df) = z_zero.
Proof.
  intros Hlen. pose proof (detrended_length cfg df) as Hd.
  unfold zscore, std.
  replace (length (detrended cfg df) <? 2)%nat with true
    by (symmetry; apply Nat.ltb_lt; lia).
  reflexivity.
Qed.

Lemma z_zero_no_signal (c : Q) :
  0 < c -> z_ge z_zero c = false /\ z_le z_zero (- c) = false.
Proof.
  intros Hc.
  assert (Hcc : 0 < c * c) by (apply Qmult_lt_0_compat; assumption).
  unfold z_le, z_ge, z_neg, z_zero. cbn [z_num z_var].
  replace (Qle_bool 0 (- - c)) with true
    by (symmetry; apply Qle_bool_iff; lra).
  replace (Qle_bool 0 c) with true by (symmetry; apply Qle_bool_iff; lra).
  split; apply andb_false_iff; right; apply Qle_bool_lt; lra.
Qed.

Lemma z_zero_exit (c : Q) : 0 <= c -> z_abs_le z_zero c = true.
Proof.
  intros Hc. pose proof (Qsquare_nonneg c) as Hcc.
  unfold z_abs_le, z_zero. cbn [z_num z_var].
  apply andb_true_iff. split; apply Qle_bool_iff; lra.
Qed.

End ShortHistory.

(** X10. The volatility filter needs twenty-one bars.  On a frame of one
    to twenty bars the rolling deviation of the changes is NaN, the
    comparison with [VOL_MAX] is false and the filter lets the pass
    through: within the trading hours and out of the cooldown the verdict
    of the gate is that of the spread filter, whatever the closes are. *)
Theorem volatility_filter_needs_21_bars :
  forall (cfg : Config) (w : World) (df : DataFrame) (s : RiskState)
         (tick : Tick) (info : SymbolInfo),
    df <> [] ->
    (length df <= 20)%nat ->
    in_trade_hours cfg (now_gate w) = true ->
    in_cooldown cfg (now_gate w) (last_trade_time s) = false ->
    symbol_info_tick w = Some tick ->
    symbol_info w = Some info ->
    safety_check cfg w df s
    = (Ok (if Qltb (SPREAD_MAX cfg * point info) (ask tick - bid tick)
           then (false, "spread too wide"%string)
           else (true, "ok"%string)),
       s, [Call CallSymbolInfoTick; Call CallSymbolInfo]).
Proof.
  intros cfg w df s tick info Hne Hlen Hh Hc Ht Hi.
  exact (@safety_check_spread cfg w df s SqrtNaN tick info Hh Hc
           (last_volatility_short Hne Hlen) eq_refl Ht Hi).
Qed.

Lemma volatility_filter_needs_21_bars_witness :
  safety_check default_config
    (world_with_rates (Some (firstn 20 choppy_frame)))
    (firstn 20 choppy_frame) day5_state
  = (Ok (true, "ok"%string), day5_state,
     [Call CallSymbolInfoTick; Call CallSymbolInfo]).
Proof.
  assert (Hne : firstn 20 choppy_frame <> []) by discriminate.
  assert (Hlen : (length (firstn 20 choppy_frame) <= 20)%nat)
    by (apply Nat.leb_le; reflexivity).
  exact (@volatility_filter_needs_21_bars default_config
           (world_with_rates (Some (firstn 20 choppy_frame)))
           (firstn 20 choppy_frame) day5_state
           (mkTick 100 (1001 # 10)) sample_info
           Hne Hlen eq_refl eq_refl eq_refl eq_refl).
Defined.

(** X11. A history no longer than the lookback trades nothing and holds
    nothing.  With at most [LOOKBACK] bars in the frame the z-score is the
    [0.0] of the degenerate case whatever the prices: with the gate open,
    a positive [Z_ENTER] and a non-negative [Z_EXIT], the pass enters
    nothing when no position is open and closes every open position
    otherwise. *)
Theorem short_history_flattens :
  forall (cfg : Config) (w : World) (equity : Q) (df : DataFrame)
         (s : RiskState) (reason : string) (t : list Event),
    copy_rates_from w = Some df ->
    safety_check cfg w df s = (Ok (true, reason), s, t) ->
    (length df <= LOOKBACK cfg)%nat ->
    0 < Z_ENTER cfg ->
    0 <= Z_EXIT cfg ->
    broker_answers cfg w ->
    zscore (detrended cfg df) = z_zero
    /\ exists tick,
         symbol_info_tick w = Some tick
         /\ decide cfg w equity s
            = match positions_get w with
              | Some (p :: ps) =>
                  (Ok tt, stamped (now_trade w) s,
                   Call (CallCopyRatesFrom (LOOKBACK cfg + 5)) :: t
                   ++ Call CallPositionsGet :: Log "EXIT SIGNAL"
                   :: flat_map (closing_events cfg tick) (p :: ps)
                   ++ [Sleep 5])
              | _ =>
                  (Ok tt, s,
                   Call (CallCopyRatesFrom (LOOKBACK cfg + 5)) :: t
                   ++ [Call CallPositionsGet; Sleep 5])
              end.
Proof.
  intros cfg w equity df s reason t Hr Hs Hlen Hen Hex Hb.
  pose proof (short_history_zscore cfg df Hlen) as Hz.
  split; [exact Hz|].
  destruct (@safety_check_passed cfg w df s s reason t Hs)
    as (_ & _ & _ & _ & _ & tick & info & Ht & _ & _).
  exists tick. split; [exact Ht|].
  rewrite (@decide_gate_passed cfg w equity df s reason t Hr Hs). cbv zeta.
  rewrite Hz. destruct (z_zero_no_signal Hen) as [Hge Hle].
  pose proof (@enter_no_signal cfg w df equity z_zero s
                (@gate_passed_nonempty cfg w df s s reason t Hs) Hge Hle)
    as Hno.
  destruct (positions_get w) as [[|p ps]|].
  - rewrite Hno. reflexivity.
  - rewrite (z_zero_exit Hex).
    rewrite (@exit_positions_ok cfg w tick (p :: ps) s Ht Hb).
    unfold outcome, state_of, trace_of. cbn [fst snd]. reflexivity.
  - rewrite Hno. reflexivity.
Qed.

Lemma short_history_flattens_witness :
  zscore (detrended live_config short_spike_frame) = z_zero
  /\ exists tick,
       symbol_info_tick short_holding_world = Some tick
       /\ decide live_config short_holding_world 10000 day5_state
          = (Ok tt, stamped (now_trade short_holding_world) day5_state,
             [Call (CallCopyRatesFrom 125);
              Call CallSymbolInfoTick; Call CallSymbolInfo;
              Call CallPositionsGet; Log "EXIT SIGNAL";
              Call CallSymbolInfoTick;
              Call (CallOrderSend
                      (closing_request live_config tick
                         (mkPosition 0 (1 # 2))));
              Call CallSymbolInfoTick;
              Call (CallOrderSend
                      (closing_request live_config tick
                         (mkPosition 1 (2 # 10))));
              Sleep 5]).
Proof.
  assert (Hs : safety_check live_config short_holding_world
                 short_spike_frame day5_state
               = (Ok (true, "ok"%string), day5_state,
                  [Call CallSymbolInfoTick; Call CallSymbolInfo]))
    by (vm_compute; reflexivity).
  assert (Hlen : (length short_spike_frame <= LOOKBACK live_config)%nat)
    by (apply Nat.leb_le; reflexivity).
  assert (Hen : 0 < Z_ENTER live_config) by reflexivity.
  assert (Hex : 0 <= Z_EXIT live_config) by discriminate.
  assert (Hb : broker_answers live_config short_holding_world)
    by (right; intros req; discriminate).
  exact (@short_history_flattens live_config short_holding_world 10000
           short_spike_frame day5_state "ok"
           [Call CallSymbolInfoTick; Call CallSymbolInfo]
           eq_refl Hs Hlen Hen Hex Hb).
Defined.

(** *** More on the lot size *)

Section LotSizeMore.

(** A size that is not below the minimum is not raised by the clamp. *)
Lemma clamp_le_size (vmin vmax raw l : Q) :
  vmin <= raw ->
  py_max (F vmin) (py_min (F vmax) (F raw)) = F l ->
  l <= raw.
Proof.
  intros Hraw. unfold py_max, py_min, flt, fgt.
  destruct (Qltb raw vmax) eqn:E1.
  - destruct (Qltb vmin raw) eqn:E2; intros H; inversion H; subst; lra.
  - destruct (Qltb vmin vmax) eqn:E2; intros H; inversion H; subst;
      qbool; lra.
Qed.

(** The whole steps in [l]: at most [l], and less than one step below. *)
Lemma floor_steps_close (l step : Q) :
  0 < step ->
  inject_Z (Qfloor (l / step)) * step <= l
  /\ l < inject_Z (Qfloor (l / step)) * step + step.
Proof.
  intros Hs.
  assert (He : l / step * step == l) by (field; lra).
  split.
  - pose proof (Qfloor_le (l / step)) as Hf.
    apply (Qmult_le_compat_r _ _ step) in Hf; [|lra].
    rewrite He in Hf. exact Hf.
  - pose proof (Qlt_floor (l / step)) as Hf.
    rewrite inject_Z_plus in Hf.
    apply (Qmult_lt_compat_r _ _ step) in Hf; [|exact Hs].
    rewrite He in Hf. change (inject_Z 1) with 1 in Hf. lra.
Qed.

Lemma py_round_steps (l step : Q) (m : Z) :
  step * pow10 8 == inject_Z m ->
  py_round (inject_Z (Qfloor (l / step)) * step) 8
  == inject_Z (Qfloor (l / step)) * step.
Proof.
  intros Hm. apply (@py_round_exact _ 8 (Qfloor (l / step) * m)).
  rewrite inject_Z_mult, <- Hm. ring.
Qed.

End LotSizeMore.

(** X13. The volume keeps the risk within the budget.  With positive tick
    value, tick size and stop distance, a step of at most eight decimals,
    and a risk size [equity * RISK_PER_TRADE / (stop * value_per_price)]
    that is not below the minimum volume, the loss of the returned volume
    over the stop distance is at most [equity * RISK_PER_TRADE]. *)
Theorem lot_risk_within_budget :
  forall (cfg : Config) (w : World) (equity stop : Q) (s : RiskState)
         (info : SymbolInfo) (m : Z),
    symbol_info w = Some info ->
    0 < trade_tick_value info ->
    0 < trade_tick_size info ->
    0 < volume_step info ->
    volume_step info * pow10 8 == inject_Z m ->
    0 < stop ->
    volume_min info
    <= equity * RISK_PER_TRADE cfg
       / (stop * (trade_tick_value info / trade_tick_size info)) ->
    exists v,
      compute_lot cfg w equity (F stop) s = (Ok v, s, [Call CallSymbolInfo])
      /\ v * (stop * (trade_tick_value info / trade_tick_size info))
         <= equity * RISK_PER_TRADE cfg.
Proof.
  intros cfg w equity stop s info m Hi Htv Hts Hst Hm Hstop Hraw.
  assert (Hts0 : ~ trade_tick_size info == 0) by lra.
  assert (Hst0 : ~ volume_step info == 0) by lra.
  destruct (@compute_lot_ok cfg w equity (F stop) s info Hi Hts0 Hst0)
    as (l & Hlot & Hl & _).
  eexists. split; [exact Hlot|].
  set (vpp := trade_tick_value info / trade_tick_size info) in *.
  assert (Hvpp : 0 < vpp).
  { unfold vpp. apply Qlt_shift_div_l; [exact Hts | lra]. }
  assert (Hd : 0 < stop * vpp) by (apply Qmult_lt_0_compat; assumption).
  assert (Hd0 : ~ stop * vpp == 0) by lra.
  cbn [fmul np_div] in Hl. rewrite (Qeq_bool_false Hd0) in Hl.
  pose proof (@clamp_le_size _ _ _ _ Hraw Hl) as Hle.
  rewrite (@py_round_steps l _ _ Hm).
  destruct (@floor_steps_close l _ Hst) as [Hc _].
  assert (He : equity * RISK_PER_TRADE cfg / (stop * vpp) * (stop * vpp)
               == equity * RISK_PER_TRADE cfg) by (field; split; lra).
  rewrite <- He. apply Qmult_le_compat_r; lra.
Qed.

Lemma lot_risk_within_budget_witness :
  exists v,
    compute_lot default_config quiet_world 10000 (F 2) day5_state
    = (Ok v, day5_state, [Call CallSymbolInfo])
    /\ v * (2 * (trade_tick_value sample_info / trade_tick_size sample_info))
       <= 10000 * RISK_PER_TRADE default_config.
Proof.
  assert (Htv : 0 < trade_tick_value sample_info) by reflexivity.
  assert (Hts : 0 < trade_tick_size sample_info) by reflexivity.
  assert (Hst : 0 < volume_step sample_info) by reflexivity.
  assert (Hm : volume_step sample_info * pow10 8 == inject_Z 1000000)
    by reflexivity.
  assert (Hstop : 0 < 2) by reflexivity.
  assert (Hraw : volume_min sample_info
                 <= 10000 * RISK_PER_TRADE default_config
                    / (2 * (trade_tick_value sample_info
                            / trade_tick_size sample_info)))
    by (vm_compute; discriminate).
  exact (@lot_risk_within_budget default_config quiet_world 10000 2
           day5_state sample_info 1000000 eq_refl Htv Hts Hst Hm Hstop Hraw).
Defined.



(** X15. An entry that cannot be sized sends nothing.  With a signal on
    either side, an unknown symbol, a tick size of zero or a volume step of
    zero make the ENTRY branch raise right after the query for the symbol:
    no quote is asked for, no order is emitted and the cooldown anchor is
    not set. *)
Theorem entry_without_size_sends_nothing :
  forall (cfg : Config) (w : World) (df : DataFrame) (equity : Q)
         (z : zvalue) (s : RiskState) (price : Q) (atr : pyfloat),
    iloc_last (closes df) = Some price ->
    iloc_last (rolling_mean 20 (ranges df)) = Some atr ->
    z_ge z (Z_ENTER cfg) = true \/ z_le z (- Z_ENTER cfg) = true ->
    symbol_info w = None
    \/ (exists info,
          symbol_info w = Some info
          /\ (trade_tick_size info == 0 \/ volume_step info == 0)) ->
    exists e,
      enter cfg w df equity z s = (Raise e, s, [Call CallSymbolInfo])
      /\ (e = AttributeError <-> symbol_info w = None).
Proof.
  intros cfg w df equity z s price atr Hp Ha Hz Hbad.
  assert (Hlot : forall stop_dist,
             exists e,
               compute_lot cfg w equity stop_dist s
               = (Raise e, s, [Call CallSymbolInfo])
               /\ (e = AttributeError <-> symbol_info w = None)).
  { intros stop_dist. unfold compute_lot.
    rewrite (bind_run _ (call_ok CallSymbolInfo (symbol_info w) s)).
    destruct Hbad as [Hn|(info & Hi & Hzero)].
    - rewrite Hn. exists AttributeError. split; [reflexivity | tauto].
    - rewrite Hi, (bind_run _ (attr_ok info s)). exists ArithmeticError.
      split; [|split; discriminate].
      destruct (Qeq_bool (trade_tick_size info) 0) eqn:Ets; [reflexivity|].
      destruct Hzero as [Hts|Hst].
      + apply Qeq_bool_iff in Hts. congruence.
      + cbv zeta.
        destruct (clamp_finite (volume_min info) (volume_max info)
                    (np_div (F (equity * RISK_PER_TRADE cfg))
                       (fmul stop_dist
                          (F (trade_tick_value info
                              / trade_tick_size info)))))
          as [l [Hl _]].
        rewrite Hl. apply Qeq_bool_iff in Hst. rewrite Hst. reflexivity. }
  unfold enter. rewrite Hp, Ha. cbv zeta.
  destruct (Hlot (py_max atr (F (price * (1 # 1000))))) as (e & He & Hiff).
  exists e. split; [|exact Hiff].
  destruct (z_ge z (Z_ENTER cfg)).
  - rewrite (bind_raise _ He). reflexivity.
  - destruct Hz as [Hz|Hz]; [discriminate|]. rewrite Hz.
    rewrite (bind_raise _ He). reflexivity.
Qed.

Lemma entry_without_size_sends_nothing_witness :
  exists e,
    enter live_config (spike_world_with_info (Some zero_step_info))
      spike_frame 10000 (zscore (detrended live_config spike_frame))
      day5_state
    = (Raise e, day5_state, [Call CallSymbolInfo])
    /\ (e = AttributeError
        <-> symbol_info (spike_world_with_info (Some zero_step_info)) = None).
Proof.
  assert (Hz : z_ge (zscore (detrended live_config spike_frame))
                 (Z_ENTER live_config) = true
               \/ z_le (zscore (detrended live_config spike_frame))
                    (- Z_ENTER live_config) = true)
    by (left; vm_compute; reflexivity).
  assert (Hbad : symbol_info (spike_world_with_info (Some zero_step_info))
                 = None
                 \/ (exists info,
                       symbol_info (spike_world_with_info
                                      (Some zero_step_info)) = Some info
                       /\ (trade_tick_size info == 0
                           \/ volume_step info == 0))).
  { right. exists zero_step_info. split; [reflexivity|]. right. reflexivity. }
  assert (Ha : iloc_last (rolling_mean 20 (ranges spike_frame))
               = Some (F (24 # 25))) by (vm_compute; reflexivity).
  exact (@entry_without_size_sends_nothing live_config
           (spike_world_with_info (Some zero_step_info)) spike_frame 10000
           (zscore (detrended live_config spike_frame)) day5_state
           (1001 # 10) (F (24 # 25)) eq_refl Ha Hz Hbad).
Defined.

(** *** Who writes the globals *)

(** X16. Trading never touches the risk figures.  Whatever a pass does
    after its bookkeeping (breakers, gate, exits, entries, errors), the
    loss streak, the peak equity, the day marker and the start-of-day
    equity it leaves are those of the two bookkeeping statements, and
    those it found when the account did not answer: no fill, rejection or
    loss is ever recorded in them. *)
Theorem risk_figures_follow_bookkeeping_only :
  forall (cfg : Config) (w : World) (s : RiskState),
    risk_fields (state_of (loop_pass cfg w s))
    = match account_info w with
      | Some acc => risk_fields (bookkept w (acc_equity acc) s)
      | None => risk_fields s
      end.
Proof.
  intros cfg w s. destruct (account_info w) as [acc|] eqn:Ha.
  - now apply pass_risk_fields.
  - rewrite state_of_loop_pass. unfold loop_body.
    rewrite (bind_raise _ (account_none w s Ha)). reflexivity.
Qed.

Section Anchor.

Variable cfg : Config.
Variable w : World.

Lemma keeps_anchor_of_preserves (A : Type) (m : M A) :
  (forall x, preserves (fun s' => last_trade_time s' = x) m) ->
  keeps_anchor m.
Proof. intros H s. now apply (H (last_trade_time s)). Qed.

Lemma anchored_after (now : datetime) (A B : Type) (m : M A)
    (k : A -> M B) :
  keeps_anchor m -> (forall a, anchored now (k a)) ->
  anchored now (bind m k).
Proof.
  intros Hm Hk s. specialize (Hm s).
  unfold bind, state_of, trace_of, outcome in *.
  destruct (m s) as [[[a|e] s1] t1]; simpl in *; [|now left].
  specialize (Hk a s1). unfold state_of, trace_of, outcome in Hk.
  destruct (k a s1) as [[r s2] t2]; simpl in *.
  destruct Hk as [Hk|(Ho & Hr & Hl)].
  - left. congruence.
  - right. rewrite has_order_app, Ho, orb_true_r. repeat split; assumption.
Qed.

Lemma anchored_keeps (now : datetime) (A : Type) (m : M A) :
  keeps_anchor m -> anchored now m.
Proof. intros H s. left. apply H. Qed.

Lemma anchored_then_sleep (now : datetime) (m : M unit) (secs : Z) :
  anchored now m -> anchored now (bind m (fun _ => sleep secs)).
Proof.
  intros Hm s. specialize (Hm s).
  unfold bind, sleep, emit, state_of, trace_of, outcome in *.
  destruct (m s) as [[[[]|e] s1] t1]; simpl in *.
  - destruct Hm as [Hm|(Ho & Hr & Hl)]; [now left|].
    right. rewrite has_order_app, Ho. repeat split; [now exists tt | exact Hl].
  - destruct Hm as [Hm|(_ & [a Ha] & _)]; [now left | discriminate].
Qed.

(** An order that returns has left its event in the trace. *)
Lemma send_order_loud (side : Side) (volume : Q) (sl tp : option pyfloat)
    (s s1 : RiskState) (b : bool) (t : list Event) :
  send_order cfg w side volume sl tp s = (Ok b, s1, t) ->
  has_order t = true.
Proof.
  unfold send_order. m_unfold. simpl.
  destruct (symbol_info_tick w) as [tick|]; simpl; [|discriminate].
  destruct (DRY_RUN cfg); simpl.
  - intros H. inversion H. reflexivity.
  - destruct (order_send w _); simpl; intros H; inversion H. reflexivity.
Qed.

Lemma send_order_state (side : Side) (volume : Q) (sl tp : option pyfloat)
    (s : RiskState) :
  state_of (send_order cfg w side volume sl tp s) = s.
Proof.
  now apply (@preserves_send_order cfg w (fun s' => s' = s)).
Qed.

(** An order followed by the assignment of the anchor. *)
Lemma anchored_order_then_set (side : Side) (volume : Q)
    (sl tp : option pyfloat) :
  anchored (now_trade w)
    (bind (send_order cfg w side volume sl tp)
          (fun _ => set_last_trade_time (now_trade w))).
Proof.
  intros s. pose proof (send_order_state side volume sl tp s) as Hst.
  pose proof (@send_order_loud side volume sl tp s) as Hloud.
  unfold bind, state_of, trace_of, outcome in *.
  destruct (send_order cfg w side volume sl tp s) as [[[b|e] s1] t1];
    simpl in *.
  - right. rewrite has_order_app, (Hloud s1 b t1 eq_refl).
    repeat split. now exists tt.
  - left. now subst.
Qed.

Lemma close_all_state (ps : list Position) (s : RiskState) :
  state_of (for_each ps (fun p =>
    bind (send_order cfg w (if (pos_type p =? 0)%Z then Sell else Buy)
            (pos_volume p) None None)
         (fun _ => ret tt)) s) = s.
Proof.
  apply (@preserves_for_each (fun s' => s' = s)); [|reflexivity].
  intros p. apply preserves_bind; [apply preserves_send_order|].
  intros _. apply preserves_ret.
Qed.

(** Closing at least one position and returning leaves an order event. *)
Lemma close_all_loud (p : Position) (ps : list Position)
    (s s1 : RiskState) (t : list Event) :
  for_each (p :: ps) (fun p =>
    bind (send_order cfg w (if (pos_type p =? 0)%Z then Sell else Buy)
            (pos_volume p) None None)
         (fun _ => ret tt)) s = (Ok tt, s1, t) ->
  has_order t = true.
Proof.
  cbn [for_each].
  pose proof (@send_order_loud (if (pos_type p =? 0)%Z then Sell else Buy)
                (pos_volume p) None None s) as Hloud.
  unfold bind at 1 2. unfold ret.
  destruct (send_order cfg w _ _ None None s) as [[[b|e] s2] t2];
    [|discriminate].
  rewrite app_nil_r.
  match goal with
  | |- context [for_each ps ?f s2] => destruct (for_each ps f s2)
                                        as [[r s3] t3]
  end.
  intros H. inversion H. rewrite has_order_app, (Hloud s2 b t2 eq_refl).
  reflexivity.
Qed.

Lemma anchored_exit_positions (p : Position) (ps : list Position) :
  anchored (now_trade w) (exit_positions cfg w (p :: ps)).
Proof.
  unfold exit_positions.
  apply anchored_after; [intros s; reflexivity | intros _ s].
  pose proof (close_all_state (p :: ps) s) as Hst.
  pose proof (@close_all_loud p ps s) as Hloud.
  unfold bind, state_of, trace_of, outcome in *.
  match goal with
  | |- context [for_each (p :: ps) ?f s] =>
      destruct (for_each (p :: ps) f s) as [[[[]|e] s1] t1]
  end; simpl in *.
  - right. rewrite has_order_app, (Hloud s1 t1 eq_refl).
    repeat split. now exists tt.
  - left. now subst.
Qed.

Lemma keeps_anchor_compute_lot (equity : Q) (stop_dist : pyfloat) :
  keeps_anchor (compute_lot cfg w equity stop_dist).
Proof.
  apply keeps_anchor_of_preserves. intros x. apply preserves_compute_lot.
Qed.

Lemma anchored_enter (df : DataFrame) (equity : Q) (z : zvalue) :
  anchored (now_trade w) (enter cfg w df equity z).
Proof.
  unfold enter.
  destruct (iloc_last (closes df)) as [price|];
    [|apply anchored_keeps; intros s; reflexivity].
  destruct (iloc_last (rolling_mean 20 (ranges df))) as [atr|];
    [|apply anchored_keeps; intros s; reflexivity].
  cbv zeta.
  destruct (z_ge z (Z_ENTER cfg)); [|destruct (z_le z (- Z_ENTER cfg))].
  - apply anchored_after; [apply keeps_anchor_compute_lot | intros lots].
    apply anchored_order_then_set.
  - apply anchored_after; [apply keeps_anchor_compute_lot | intros lots].
    apply anchored_order_then_set.
  - apply anchored_keeps. intros s. reflexivity.
Qed.

Lemma anchored_decide (equity : Q) :
  anchored (now_trade w) (decide cfg w equity).
Proof.
  unfold decide.
  apply anchored_after.
  { apply keeps_anchor_of_preserves. intros x. unfold rates. frame. }
  intros df. apply anchored_after.
  { apply keeps_anchor_of_preserves. intros x.
    apply preserves_safety_check. }
  intros chk.
  destruct (negb (fst chk));
    [apply anchored_keeps; intros s; reflexivity|].
  intros s. rewrite (bind_run _ (has_position_ok w s)).
  set (act := match match positions_get w with
                    | Some (p :: ps) => Some (p :: ps)
                    | _ => None
                    end with
              | Some ps =>
                  if z_abs_le (zscore (detrended cfg df)) (Z_EXIT cfg)
                  then exit_positions cfg w ps else ret tt
              | None => enter cfg w df equity (zscore (detrended cfg df))
              end).
  assert (Hact : anchored (now_trade w) act).
  { unfold act. destruct (positions_get w) as [[|p ps]|].
    - apply anchored_enter.
    - destruct (z_abs_le _ _);
        [apply anchored_exit_positions|].
      apply anchored_keeps. intros s'. reflexivity.
    - apply anchored_enter. }
  pose proof (anchored_then_sleep 5 Hact s) as H.
  unfold state_of, trace_of, outcome in *. cbn [fst snd].
  destruct (bind act (fun _ => sleep 5) s) as [[r s2] t2]. cbn [fst snd] in *.
  exact H.
Qed.

Lemma anchored_loop_body : anchored (now_trade w) (loop_body cfg w).
Proof.
  unfold loop_body.
  apply anchored_after.
  { apply keeps_anchor_of_preserves. intros x. unfold account. frame. }
  intros acc. apply anchored_after.
  { intros s. rewrite first_equity_result. unfold state_of. simpl.
    destruct (start_equity s); reflexivity. }
  intros _. apply anchored_after.
  { intros s. rewrite daily_reset_result. unfold state_of. simpl.
    destruct (_ =? _)%Z; reflexivity. }
  intros _. apply anchored_after.
  { apply keeps_anchor_of_preserves. intros x. unfold daily_loss_hit.
    frame. }
  intros hit. destruct hit.
  - apply anchored_keeps. intros s. reflexivity.
  - apply anchored_after; [intros s; reflexivity | intros s0].
    destruct (_ <=? _)%Z; [apply anchored_keeps; intros s; reflexivity|].
    apply anchored_decide.
Qed.

End Anchor.

(** X17. The cooldown anchor moves only with an order.  After any pass the
    anchor [last_trade_time] is what it was before, unless the body of the
    pass emitted an order (to the broker, or to the log in dry-run) and
    returned, in which case the anchor is the clock reading taken after
    the order: a pass that places nothing, or that fails, never starts or
    extends a cooldown. *)
Theorem anchor_moves_only_with_an_order :
  forall (cfg : Config) (w : World) (s : RiskState),
    last_trade_time (state_of (loop_pass cfg w s)) = last_trade_time s
    \/ (has_order (trace_of (loop_pass cfg w s)) = true
        /\ outcome (loop_body cfg w s) = Ok tt
        /\ last_trade_time (state_of (loop_pass cfg w s))
           = Some (now_trade w)).
Proof.
  intros cfg w s. rewrite state_of_loop_pass.
  destruct (anchored_loop_body cfg w s) as [H|(Ho & [[] Hr] & Hl)].
  - now left.
  - right. split; [|split; assumption].
    unfold loop_pass, outcome, trace_of in *.
    destruct (loop_body cfg w s) as [[[u|e] s1] t1]; simpl in *.
    + exact Ho.
    + discriminate.
Qed.

(** *** Dry-run *)

Section DryRun.

Variable cfg : Config.
Hypothesis dry : DRY_RUN cfg = true.

Lemma never_dispatch_send_order (w : World) (side : Side) (volume : Q)
    (sl tp : option pyfloat) :
  never is_dispatch (send_order cfg w side volume sl tp).
Proof. unfold send_order. rewrite dry. cbv zeta. repeat never_step. Qed.

Lemma never_dispatch_loop_body (w : World) :
  never is_dispatch (loop_body cfg w).
Proof.
  unfold loop_body, account, first_equity, daily_reset, daily_loss_hit,
    decide, rates, safety_check, has_position, exit_positions, enter,
    compute_lot, set_last_trade_time, log, sleep.
  repeat first [ apply never_dispatch_send_order | never_step ].
Qed.

Lemma never_dispatch_loop_pass (w : World) :
  never is_dispatch (loop_pass cfg w).
Proof.
  intros s. pose proof (never_dispatch_loop_body w s) as H.
  unfold loop_pass, trace_of in *.
  destruct (loop_body cfg w s) as [[[u|e] s1] t1]; cbn [snd] in *.
  - exact H.
  - rewrite existsb_app, H. reflexivity.
Qed.

End DryRun.

(** X18. Dry-run sends nothing.  With [DRY_RUN] set, no run of the bot, of
    any length and whatever the terminal answers, calls [order_send]. *)
Theorem dry_run_never_dispatches :
  forall (cfg : Config) (initialized : bool) (ws : list World)
         (s : RiskState) (req : OrderRequest),
    DRY_RUN cfg = true ->
    ~ In (Call (CallOrderSend req)) (trace_of (run cfg initialized ws s)).
Proof.
  intros cfg initialized ws s req Hd Hin.
  assert (Hn : never is_dispatch (run cfg initialized ws)).
  { unfold run, run_loop, log. destruct initialized; [|apply never_raise].
    apply never_bind; [apply never_emit; reflexivity | intros _].
    apply never_for_each. intros w. now apply never_dispatch_loop_pass. }
  assert (Ht : existsb is_dispatch (trace_of (run cfg initialized ws s))
               = true).
  { apply existsb_exists. eexists. split; [exact Hin | reflexivity]. }
  rewrite Hn in Ht. discriminate.
Qed.

Lemma dry_run_never_dispatches_witness :
  DRY_RUN default_config = true
  /\ ~ In (Call (CallOrderSend
                   (closing_request default_config (mkTick 100 (1001 # 10))
                      (mkPosition 0 (1 # 2)))))
          (trace_of (run default_config true
                       [spike_world; holding_world; dip_world]
                       (initial_state 5))).
Proof.
  split; [reflexivity|].
  exact (@dry_run_never_dispatches default_config true
           [spike_world; holding_world; dip_world] (initial_state 5)
           (closing_request default_config (mkTick 100 (1001 # 10))
              (mkPosition 0 (1 # 2)))
           eq_refl).
Defined.

(** *** The daily-loss breaker on a fresh day *)

Section FreshDay.

Variable cfg : Config.
Variable w : World.

(** The trace of a pass: that of its body, and the report of the handler
    when the body raised. *)
Lemma loop_pass_trace (s : RiskState) :
  trace_of (loop_pass cfg w s)
  = trace_of (loop_body cfg w s)
    ++ match outcome (loop_body cfg w s) with
       | Ok _ => []
       | Raise e => [LogError e; Sleep 10]
       end.
Proof.
  unfold loop_pass, trace_of, outcome.
  destruct (loop_body cfg w s) as [[[u|e] s1] t1]; cbn [fst snd].
  - now rewrite app_nil_r.
  - reflexivity.
Qed.

Lemma never_stop_decide (equity : Q) :
  never is_stop_log (decide cfg w equity).
Proof.
  unfold decide, rates, safety_check, has_position, exit_positions, enter,
    compute_lot, send_order, set_last_trade_time, log, sleep.
  repeat never_step.
Qed.

(** The start-of-day equity after the bookkeeping of a first pass, or of
    the pass that sees a new date, is the equity the pass read. *)
Lemma bookkept_fresh (equity : Q) (s : RiskState) :
  start_equity s = None \/ date_of (now_day_check w) <> day_start s ->
  start_equity (bookkept w equity s) = Some equity.
Proof.
  intros H. unfold bookkept.
  rewrite first_equity_result. unfold state_of at 2. cbn [fst snd].
  rewrite daily_reset_result. unfold state_of. cbn [fst snd].
  destruct (start_equity s) as [se|] eqn:E; cbn [day_start].
  - destruct H as [H|H]; [discriminate|].
    apply Z.eqb_neq in H. rewrite H. reflexivity.
  - destruct (_ =? _)%Z; reflexivity.
Qed.

Lemma fresh_pass_no_stop (s : RiskState) (acc : Account) :
  account_info w = Some acc ->
  start_equity s = None \/ date_of (now_day_check w) <> day_start s ->
  0 <= MAX_DAILY_LOSS cfg ->
  existsb is_stop_log (trace_of (loop_pass cfg w s)) = false.
Proof.
  intros Ha Hfresh Hmax.
  pose proof (bookkept_fresh (acc_equity acc) s Hfresh) as Hse.
  rewrite loop_pass_trace, existsb_app.
  replace (existsb is_stop_log
             match outcome (loop_body cfg w s) with
             | Ok _ => []
             | Raise e => [LogError e; Sleep 10]
             end) with false
    by (destruct (outcome (loop_body cfg w s)); reflexivity).
  rewrite orb_false_r.
  destruct (Qeq_bool (acc_equity acc) 0) eqn:Hz.
  - unfold loop_body.
    rewrite (bind_run _ (account_ok w s Ha)). cbn [snd].
    rewrite (bind_run _ (first_equity_ok _ s)).
    rewrite (bind_run _ (daily_reset_ok w _ _)).
    fold (bookkept w (acc_equity acc) s).
    rewrite (bind_raise _ (daily_loss_hit_zero cfg _ _ Hse Hz)).
    reflexivity.
  - rewrite (loop_body_after_account cfg w s Ha Hse Hz). cbv zeta.
    assert (Hq : Qltb (MAX_DAILY_LOSS cfg)
                   ((acc_equity acc - acc_equity acc) / acc_equity acc)
                 = false).
    { apply Qltb_ge.
      assert (Hne : ~ acc_equity acc == 0)
        by (intros H; apply Qeq_bool_iff in H; congruence).
      assert (H0 : (acc_equity acc - acc_equity acc) / acc_equity acc == 0)
        by (field; exact Hne).
      rewrite H0. exact Hmax. }
    rewrite Hq. destruct (_ <=? _)%Z; [reflexivity|].
    unfold trace_of at 1. cbn [snd existsb is_stop_log orb].
    apply never_stop_decide.
Qed.

End FreshDay.

(** X19. A day never begins with the daily-loss breaker tripped.  On the
    first pass and on the pass that sees a new date the start-of-day
    equity is the equity just read, so the loss of the day is zero: with a
    limit that is not negative the pass does not log the stop, however far
    the equity is below that of the day before. *)
Theorem fresh_day_never_trips_daily_loss :
  forall (cfg : Config) (w : World) (s : RiskState) (acc : Account),
    account_info w = Some acc ->
    start_equity s = None \/ date_of (now_day_check w) <> day_start s ->
    0 <= MAX_DAILY_LOSS cfg ->
    start_equity (state_of (loop_pass cfg w s)) = Some (acc_equity acc)
    /\ ~ In (Log "MAX DAILY LOSS HIT → STOP")
           (trace_of (loop_pass cfg w s)).
Proof.
  intros cfg w s acc Ha Hfresh Hmax. split.
  - pose proof (@pass_risk_fields cfg w s acc Ha) as H.
    pose proof (bookkept_fresh w (acc_equity acc) s Hfresh) as Hse.
    unfold risk_fields in H. congruence.
  - intros Hin.
    pose proof (@fresh_pass_no_stop cfg w s acc Ha Hfresh Hmax) as Hn.
    assert (Ht : existsb is_stop_log (trace_of (loop_pass cfg w s)) = true).
    { apply existsb_exists. eexists. split; [exact Hin | reflexivity]. }
    congruence.
Qed.

Lemma fresh_day_never_trips_daily_loss_witness :
  start_equity (state_of (loop_pass default_config gap_down_world day5_state))
  = Some 5000
  /\ ~ In (Log "MAX DAILY LOSS HIT → STOP")
         (trace_of (loop_pass default_config gap_down_world day5_state)).
Proof.
  assert (Hfresh : start_equity day5_state = None
                   \/ date_of (now_day_check gap_down_world)
                      <> day_start day5_state)
    by (right; vm_compute; discriminate).
  assert (Hmax : 0 <= MAX_DAILY_LOSS default_config) by discriminate.
  exact (@fresh_day_never_trips_daily_loss default_config gap_down_world
           day5_state (mkAccount 5000 5000) eq_refl Hfresh Hmax).
Defined.

(** *** A day that starts with nothing *)

Section ZeroEquity.

Variable cfg : Config.

Lemma zero_equity_pass (w : World) (s : RiskState) (se : Q) :
  start_equity s = Some se ->
  se == 0 ->
  date_of (now_day_check w) = day_start s ->
  loop_pass cfg w s = (Ok tt, s, failed_pass_events w).
Proof.
  intros Hse Hz Hday. unfold loop_pass, loop_body, failed_pass_events.
  destruct (account_info w) as [acc|] eqn:Ha.
  - rewrite (bind_run _ (account_ok w s Ha)). cbn [snd].
    rewrite (bind_run _ (first_equity_ok _ s)).
    rewrite (bind_run _ (daily_reset_ok w _ _)).
    fold (bookkept w (acc_equity acc) s).
    assert (Hb : bookkept w (acc_equity acc) s = s)
      by (apply bookkept_same_day; [congruence | exact Hday]).
    rewrite Hb. apply Qeq_bool_iff in Hz.
    rewrite (bind_raise _ (daily_loss_hit_zero cfg _ _ Hse Hz)).
    reflexivity.
  - rewrite (bind_raise _ (account_none w s Ha)). reflexivity.
Qed.

End ZeroEquity.

(** X20. A day that starts with an equity of zero is lost to the bot.  The
    daily-loss ratio divides by the start-of-day equity, so with that
    equity at zero every pass of the same day ends in the error handler
    right after the account query: no rates are fetched, nothing is
    traded, the globals stay as they are, whatever the equity becomes. *)
Theorem zero_start_equity_wedges_the_day :
  forall (cfg : Config) (ws : list World) (s : RiskState) (se : Q),
    start_equity s = Some se ->
    se == 0 ->
    (forall w, In w ws -> date_of (now_day_check w) = day_start s) ->
    run_loop cfg ws s = (Ok tt, s, flat_map failed_pass_events ws).
Proof.
  intros cfg ws s se Hse Hz. induction ws as [|w ws IH]; intros Hday.
  - reflexivity.
  - unfold run_loop. cbn [for_each flat_map].
    rewrite (bind_run _ (@zero_equity_pass cfg w s se Hse Hz
                           (Hday w (or_introl eq_refl)))).
    fold (run_loop cfg ws). rewrite IH.
    + reflexivity.
    + intros w' Hin. apply Hday. now right.
Qed.

Lemma zero_start_equity_wedges_the_day_witness :
  run_loop default_config
    [quiet_world; offline_world; world_with_equity 500] broke_state
  = (Ok tt, broke_state,
     [Call CallAccountInfo; LogError ArithmeticError; Sleep 10;
      Call CallAccountInfo; LogError AttributeError; Sleep 10;
      Call CallAccountInfo; LogError ArithmeticError; Sleep 10]).
Proof.
  assert (Hz : 0 == 0) by reflexivity.
  assert (Hday : forall w,
             In w [quiet_world; offline_world; world_with_equity 500] ->
             date_of (now_day_check w) = day_start broke_state).
  { intros w [H|[H|[H|[]]]]; subst w; reflexivity. }
  exact (@zero_start_equity_wedges_the_day default_config
           [quiet_world; offline_world; world_with_equity 500]
           broke_state 0 eq_refl Hz Hday).
Defined.

(** *** A broker that does not answer *)

Section Unanswered.

Variable cfg : Config.
Variable w : World.
Hypothesis live : DRY_RUN cfg = false.

Lemma send_order_live (tick : Tick) (side : Side) (volume : Q)
    (sl tp : option pyfloat) (s : RiskState) :
  symbol_info_tick w = Some tick ->
  send_order cfg w side volume sl tp s
  = (match order_send w (order_request cfg tick side volume sl tp) with
     | Some rc => Ok (rc =? TRADE_RETCODE_DONE)%Z
     | None => Raise AttributeError
     end, s,
     [Call CallSymbolInfoTick;
      Call (CallOrderSend (order_request cfg tick side volume sl tp))]).
Proof.
  intros Ht. unfold send_order. m_unfold. simpl. rewrite Ht. simpl.
  fold (order_request cfg tick side volume sl tp). rewrite live.
  destruct (order_send w _); reflexivity.
Qed.

Lemma closing_events_live (tick : Tick) (p : Position) :
  closing_events cfg tick p
  = [Call CallSymbolInfoTick;
     Call (CallOrderSend (closing_request cfg tick p))].
Proof. unfold closing_events, order_event. now rewrite live. Qed.

Lemma close_all_unanswered (tick : Tick) (done rest : list Position)
    (p : Position) (s : RiskState) :
  symbol_info_tick w = Some tick ->
  (forall q, In q done -> order_send w (closing_request cfg tick q) <> None) ->
  order_send w (closing_request cfg tick p) = None ->
  for_each (done ++ p :: rest) (fun p =>
    bind (send_order cfg w (if (pos_type p =? 0)%Z then Sell else Buy)
            (pos_volume p) None None)
         (fun _ => ret tt)) s
  = (Raise AttributeError, s,
     flat_map (closing_events cfg tick) (done ++ [p])).
Proof.
  intros Ht Hdone Hp. induction done as [|q done IH].
  - cbn [app for_each flat_map].
    assert (Hs : send_order cfg w (if (pos_type p =? 0)%Z then Sell else Buy)
                   (pos_volume p) None None s
                 = (Raise AttributeError, s, closing_events cfg tick p)).
    { rewrite (send_order_live _ _ None None s Ht).
      rewrite closing_request_eq, Hp, closing_events_live. reflexivity. }
    rewrite (bind_raise _ (bind_raise _ Hs)). now rewrite app_nil_r.
  - cbn [app for_each flat_map].
    assert (Hq : bind (send_order cfg w
                         (if (pos_type q =? 0)%Z then Sell else Buy)
                         (pos_volume q) None None)
                      (fun _ => ret tt) s
                 = (Ok tt, s, closing_events cfg tick q)).
    { pose proof (send_order_live
                    (if (pos_type q =? 0)%Z then Sell else Buy)
                    (pos_volume q) None None s Ht) as Hs.
      rewrite closing_request_eq in Hs.
      specialize (Hdone q (or_introl eq_refl)).
      destruct (order_send w (closing_request cfg tick q)) as [rc|];
        [|contradiction].
      rewrite (bind_run _ Hs), closing_events_live. reflexivity. }
    rewrite (bind_run _ Hq), IH.
    + reflexivity.
    + intros q' Hin. apply Hdone. now right.
Qed.

End Unanswered.

(** X21. A closing order the broker does not answer aborts the exit.  In
    live mode, when [order_send] returns nothing for the order that closes
    a position, the EXIT branch raises on the spot: the positions after it
    are not attempted and the cooldown anchor is not set, while the orders
    for the positions before it have gone out. *)
Theorem unanswered_close_aborts_exit :
  forall (cfg : Config) (w : World) (tick : Tick)
         (done rest : list Position) (p : Position) (s : RiskState),
    DRY_RUN cfg = false ->
    symbol_info_tick w = Some tick ->
    (forall q, In q done ->
               order_send w (closing_request cfg tick q) <> None) ->
    order_send w (closing_request cfg tick p) = None ->
    exit_positions cfg w (done ++ p :: rest) s
    = (Raise AttributeError, s,
       Log "EXIT SIGNAL" :: flat_map (closing_events cfg tick) (done ++ [p])).
Proof.
  intros cfg w tick done rest p s Hlive Ht Hdone Hp.
  unfold exit_positions.
  rewrite (bind_run _ (eq_refl : log "EXIT SIGNAL" s
                                 = (Ok tt, s, [Log "EXIT SIGNAL"]))).
  rewrite (bind_raise _ (@close_all_unanswered cfg w Hlive tick done rest p s
                           Ht Hdone Hp)).
  reflexivity.
Qed.

Lemma unanswered_close_aborts_exit_witness :
  exit_positions live_config mute_broker_world
    [mkPosition 0 (1 # 2); mkPosition 1 (2 # 10)] day5_state
  = (Raise AttributeError, day5_state,
     [Log "EXIT SIGNAL"; Call CallSymbolInfoTick;
      Call (CallOrderSend
              (closing_request live_config (mkTick 100 (1001 # 10))
                 (mkPosition 0 (1 # 2))))]).
Proof.
  assert (Hdone : forall q, In q [] ->
             order_send mute_broker_world
               (closing_request live_config (mkTick 100 (1001 # 10)) q)
             <> None) by (intros q []).
  exact (@unanswered_close_aborts_exit live_config mute_broker_world
           (mkTick 100 (1001 # 10)) [] [mkPosition 1 (2 # 10)]
           (mkPosition 0 (1 # 2)) day5_state eq_refl eq_refl Hdone eq_refl).
Defined.

(** X22. An entry the broker does not answer starts no cooldown.  In live
    mode, with a signal on either side and a symbol that can be sized,
    when [order_send] returns nothing the ENTRY branch raises right after
    the order has gone out: the cooldown anchor is not set and the globals
    are as before, so that the next pass is free to send the order
    again. *)
Theorem unanswered_entry_starts_no_cooldown :
  forall (cfg : Config) (w : World) (df : DataFrame) (equity : Q)
         (z : zvalue) (s : RiskState) (tick : Tick) (info : SymbolInfo)
         (price : Q),
    DRY_RUN cfg = false ->
    symbol_info_tick w = Some tick ->
    symbol_info w = Some info ->
    iloc_last (closes df) = Some price ->
    (20 <= length df)%nat ->
    ~ trade_tick_size info == 0 ->
    ~ volume_step info == 0 ->
    (forall req, order_send w req = None) ->
    z_ge z (Z_ENTER cfg) = true \/ z_le z (- Z_ENTER cfg) = true ->
    exists req,
      enter cfg w df equity z s
      = (Raise AttributeError, s,
         [Call CallSymbolInfo; Call CallSymbolInfoTick;
          Call (CallOrderSend req)])
      /\ req_type req = (if z_ge z (Z_ENTER cfg) then Sell else Buy).
Proof.
  intros cfg w df equity z s tick info price
         Hlive Ht Hi Hprice Hlen Hts Hst Hmute Hz.
  unfold enter. rewrite Hprice, (last_mean_range df Hlen). cbv zeta.
  match goal with
  | |- context [compute_lot cfg w equity ?sd] =>
      destruct (@compute_lot_ok cfg w equity sd s info Hi Hts Hst)
        as (l & Hlot & _)
  end.
  destruct (z_ge z (Z_ENTER cfg)).
  - rewrite (bind_run _ Hlot).
    match goal with
    | |- context [send_order cfg w Sell ?v ?sl ?tp] =>
        pose proof (@send_order_live cfg w Hlive tick Sell v sl tp s Ht)
          as Hsend;
        rewrite (Hmute (order_request cfg tick Sell v sl tp)) in Hsend
    end.
    rewrite (bind_raise _ Hsend). eexists. split; reflexivity.
  - destruct Hz as [Hz|Hz]; [discriminate|]. rewrite Hz.
    rewrite (bind_run _ Hlot).
    match goal with
    | |- context [send_order cfg w Buy ?v ?sl ?tp] =>
        pose proof (@send_order_live cfg w Hlive tick Buy v sl tp s Ht)
          as Hsend;
        rewrite (Hmute (order_request cfg tick Buy v sl tp)) in Hsend
    end.
    rewrite (bind_raise _ Hsend). eexists. split; reflexivity.
Qed.

Lemma unanswered_entry_starts_no_cooldown_witness :
  exists req,
    enter live_config
      (mkWorld (account_info spike_world) (copy_rates_from spike_world)
         (symbol_info_tick spike_world) (symbol_info spike_world)
         (positions_get spike_world) (fun _ => None)
         (now_day_check spike_world) (now_day_set spike_world)
         (now_gate spike_world) (now_trade spike_world))
      spike_frame 10000 (zscore (detrended live_config spike_frame))
      day5_state
    = (Raise AttributeError, day5_state,
       [Call CallSymbolInfo; Call CallSymbolInfoTick;
        Call (CallOrderSend req)])
    /\ req_type req
       = (if z_ge (zscore (detrended live_config spike_frame))
                  (Z_ENTER live_config)
          then Sell else Buy).
Proof.
  assert (Hlen : (20 <= length spike_frame)%nat)
    by (apply Nat.leb_le; reflexivity).
  assert (Hts : ~ trade_tick_size sample_info == 0)
    by (intros H; vm_compute in H; discriminate).
  assert (Hst : ~ volume_step sample_info == 0)
    by (intros H; vm_compute in H; discriminate).
  assert (Hz : z_ge (zscore (detrended live_config spike_frame))
                 (Z_ENTER live_config) = true
               \/ z_le (zscore (detrended live_config spike_frame))
                    (- Z_ENTER live_config) = true)
    by (left; vm_compute; reflexivity).
  exact (@unanswered_entry_starts_no_cooldown live_config
           (mkWorld (account_info spike_world) (copy_rates_from spike_world)
              (symbol_info_tick spike_world) (symbol_info spike_world)
              (positions_get spike_world) (fun _ => None)
              (now_day_check spike_world) (now_day_set spike_world)
              (now_gate spike_world) (now_trade spike_world))
           spike_frame 10000 (zscore (detrended live_config spike_frame))
           day5_state (mkTick 100 (1001 # 10)) sample_info (1001 # 10)
           eq_refl eq_refl eq_refl eq_refl Hlen Hts Hst
           (fun _ => eq_refl) Hz).
Defined.

(** *** A closed gate *)

(** What a gate that turns the pass away has asked the terminal. *)
Lemma safety_check_failed_trace (cfg : Config) (w : World) (df : DataFrame)
    (s s' : RiskState) (reason : string) (t : list Event) :
  safety_check cfg w df s = (Ok (false, reason), s', t) ->
  s' = s /\ (t = [] \/ t = [Call CallSymbolInfoTick; Call CallSymbolInfo]).
Proof.
  unfold safety_check. m_unfold. simpl.
  destruct (in_trade_hours cfg (now_gate w)); simpl;
    [|intros H; inversion H; auto].
  destruct (in_cooldown _ _ _); simpl; [intros H; inversion H; auto|].
  destruct (last_volatility df) as [vol|]; simpl; [|discriminate].
  destruct (sqrt_gt vol _); simpl; [intros H; inversion H; auto|].
  destruct (symbol_info_tick w) as [tick|]; simpl; [|discriminate].
  destruct (symbol_info w) as [info|]; simpl; [|discriminate].
  destruct (Qltb _ _); simpl; intros H; inversion H; auto.
Qed.

(** X23. A closed gate blocks exits as well as entries.  When the safety
    gate turns the pass away (outside the trading hours, in the cooldown,
    on high volatility or on a wide spread) the decision logic sleeps five
    seconds and does nothing else: it does not ask for the open positions,
    so positions are not closed however close to the mean the price is,
    and no order is emitted. *)
Theorem closed_gate_blocks_exits :
  forall (cfg : Config) (w : World) (equity : Q) (df : DataFrame)
         (s s' : RiskState) (reason : string) (t : list Event),
    copy_rates_from w = Some df ->
    safety_check cfg w df s = (Ok (false, reason), s', t) ->
    decide cfg w equity s
    = (Ok tt, s, Call (CallCopyRatesFrom (LOOKBACK cfg + 5)) :: t ++ [Sleep 5])
    /\ ~ In (Call CallPositionsGet) (trace_of (decide cfg w equity s))
    /\ has_order (trace_of (decide cfg w equity s)) = false.
Proof.
  intros cfg w equity df s s' reason t Hr Hs.
  destruct (safety_check_failed_trace _ _ _ _ Hs) as [-> Ht].
  rewrite (decide_gate_failed cfg w equity s Hr Hs).
  split; [reflexivity|]. cbn [trace_of snd].
  destruct Ht as [-> | ->]; cbn [app In has_order existsb is_order_event orb];
    split; try reflexivity; intuition discriminate.
Qed.

Lemma closed_gate_blocks_exits_witness :
  decide live_config holding_world 10000 (traded_before 60)
  = (Ok tt, traded_before 60, Call (CallCopyRatesFrom 125) :: [] ++ [Sleep 5])
  /\ ~ In (Call CallPositionsGet)
         (trace_of (decide live_config holding_world 10000
                      (traded_before 60)))
  /\ has_order (trace_of (decide live_config holding_world 10000
                            (traded_before 60))) = false.
Proof.
  assert (Hs : safety_check live_config holding_world (flat_frame 125 100)
                 (traded_before 60)
               = (Ok (false, "cooldown"%string), traded_before 60, []))
    by (vm_compute; reflexivity).
  exact (@closed_gate_blocks_exits live_config holding_world 10000
           (flat_frame 125 100) (traded_before 60) (traded_before 60)
           "cooldown" [] eq_refl Hs).
Defined.

(** *** Orders that are answered *)

Section Answered.

Variable cfg : Config.
Variable w : World.
Hypothesis answers : broker_answers cfg w.

Lemma loud_returns_silent (A : Type) (m : M A) : silent m -> loud_returns m.
Proof. intros H s Ho. rewrite H in Ho. discriminate. Qed.

(** A silent prefix does not matter. *)
Lemma loud_returns_after (A B : Type) (m : M A) (k : A -> M B) :
  silent m -> (forall a, loud_returns (k a)) -> loud_returns (bind m k).
Proof.
  intros Hm Hk s. specialize (Hm s).
  unfold loud_returns, bind, trace_of, outcome in *.
  destruct (m s) as [[[a|e] s1] t1]; simpl in *.
  - specialize (Hk a s1). destruct (k a s1) as [[r s2] t2]; simpl in *.
    rewrite has_order_app, Hm. simpl. exact Hk.
  - intros Ho. rewrite Hm in Ho. discriminate.
Qed.

(** Nor does a silent statement that cannot fail, put at the end. *)
Lemma loud_returns_then (A B : Type) (m : M A) (k : A -> M B) :
  loud_returns m ->
  (forall a s, exists b, outcome (k a s) = Ok b) ->
  loud_returns (bind m k).
Proof.
  intros Hm Hk s. specialize (Hm s).
  unfold loud_returns, bind, trace_of, outcome in *.
  destruct (m s) as [[[a|e] s1] t1]; simpl in *.
  - destruct (Hk a s1) as [b Hb].
    destruct (k a s1) as [[r s2] t2]; simpl in *. intros _. now exists b.
  - intros Ho. destruct (Hm Ho) as [a Ha]. discriminate.
Qed.

Lemma send_order_no_tick (side : Side) (volume : Q)
    (sl tp : option pyfloat) (s : RiskState) :
  symbol_info_tick w = None ->
  send_order cfg w side volume sl tp s
  = (Raise AttributeError, s, [Call CallSymbolInfoTick]).
Proof.
  intros Ht. unfold send_order. m_unfold. simpl. rewrite Ht. reflexivity.
Qed.

Lemma loud_returns_send_order (side : Side) (volume : Q)
    (sl tp : option pyfloat) :
  loud_returns (send_order cfg w side volume sl tp).
Proof.
  intros s Ho. destruct (symbol_info_tick w) as [tick|] eqn:Ht.
  - destruct (@send_order_ok cfg w tick side volume sl tp s Ht answers)
      as (filled & Hs & _).
    rewrite Hs. now exists filled.
  - rewrite (send_order_no_tick side volume sl tp s Ht) in Ho. discriminate.
Qed.

Lemma loud_returns_close_all (ps : list Position) :
  loud_returns (for_each ps (fun p =>
    bind (send_order cfg w (if (pos_type p =? 0)%Z then Sell else Buy)
            (pos_volume p) None None)
         (fun _ => ret tt))).
Proof.
  intros s Ho. destruct (symbol_info_tick w) as [tick|] eqn:Ht.
  - rewrite (@close_all_ok cfg w tick ps s Ht answers). now exists tt.
  - destruct ps as [|p ps]; [discriminate|].
    cbn [for_each] in Ho.
    rewrite (bind_raise _ (bind_raise _ (send_order_no_tick _ _ None None s
                                           Ht))) in Ho.
    discriminate.
Qed.

Lemma loud_returns_exit_positions (ps : list Position) :
  loud_returns (exit_positions cfg w ps).
Proof.
  unfold exit_positions. apply loud_returns_after; [unfold log; silence|].
  intros _. apply loud_returns_then; [apply loud_returns_close_all|].
  intros a s. now exists tt.
Qed.

Lemma loud_returns_enter (df : DataFrame) (equity : Q) (z : zvalue) :
  loud_returns (enter cfg w df equity z).
Proof.
  unfold enter.
  destruct (iloc_last (closes df)) as [price|];
    [|apply loud_returns_silent; silence].
  destruct (iloc_last (rolling_mean 20 (ranges df))) as [atr|];
    [|apply loud_returns_silent; silence].
  cbv zeta.
  destruct (z_ge z (Z_ENTER cfg)); [|destruct (z_le z (- Z_ENTER cfg))].
  - apply loud_returns_after; [apply silent_compute_lot|]. intros lots.
    apply loud_returns_then; [apply loud_returns_send_order|].
    intros a s. now exists tt.
  - apply loud_returns_after; [apply silent_compute_lot|]. intros lots.
    apply loud_returns_then; [apply loud_returns_send_order|].
    intros a s. now exists tt.
  - apply loud_returns_silent. silence.
Qed.

Lemma loud_returns_decide (equity : Q) :
  loud_returns (decide cfg w equity).
Proof.
  unfold decide.
  apply loud_returns_after; [apply silent_rates|]. intros df.
  apply loud_returns_after; [apply silent_safety_check|]. intros chk.
  destruct (negb (fst chk));
    [apply loud_returns_silent; unfold sleep; silence|].
  apply loud_returns_after; [apply silent_has_position|]. intros pos.
  apply loud_returns_then.
  - destruct pos as [ps|]; [|apply loud_returns_enter].
    destruct (z_abs_le _ _); [apply loud_returns_exit_positions|].
    apply loud_returns_silent. silence.
  - intros a s. now exists tt.
Qed.

Lemma loud_returns_loop_body : loud_returns (loop_body cfg w).
Proof.
  unfold loop_body.
  apply loud_returns_after; [apply silent_account|]. intros acc.
  apply loud_returns_after; [apply silent_first_equity|]. intros _.
  apply loud_returns_after; [apply silent_daily_reset|]. intros _.
  apply loud_returns_after; [apply silent_daily_loss_hit|]. intros hit.
  destruct hit; [apply loud_returns_silent; unfold log, sleep; silence|].
  apply loud_returns_after; [silence|]. intros s.
  destruct (_ <=? _)%Z;
    [apply loud_returns_silent; unfold log, sleep; silence|].
  apply loud_returns_decide.
Qed.

End Answered.




(** *** The sleep of each branch *)

Lemma existsb_false_not_in (A : Type) (P : A -> bool) (t : list A) (e : A) :
  existsb P t = false -> P e = true -> ~ In e t.
Proof.
  intros Hf He Hin.
  assert (Ht : existsb P t = true)
    by (apply existsb_exists; exists e; split; assumption).
  congruence.
Qed.

Lemma sleep_closes_decide_five (cfg : Config) (w : World) (equity : Q)
    (s : RiskState) :
  sleep_closes [5]%Z (decide cfg w equity s).
Proof.
  unfold decide. revert s.
  apply sleep_closes_after; [unfold rates; repeat never_step | intros df].
  apply sleep_closes_after;
    [unfold safety_check; repeat never_step | intros chk s].
  destruct (negb (fst chk));
    [apply sleep_closes_sleep; simpl; tauto|].
  revert s.
  apply sleep_closes_after; [unfold has_position; repeat never_step|].
  intros pos.
  apply sleep_closes_after.
  - destruct pos as [ps|]; [|apply never_sleep_enter].
    destruct (z_abs_le _ _); [apply never_sleep_exit_positions|].
    apply never_ret.
  - intros _ s. apply sleep_closes_sleep. simpl. tauto.
Qed.

(** The trace of the decision logic: the request for the rates and what
    follows it, without sleep and without the log line of a breaker, and a
    sleep of five seconds at the end exactly when the logic returns. *)
Lemma decide_shape (cfg : Config) (w : World) (equity : Q) (s : RiskState) :
  exists td,
    existsb is_sleep td = false
    /\ existsb is_stop_log td = false
    /\ existsb is_lock_log td = false
    /\ In (Call (CallCopyRatesFrom (LOOKBACK cfg + 5))) td
    /\ ((outcome (decide cfg w equity s) = Ok tt
         /\ trace_of (decide cfg w equity s) = td ++ [Sleep 5])
        \/ ((exists e, outcome (decide cfg w equity s) = Raise e)
            /\ trace_of (decide cfg w equity s) = td)).
Proof.
  pose proof (sleep_closes_decide_five cfg w equity s) as Hc.
  pose proof (never_stop_decide cfg w equity s) as Hst.
  pose proof (never_lock_decide cfg w equity s) as Hlk.
  destruct (decide_trace_head cfg w equity s) as [t' Hhd].
  unfold sleep_closes in Hc.
  destruct (outcome (decide cfg w equity s)) as [[]|e].
  - destruct Hc as (td & n & Ht & Hs & Hin).
    destruct Hin as [<-|[]].
    exists td. rewrite Ht in Hst, Hlk, Hhd.
    rewrite existsb_app in Hst, Hlk.
    apply orb_false_iff in Hst, Hlk.
    split; [exact Hs|]. split; [apply Hst|]. split; [apply Hlk|]. split.
    + destruct td as [|x td]; [discriminate Hhd|].
      inversion Hhd. now left.
    + left. split; [reflexivity | exact Ht].
  - exists (trace_of (decide cfg w equity s)).
    split; [exact Hc|]. split; [exact Hst|]. split; [exact Hlk|]. split.
    + rewrite Hhd. now left.
    + right. split; [now exists e | reflexivity].
Qed.

(** The five ways through the body of a pass. *)
Lemma loop_body_branches (cfg : Config) (w : World) (s : RiskState) :
  (account_info w = None
   /\ loop_body cfg w s = (Raise AttributeError, s, [Call CallAccountInfo]))
  \/ exists acc se,
       account_info w = Some acc
       /\ start_equity (bookkept w (acc_equity acc) s) = Some se
       /\ ((se == 0
            /\ loop_body cfg w s
               = (Raise ArithmeticError, bookkept w (acc_equity acc) s,
                  [Call CallAccountInfo]))
           \/ (~ se == 0
               /\ MAX_DAILY_LOSS cfg < (se - acc_equity acc) / se
               /\ loop_body cfg w s
                  = (Ok tt, bookkept w (acc_equity acc) s,
                     [Call CallAccountInfo;
                      Log "MAX DAILY LOSS HIT → STOP"; Sleep 300]))
           \/ (~ se == 0
               /\ ~ MAX_DAILY_LOSS cfg < (se - acc_equity acc) / se
               /\ (MAX_LOSS_STREAK cfg
                   <= loss_streak (bookkept w (acc_equity acc) s))%Z
               /\ loop_body cfg w s
                  = (Ok tt, bookkept w (acc_equity acc) s,
                     [Call CallAccountInfo; Log "LOSS STREAK LOCK";
                      Sleep 900]))
           \/ (~ se == 0
               /\ ~ MAX_DAILY_LOSS cfg < (se - acc_equity acc) / se
               /\ (loss_streak (bookkept w (acc_equity acc) s)
                   < MAX_LOSS_STREAK cfg)%Z
               /\ loop_body cfg w s
                  = (outcome (decide cfg w (acc_equity acc)
                                (bookkept w (acc_equity acc) s)),
                     state_of (decide cfg w (acc_equity acc)
                                 (bookkept w (acc_equity acc) s)),
                     Call CallAccountInfo
                     :: trace_of (decide cfg w (acc_equity acc)
                                    (bookkept w (acc_equity acc) s))))).
Proof.
  destruct (account_info w) as [acc|] eqn:Ha.
  - right. destruct (bookkept_start_equity w (acc_equity acc) s) as [se Hse].
    exists acc, se. split; [reflexivity|]. split; [exact Hse|].
    destruct (Qeq_bool se 0) eqn:Hz.
    + left. split; [now apply Qeq_bool_iff|].
      unfold loop_body.
      rewrite (bind_run _ (account_ok w s Ha)). cbn [snd].
      rewrite (bind_run _ (first_equity_ok _ s)).
      rewrite (bind_run _ (daily_reset_ok w _ _)).
      fold (bookkept w (acc_equity acc) s).
      rewrite (bind_raise _ (daily_loss_hit_zero cfg _ _ Hse Hz)).
      reflexivity.
    + assert (Hne : ~ se == 0)
        by (intros H; apply Qeq_bool_iff in H; congruence).
      right.
      rewrite (loop_body_after_account cfg w s Ha Hse Hz). cbv zeta.
      destruct (Qltb (MAX_DAILY_LOSS cfg) ((se - acc_equity acc) / se))
        eqn:Hq.
      * left. apply Qltb_lt in Hq. repeat split; assumption.
      * assert (Hn : ~ MAX_DAILY_LOSS cfg < (se - acc_equity acc) / se)
          by (intros H; apply Qltb_lt in H; congruence).
        right.
        destruct (Z.leb_spec (MAX_LOSS_STREAK cfg)
                    (loss_streak (bookkept w (acc_equity acc) s)))
          as [Hle|Hgt].
        -- left. repeat split; assumption.
        -- right. repeat split; assumption.
  - left. split; [reflexivity|].
    unfold loop_body. rewrite (bind_raise _ (account_none w s Ha)).
    reflexivity.
Qed.

(** X4. Every pass of the loop ends with a sleep, sleeps nowhere else, and
    the length of the sleep tells the branch the pass took: 10 seconds
    exactly when the body raised and the handler took over, 300 exactly
    when the daily-loss breaker logged its stop, 900 exactly when the
    loss-streak breaker logged its lock, 5 exactly when the decision logic
    was reached (the rates were asked for) and returned.  Once the account
    has answered and the start-of-day equity is not zero, the sleep is 300
    exactly when the loss of the day exceeds [MAX_DAILY_LOSS], and 900
    exactly when it does not and the loss streak has reached
    [MAX_LOSS_STREAK]. *)
Theorem pass_ends_with_its_only_sleep :
  forall (cfg : Config) (w : World) (s : RiskState),
    exists t n,
      trace_of (loop_pass cfg w s) = t ++ [Sleep n]
      /\ existsb is_sleep t = false
      /\ In n [5; 10; 300; 900]%Z
      /\ (n = 10%Z <-> exists e, outcome (loop_body cfg w s) = Raise e)
      /\ (n = 300%Z <-> In (Log "MAX DAILY LOSS HIT → STOP") t)
      /\ (n = 900%Z <-> In (Log "LOSS STREAK LOCK") t)
      /\ (n = 5%Z
          <-> outcome (loop_body cfg w s) = Ok tt
              /\ In (Call (CallCopyRatesFrom (LOOKBACK cfg + 5))) t)
      /\ (forall acc se,
             account_info w = Some acc ->
             start_equity (bookkept w (acc_equity acc) s) = Some se ->
             ~ se == 0 ->
             (n = 300%Z <-> MAX_DAILY_LOSS cfg < (se - acc_equity acc) / se)
             /\ (n = 900%Z
                 <-> ~ MAX_DAILY_LOSS cfg < (se - acc_equity acc) / se
                     /\ (MAX_LOSS_STREAK cfg
                         <= loss_streak (bookkept w (acc_equity acc) s))%Z)).
Proof.
  intros cfg w s.
  destruct (loop_body_branches cfg w s)
    as [[Ha Hb]
       | (acc & se & Ha & Hse
          & [[Hz Hb]
            | [(Hz & Hq & Hb)
              | [(Hz & Hq & Hl & Hb) | (Hz & Hq & Hl & Hb)]]])].
  - (* no account *)
    unfold loop_pass. rewrite Hb. unfold outcome, trace_of. cbn [fst snd app].
    exists [Call CallAccountInfo; LogError AttributeError], 10%Z.
    split; [reflexivity|]. split; [reflexivity|]. split; [simpl; tauto|].
    split; [split; [intros _; now exists AttributeError | reflexivity]|].
    split; [split; [discriminate | intros [H|[H|[]]]; discriminate]|].
    split; [split; [discriminate | intros [H|[H|[]]]; discriminate]|].
    split; [split; [discriminate | intros [H _]; discriminate]|].
    intros acc se Ha'. congruence.
  - (* start-of-day equity of zero *)
    unfold loop_pass. rewrite Hb. unfold outcome, trace_of. cbn [fst snd app].
    exists [Call CallAccountInfo; LogError ArithmeticError], 10%Z.
    split; [reflexivity|]. split; [reflexivity|]. split; [simpl; tauto|].
    split; [split; [intros _; now exists ArithmeticError | reflexivity]|].
    split; [split; [discriminate | intros [H|[H|[]]]; discriminate]|].
    split; [split; [discriminate | intros [H|[H|[]]]; discriminate]|].
    split; [split; [discriminate | intros [H _]; discriminate]|].
    intros acc' se' Ha' Hse' Hz'.
    assert (acc' = acc) by congruence. subst acc'.
    assert (se' = se) by congruence. subst se'. contradiction.
  - (* daily-loss breaker *)
    unfold loop_pass. rewrite Hb. unfold outcome, trace_of. cbn [fst snd].
    exists [Call CallAccountInfo; Log "MAX DAILY LOSS HIT → STOP"], 300%Z.
    split; [reflexivity|]. split; [reflexivity|]. split; [simpl; tauto|].
    split; [split; [discriminate | intros [e He]; discriminate]|].
    split; [split; [intros _; right; left; reflexivity | reflexivity]|].
    split; [split; [discriminate | intros [H|[H|[]]]; discriminate]|].
    split; [split; [discriminate | intros [_ [H|[H|[]]]]; discriminate]|].
    intros acc' se' Ha' Hse' Hz'.
    assert (acc' = acc) by congruence. subst acc'.
    assert (se' = se) by congruence. subst se'.
    split; [split; [intros _; exact Hq | reflexivity]|].
    split; [discriminate | intros [Hn _]; contradiction].
  - (* loss-streak breaker *)
    unfold loop_pass. rewrite Hb. unfold outcome, trace_of. cbn [fst snd].
    exists [Call CallAccountInfo; Log "LOSS STREAK LOCK"], 900%Z.
    split; [reflexivity|]. split; [reflexivity|]. split; [simpl; tauto|].
    split; [split; [discriminate | intros [e He]; discriminate]|].
    split; [split; [discriminate | intros [H|[H|[]]]; discriminate]|].
    split; [split; [intros _; right; left; reflexivity | reflexivity]|].
    split; [split; [discriminate | intros [_ [H|[H|[]]]]; discriminate]|].
    intros acc' se' Ha' Hse' Hz'.
    assert (acc' = acc) by congruence. subst acc'.
    assert (se' = se) by congruence. subst se'.
    split; [split; [discriminate | intros H; contradiction]|].
    split; [intros _; split; assumption | reflexivity].
  - (* decision logic *)
    destruct (decide_shape cfg w (acc_equity acc)
                (bookkept w (acc_equity acc) s))
      as (td & Hns & Hnst & Hnlk & Hin & [[Ho Ht] | [[e Ho] Ht]]).
    + unfold loop_pass. rewrite Hb, Ho, Ht.
      unfold outcome, trace_of. cbn [fst snd].
      exists (Call CallAccountInfo :: td), 5%Z.
      split; [reflexivity|]. split; [exact Hns|]. split; [simpl; tauto|].
      split; [split; [discriminate | intros [e He]; discriminate]|].
      split.
      { split; [discriminate|]. intros [H|H]; [discriminate|].
        exfalso.
        exact (@existsb_false_not_in _ is_stop_log td
                 (Log "MAX DAILY LOSS HIT → STOP") Hnst eq_refl H). }
      split.
      { split; [discriminate|]. intros [H|H]; [discriminate|].
        exfalso.
        exact (@existsb_false_not_in _ is_lock_log td
                 (Log "LOSS STREAK LOCK") Hnlk eq_refl H). }
      split; [split; [intros _; split; [reflexivity | now right]
                     | reflexivity]|].
      intros acc' se' Ha' Hse' Hz'.
      assert (acc' = acc) by congruence. subst acc'.
      assert (se' = se) by congruence. subst se'.
      split; [split; [discriminate | intros H; contradiction]|].
      split; [discriminate | intros [_ Hle]; lia].
    + unfold loop_pass. rewrite Hb, Ho, Ht.
      unfold outcome, trace_of. cbn [fst snd].
      exists (Call CallAccountInfo :: td ++ [LogError e]), 10%Z.
      split; [cbn [app]; rewrite <- app_assoc; reflexivity|].
      split; [cbn [existsb is_sleep orb];
              rewrite existsb_app, Hns; reflexivity|].
      split; [simpl; tauto|].
      split; [split; [intros _; now exists e | reflexivity]|].
      split.
      { split; [discriminate|]. intros [H|H]; [discriminate|].
        apply in_app_or in H. destruct H as [H|[H|[]]]; [|discriminate].
        exfalso.
        exact (@existsb_false_not_in _ is_stop_log td
                 (Log "MAX DAILY LOSS HIT → STOP") Hnst eq_refl H). }
      split.
      { split; [discriminate|]. intros [H|H]; [discriminate|].
        apply in_app_or in H. destruct H as [H|[H|[]]]; [|discriminate].
        exfalso.
        exact (@existsb_false_not_in _ is_lock_log td
                 (Log "LOSS STREAK LOCK") Hnlk eq_refl H). }
      split; [split; [discriminate | intros [H _]; discriminate]|].
      intros acc' se' Ha' Hse' Hz'.
      assert (acc' = acc) by congruence. subst acc'.
      assert (se' = se) by congruence. subst se'.
      split; [split; [discriminate | intros H; contradiction]|].
      split; [discriminate | intros [_ Hle]; lia].
Qed.
